(** * Agent-as-Coder: the bank-statement parser generator (agent.py)

    A shallow embedding of the three decision-carrying parts of [agent.py]:

    - the line parser that both generated parser templates embed
      ([_parse_icici_transactions], [_parse_generic_transactions]),
    - the parser entry point [parse] with [_fallback_to_csv], and the
      comparison performed by [PDFParserAgent._test_parser],
    - the retry loop [PDFParserAgent.run] and the exit status chosen by
      [main].

    Text is a list of 8-bit characters read as the code points
    U+0000..U+00FF; the Python string methods and the two regular
    expressions used by the source are modelled on that alphabet. *)

From Stdlib Require Import List Ascii String NArith ZArith QArith Bool Lia.
Import ListNotations.
Close Scope Q_scope.
Open Scope nat_scope.

(** ** Python [str] *)

Module PyStr.

Definition str := list ascii.

(** A string literal of the source. *)
Definition lit (s : string) : str := list_ascii_of_string s.

Definition code (c : ascii) : N := N_of_ascii c.

(** [c.isdigit()] restricted to the decimal digits matched by [\d]. *)
Definition isdigit (c : ascii) : bool :=
  ((48 <=? code c) && (code c <=? 57))%N.

(** The characters [str.strip()] and [str.split()] treat as white space:
    U+0009..U+000D, U+001C..U+0020, U+0085 and U+00A0. *)
Definition isspace (c : ascii) : bool :=
  (((9 <=? code c) && (code c <=? 13))
   || ((28 <=? code c) && (code c <=? 32))
   || (code c =? 133) || (code c =? 160))%N.

(** [str.lower()] on one character: A..Z and the accented capitals
    U+00C0..U+00DE (U+00D7, the multiplication sign, excepted). *)
Definition lower_char (c : ascii) : ascii :=
  (if ((65 <=? code c) && (code c <=? 90))
      || ((192 <=? code c) && (code c <=? 222) && negb (code c =? 215))
   then ascii_of_N (code c + 32)
   else c)%N.

Definition lower (s : str) : str := map lower_char s.

(** [s.split(sep)] for a one-character separator: never returns []. *)
Fixpoint split_on (sep : ascii) (s : str) : list str :=
  match s with
  | [] => [[]]
  | c :: s' =>
      if Ascii.eqb c sep then [] :: split_on sep s'
      else match split_on sep s' with
           | [] => [[c]]
           | w :: ws => (c :: w) :: ws
           end
  end.

Fixpoint lstrip (s : str) : str :=
  match s with
  | [] => []
  | c :: s' => if isspace c then lstrip s' else s
  end.

Definition rstrip (s : str) : str := rev (lstrip (rev s)).

(** [s.strip()] *)
Definition strip (s : str) : str := rstrip (lstrip s).

(** [s.split()] without argument: maximal runs of non-space characters.
    [tok] is the run being read. *)
Fixpoint words (tok : str) (s : str) : list str :=
  match s with
  | [] => match tok with [] => [] | _ => [tok] end
  | c :: s' =>
      if isspace c
      then match tok with [] => words [] s' | _ => tok :: words [] s' end
      else words (tok ++ [c]) s'
  end.

Definition split (s : str) : list str := words [] s.

(** [sep.join(l)] *)
Fixpoint join (sep : str) (l : list str) : str :=
  match l with
  | [] => []
  | [x] => x
  | x :: rest => x ++ sep ++ join sep rest
  end.

(** [s.replace(c, '')] for a one-character [c]. *)
Definition remove_char (c : ascii) (s : str) : str :=
  filter (fun x => negb (Ascii.eqb x c)) s.

Fixpoint startswith (p s : str) : bool :=
  match p, s with
  | [], _ => true
  | _ :: _, [] => false
  | a :: p', b :: s' => Ascii.eqb a b && startswith p' s'
  end.

(** [sub in s] *)
Fixpoint contains (sub s : str) : bool :=
  startswith sub s
  || match s with
     | [] => false
     | _ :: s' => contains sub s'
     end.

(** Truth value of a string: [bool(s)]. *)
Definition truthy (s : str) : bool :=
  match s with [] => false | _ => true end.

End PyStr.

(** ** The fragment of [re] the source uses *)

Module Re.
Import PyStr.

Inductive regex : Type :=
| Void
| Eps
| Class (p : ascii -> bool)
| Cat (r1 r2 : regex)
| Alt (r1 r2 : regex)
| Star (r : regex).

(** A literal character, [r+], and [r{n}]. *)
Definition Lit (c : ascii) : regex := Class (Ascii.eqb c).
Definition Plus (r : regex) : regex := Cat r (Star r).
Fixpoint Rep (n : nat) (r : regex) : regex :=
  match n with
  | O => Eps
  | S n' => Cat r (Rep n' r)
  end.
Fixpoint Seq (rs : list regex) : regex :=
  match rs with
  | [] => Eps
  | r :: rs' => Cat r (Seq rs')
  end.

(** The language of a pattern. *)
Inductive matches : regex -> str -> Prop :=
| MEps : matches Eps []
| MClass p c : p c = true -> matches (Class p) [c]
| MCat r1 r2 s1 s2 :
    matches r1 s1 -> matches r2 s2 -> matches (Cat r1 r2) (s1 ++ s2)
| MAltL r1 r2 s : matches r1 s -> matches (Alt r1 r2) s
| MAltR r1 r2 s : matches r2 s -> matches (Alt r1 r2) s
| MStar0 r : matches (Star r) []
| MStarS r s1 s2 :
    matches r s1 -> matches (Star r) s2 -> matches (Star r) (s1 ++ s2).

Fixpoint nullable (r : regex) : bool :=
  match r with
  | Void => false
  | Eps => true
  | Class _ => false
  | Cat r1 r2 => nullable r1 && nullable r2
  | Alt r1 r2 => nullable r1 || nullable r2
  | Star _ => true
  end.

Fixpoint deriv (c : ascii) (r : regex) : regex :=
  match r with
  | Void => Void
  | Eps => Void
  | Class p => if p c then Eps else Void
  | Cat r1 r2 =>
      if nullable r1
      then Alt (Cat (deriv c r1) r2) (deriv c r2)
      else Cat (deriv c r1) r2
  | Alt r1 r2 => Alt (deriv c r1) (deriv c r2)
  | Star r1 => Cat (deriv c r1) (Star r1)
  end.

(** [bool(re.match(r, s))]: some prefix of [s] is in the language. *)
Fixpoint re_match (r : regex) (s : str) : bool :=
  nullable r
  || match s with
     | [] => false
     | c :: s' => re_match (deriv c r) s'
     end.

(** [bool(re.search(r, s))]: a match starts at some position of [s]. *)
Fixpoint re_search (r : regex) (s : str) : bool :=
  re_match r s
  || match s with
     | [] => false
     | _ :: s' => re_search r s'
     end.

(** Decides membership of the whole of [s] in the language. *)
Fixpoint in_language (r : regex) (s : str) : bool :=
  match s with
  | [] => nullable r
  | c :: s' => in_language (deriv c r) s'
  end.

End Re.

(** ** The line parser embedded in both generated templates *)

Module LineParser.
Import PyStr Re.

Definition digit : regex := Class isdigit.
Definition digit_or_comma : regex :=
  Class (fun c => isdigit c || Ascii.eqb c ",").

(** [r'\d{2}-\d{2}-\d{4}'] *)
Definition date_pattern : regex :=
  Seq [Rep 2 digit; Lit "-"; Rep 2 digit; Lit "-"; Rep 4 digit].

(** [r'[\d,]+\.\d{2}'] *)
Definition amount_pattern : regex :=
  Seq [Plus digit_or_comma; Lit "."; Rep 2 digit].

(** One dictionary appended to [transactions]. *)
Record transaction : Type := {
  Date : str;
  Description : str;
  Debit_Amt : str;
  Credit_Amt : str;
  Balance : str
}.

Definition icici_keywords : list str :=
  [lit "debit"; lit "withdrawal"; lit "payment"; lit "purchase"].

Definition generic_keywords : list str :=
  [lit "debit"; lit "withdrawal"; lit "payment"; lit "purchase";
   lit "atm"; lit "card"].

(** [for part in parts[1:]]: the loop filling [description_parts] and
    [amounts]. *)
Fixpoint classify (parts description_parts amounts : list str)
  : list str * list str :=
  match parts with
  | [] => (description_parts, amounts)
  | part :: rest =>
      if re_match amount_pattern part
      then classify rest description_parts
                    (amounts ++ [remove_char "," part])
      else classify rest (description_parts ++ [part]) amounts
  end.

(** [any(word in description.lower() for word in keywords)] *)
Definition has_keyword (keywords : list str) (description : str) : bool :=
  existsb (fun word => contains word (lower description)) keywords.

(** The [if amounts:] block: the triple (debit_amt, credit_amt, balance). *)
Definition assign (keywords : list str) (description : str)
  (amounts : list str) : str * str * str :=
  match amounts with
  | [] => ([], [], [])
  | [a0] =>
      if has_keyword keywords description
      then (a0, [], [])
      else ([], a0, [])
  | [a0; a1] =>
      if has_keyword keywords description
      then (a0, [], a1)
      else ([], a0, a1)
  | a0 :: a1 :: a2 :: _ => (a0, a1, a2)
  end.

(** The body of [for line in lines]: the record the line contributes,
    if any.  Nothing inside the source's [try] can raise once
    [len(parts) >= 3] holds ([parts[0]] exists, and [amounts[2]] is
    read only when there are at least three amounts), so the handler
    is not represented. *)
Definition parse_line (keywords : list str) (raw : str)
  : option transaction :=
  let line := strip raw in
  if negb (truthy line) then None
  else if re_search date_pattern line then
    let parts := split line in
    if (3 <=? List.length parts)%nat then
      match parts with
      | [] => None
      | date :: rest =>
          let '(description_parts, amounts) := classify rest [] [] in
          let description := join (lit " ") description_parts in
          let '(debit_amt, credit_amt, balance) :=
            assign keywords description amounts in
          if truthy description && (truthy debit_amt || truthy credit_amt)
          then Some {| Date := date;
                       Description := description;
                       Debit_Amt := debit_amt;
                       Credit_Amt := credit_amt;
                       Balance := balance |}
          else None
      end
    else None
  else None.

Fixpoint parse_lines (keywords : list str) (lines : list str)
  (transactions : list transaction) : list transaction :=
  match lines with
  | [] => transactions
  | line :: rest =>
      parse_lines keywords rest
        match parse_line keywords line with
        | Some t => transactions ++ [t]
        | None => transactions
        end
  end.

Definition parse_transactions (keywords : list str) (text : str)
  : list transaction :=
  parse_lines keywords (split_on "010" text) [].

Definition _parse_icici_transactions : str -> list transaction :=
  parse_transactions icici_keywords.

Definition _parse_generic_transactions : str -> list transaction :=
  parse_transactions generic_keywords.

End LineParser.


(** ** The part of pandas the source relies on *)

Module Pandas.
Import PyStr.

(** A cell of a frame: text, a number, or the missing-value marker NaN.
    Numbers are exact rationals compared by value. *)
Inductive cell : Type :=
| CStr (s : str)
| CNum (q : Q)
| CNaN.

(** The dtype of a column, as pandas 2 assigns it.  [read_csv] makes a
    column of integer numerals an [int64] column, a column of numerals
    some of which have a decimal point or are blank a [float64] column,
    and a column with a text that is no numeral an [object] column (as
    is every column of a file without rows).  Equal numbers in columns
    of different dtype are not equal for [equals]. *)
Inductive dtype : Type :=
| int64
| float64
| object.

Definition eqb_dtype (a b : dtype) : bool :=
  match a, b with
  | int64, int64 | float64, float64 | object, object => true
  | _, _ => false
  end.

(** A column: its dtype and its cells.  The index is always the default
    one. *)
Record Series : Type := series {
  dtype_of : dtype;
  values :> list cell
}.

(** Columns in order, each with its label.  Labels are distinct in every
    frame the program builds ([read_csv] renames duplicates, and the
    parser's dictionaries have distinct keys).  The index is always the
    default one, so a frame is its columns. *)
Definition DataFrame : Type := list (str * Series).

Inductive exn : Type :=
| FileNotFoundError (msg : string)
| KeyError (key : str)
| ValueError (msg : string)
| OtherError (msg : string).

(** Computations that either return or raise. *)
Inductive result (A : Type) : Type :=
| Ok (a : A)
| Raise (e : exn).
Arguments Ok {A} a.
Arguments Raise {A} e.

Definition bind {A B : Type} (m : result A) (k : A -> result B) : result B :=
  match m with
  | Ok a => k a
  | Raise e => Raise e
  end.

Notation "x <- m ;; k" := (bind m (fun x => k))
  (at level 61, m at next level, right associativity).

Fixpoint mapM {A B : Type} (f : A -> result B) (l : list A)
  : result (list B) :=
  match l with
  | [] => Ok []
  | a :: l' => b <- f a ;; bs <- mapM f l' ;; Ok (b :: bs)
  end.

Fixpoint eqb_str (s t : str) : bool :=
  match s, t with
  | [], [] => true
  | a :: s', b :: t' => Ascii.eqb a b && eqb_str s' t'
  | _, _ => false
  end.

Fixpoint eqb_list {A : Type} (eqb : A -> A -> bool) (l m : list A) : bool :=
  match l, m with
  | [] , [] => true
  | a :: l', b :: m' => eqb a b && eqb_list eqb l' m'
  | _, _ => false
  end.

Definition columns (df : DataFrame) : list str := map fst df.

(** [len(df)]: the number of rows. *)
Definition len (df : DataFrame) : nat :=
  match df with
  | [] => O
  | (_, col) :: _ => List.length col
  end.

(** [df.empty]: some axis has length zero. *)
Definition empty (df : DataFrame) : bool :=
  match df with
  | [] => true
  | (_, col) :: _ => match values col with [] => true | _ => false end
  end.

(** [df[key]] *)
Fixpoint getitem (df : DataFrame) (key : str) : result Series :=
  match df with
  | [] => Raise (KeyError key)
  | (label, col) :: df' =>
      if eqb_str label key then Ok col else getitem df' key
  end.

(** [df[key] = col]: an existing column is replaced in place, a new one
    is added last. *)
Fixpoint setitem (df : DataFrame) (key : str) (col : Series) : DataFrame :=
  match df with
  | [] => [(key, col)]
  | (label, old) :: df' =>
      if eqb_str label key then (label, col) :: df'
      else (label, old) :: setitem df' key col
  end.

(** Equality of two cells as [equals] sees it: NaN equals NaN in the
    same position, numbers by value, text by characters. *)
Definition cell_equals (a b : cell) : bool :=
  match a, b with
  | CStr s, CStr t => eqb_str s t
  | CNum p, CNum q => Qeq_bool p q
  | CNaN, CNaN => true
  | _, _ => false
  end.

(** [Series.equals]: the same dtype, the same length, the same cells. *)
Definition series_equals (a b : Series) : bool :=
  eqb_dtype (dtype_of a) (dtype_of b) && eqb_list cell_equals a b.

(** [DataFrame.equals]: the same labels in the same order, and under
    each label columns of the same dtype with the same cells. *)
Definition df_equals (a b : DataFrame) : bool :=
  eqb_list (fun x y => eqb_str (fst x) (fst y)
                       && series_equals (snd x) (snd y)) a b.

(** The cell [c] is left as it is by the replacement [f]. *)
Definition kept (f : cell -> cell) (c : cell) : bool := cell_equals c (f c).

(** A replacement of cells by text in one column: a column in which
    nothing is replaced keeps its dtype, a column in which some cell is
    replaced becomes an [object] column. *)
Definition map_series (f : cell -> cell) (col : Series) : Series :=
  {| dtype_of := if forallb (kept f) col then dtype_of col else object;
     values := map f col |}.

Definition map_cells (f : cell -> cell) (df : DataFrame) : DataFrame :=
  map (fun '(label, col) => (label, map_series f col)) df.

(** [.fillna('')] *)
Definition fillna_cell (c : cell) : cell :=
  match c with
  | CNaN => CStr []
  | _ => c
  end.
Definition fillna_series (s : Series) : Series := map_series fillna_cell s.
Definition fillna (df : DataFrame) : DataFrame := map_cells fillna_cell df.

(** [.replace(0.0, '')] *)
Definition replace_zero_cell (c : cell) : cell :=
  match c with
  | CNum q => if Qeq_bool q 0%Q then CStr [] else c
  | _ => c
  end.
Definition replace_zero (df : DataFrame) : DataFrame :=
  map_cells replace_zero_cell df.

Section Conversions.

(** The two text conversions pandas performs are library code.
    [to_numeric_text s] is the number [pd.to_numeric] reads from the
    text [s], if it reads one.  [strptime_strftime s] is [s] parsed with
    the format '%d-%m-%Y' and printed back with the same format; [None]
    when pandas rejects [s]. *)
Variable to_numeric_text : str -> option Q.
Variable strptime_strftime : str -> option str.

Definition to_numeric_cell (c : cell) : cell :=
  match c with
  | CStr s => match to_numeric_text s with
              | Some q => CNum q
              | None => CNaN
              end
  | _ => c
  end.

(** A text that pandas reads as an integer: a numeral without a decimal
    point and without an exponent. *)
Definition integer_text (s : str) : bool :=
  match to_numeric_text s with
  | Some _ =>
      negb (existsb (fun c => Ascii.eqb c "."%char || Ascii.eqb c "e"%char
                              || Ascii.eqb c "E"%char) s)
  | None => false
  end.

Definition integer_text_cell (c : cell) : bool :=
  match c with
  | CStr s => integer_text s
  | _ => false
  end.

(** [pd.to_numeric(col, errors='coerce')]: a numeric column is returned
    as it is.  The cells of an [object] column are converted one by
    one, a text that is no number becoming NaN; the result is an
    [int64] column when every cell was read as an integer (so also
    when there is no cell) and a [float64] column otherwise. *)
Definition to_numeric (col : Series) : Series :=
  match dtype_of col with
  | object =>
      {| dtype_of := if forallb integer_text_cell col then int64
                     else float64;
         values := map to_numeric_cell col |}
  | _ => col
  end.

(** [pd.to_datetime(col, format='%d-%m-%Y').dt.strftime('%d-%m-%Y')]:
    a missing value stays missing; a number is turned into its decimal
    text, which never has the shape the format asks for.  The result
    is an [object] column. *)
Definition to_datetime_cell (c : cell) : result cell :=
  match c with
  | CStr s => match strptime_strftime s with
              | Some s' => Ok (CStr s')
              | None => Raise (ValueError "time data doesn't match format")
              end
  | CNum _ => Raise (ValueError "time data doesn't match format")
  | CNaN => Ok CNaN
  end.
Definition to_datetime_strftime (col : Series) : result Series :=
  cells <- mapM to_datetime_cell col ;;
  Ok (series object cells).

End Conversions.

End Pandas.

(** ** The generated parser: [parse] and [_fallback_to_csv] *)

Module GeneratedParser.
Import PyStr LineParser Pandas.

(** What one run of the parser meets on disk, next to the statement. *)
Record files : Type := {
  (** [os.path.exists(pdf_path)] *)
  pdf_exists : bool;
  (** [_extract_text_from_pdf(pdf_path)]: the text, or what it raises *)
  pdf_text : result str;
  (** [None] when neither expected_result.csv nor result.csv exists in
      the statement's directory; otherwise what [pd.read_csv] returns
      or raises on the one that is picked *)
  reference : option (result DataFrame);
  (** [_save_results(df, pdf_path)] *)
  save_results : result unit
}.

(** The two templates [_generate_parser] chooses from. *)
Inductive template : Type :=
| icici_template
| generic_template.

Definition transactions_parser (t : template) : str -> list transaction :=
  match t with
  | icici_template => _parse_icici_transactions
  | generic_template => _parse_generic_transactions
  end.

(** [pd.DataFrame(transactions)]: no column at all for an empty list;
    otherwise five [object] columns of text. *)
Definition frame_of (transactions : list transaction) : DataFrame :=
  match transactions with
  | [] => []
  | _ =>
      [(lit "Date", series object (map (fun t => CStr (Date t)) transactions));
       (lit "Description",
         series object (map (fun t => CStr (Description t)) transactions));
       (lit "Debit Amt",
         series object (map (fun t => CStr (Debit_Amt t)) transactions));
       (lit "Credit Amt",
         series object (map (fun t => CStr (Credit_Amt t)) transactions));
       (lit "Balance",
         series object (map (fun t => CStr (Balance t)) transactions))]
  end.

Section Conversions.

Variable to_numeric_text : str -> option Q.
Variable strptime_strftime : str -> option str.

Definition read_reference (fs : files) (msg : string) : result DataFrame :=
  match reference fs with
  | None => Raise (FileNotFoundError msg)
  | Some read => read
  end.

Definition _fallback_to_csv (fs : files) : result DataFrame :=
  df <- read_reference fs "Expected CSV file not found" ;;
  date <- getitem df (lit "Date") ;;
  date <- to_datetime_strftime strptime_strftime date ;;
  let df := setitem df (lit "Date") date in
  debit <- getitem df (lit "Debit Amt") ;;
  let df := setitem df (lit "Debit Amt")
              (fillna_series (to_numeric to_numeric_text debit)) in
  credit <- getitem df (lit "Credit Amt") ;;
  let df := setitem df (lit "Credit Amt")
              (fillna_series (to_numeric to_numeric_text credit)) in
  balance <- getitem df (lit "Balance") ;;
  let df := setitem df (lit "Balance")
              (to_numeric to_numeric_text balance) in
  Ok df.

(** The body of the [try] in [parse]. *)
Definition parse_try (t : template) (fs : files) : result DataFrame :=
  text <- pdf_text fs ;;
  let transactions := transactions_parser t text in
  let df := frame_of transactions in
  if empty df then _fallback_to_csv fs
  else
    date <- getitem df (lit "Date") ;;
    date <- to_datetime_strftime strptime_strftime date ;;
    let df := setitem df (lit "Date") date in
    debit <- getitem df (lit "Debit Amt") ;;
    let df := setitem df (lit "Debit Amt")
                (to_numeric to_numeric_text debit) in
    credit <- getitem df (lit "Credit Amt") ;;
    let df := setitem df (lit "Credit Amt")
                (to_numeric to_numeric_text credit) in
    balance <- getitem df (lit "Balance") ;;
    let df := setitem df (lit "Balance")
                (to_numeric to_numeric_text balance) in
    debit <- getitem df (lit "Debit Amt") ;;
    let df := setitem df (lit "Debit Amt") (fillna_series debit) in
    credit <- getitem df (lit "Credit Amt") ;;
    let df := setitem df (lit "Credit Amt") (fillna_series credit) in
    _ <- save_results fs ;;
    Ok df.

(** [parse(pdf_path)]: any exception of the body leads to the fallback. *)
Definition parse (t : template) (fs : files) : result DataFrame :=
  match parse_try t fs with
  | Ok df => Ok df
  | Raise _ => _fallback_to_csv fs
  end.

End Conversions.

End GeneratedParser.

(** ** The agent: [_test_parser], [run] and [main] *)

Module Agent.
Import PyStr LineParser Pandas GeneratedParser.

(** An entry of [error_log]: the two message formats of the source. *)
Inductive log_entry : Type :=
| ErrorInAttempt (attempt : Z) (e : exn)
| ParserTestFailed (e : exn).

Record AgentState : Type := {
  target_bank : str;
  attempt : Z;
  max_attempts : Z;
  success : bool;
  error_log : list log_entry;
  generated_code : option template
}.

Definition set_attempt (st : AgentState) (n : Z) : AgentState :=
  {| target_bank := target_bank st; attempt := n;
     max_attempts := max_attempts st; success := success st;
     error_log := error_log st; generated_code := generated_code st |}.

Definition set_success (st : AgentState) (b : bool) : AgentState :=
  {| target_bank := target_bank st; attempt := attempt st;
     max_attempts := max_attempts st; success := b;
     error_log := error_log st; generated_code := generated_code st |}.

Definition append_error (st : AgentState) (e : log_entry) : AgentState :=
  {| target_bank := target_bank st; attempt := attempt st;
     max_attempts := max_attempts st; success := success st;
     error_log := error_log st ++ [e];
     generated_code := generated_code st |}.

Definition set_generated_code (st : AgentState) (t : template)
  : AgentState :=
  {| target_bank := target_bank st; attempt := attempt st;
     max_attempts := max_attempts st; success := success st;
     error_log := error_log st; generated_code := Some t |}.

(** The outcome of the comparison in [_test_parser]. *)
Inductive verdict : Type :=
| Pass
| PassLenient
| Fail.

Definition passed (v : verdict) : bool :=
  match v with
  | Fail => false
  | _ => true
  end.

(** [df.fillna('')] followed by [df.replace(0.0, '')] *)
Definition normalize (df : DataFrame) : DataFrame :=
  replace_zero (fillna df).

(** The [core_match] expression, with the short circuit of [and]. *)
Definition core_match (result_df expected_df : DataFrame) : result bool :=
  if negb (len result_df =? len expected_df)%nat then Ok false
  else if negb (eqb_list eqb_str (columns result_df) (columns expected_df))
  then Ok false
  else
    rd <- getitem result_df (lit "Date") ;;
    ed <- getitem expected_df (lit "Date") ;;
    if negb (series_equals rd ed) then Ok false
    else
      rb <- getitem result_df (lit "Balance") ;;
      eb <- getitem expected_df (lit "Balance") ;;
      Ok (series_equals rb eb).

(** The comparison of [_test_parser], from the two [reset_index] calls
    to the [return] statements. *)
Definition compare (result_df expected_df : DataFrame) : result verdict :=
  let result_df := normalize result_df in
  let expected_df := normalize expected_df in
  let are_equal := df_equals result_df expected_df in
  if negb are_equal then
    ok <- core_match result_df expected_df ;;
    if ok then Ok PassLenient else Ok Fail
  else Ok Pass.

Section Conversions.

Variable to_numeric_text : str -> option Q.
Variable strptime_strftime : str -> option str.

(** The body of the [try] in [_test_parser]. *)
Definition test_try (st : AgentState) (fs : files) : result verdict :=
  t <- match generated_code st with
       | Some t => Ok t
       | None => Raise (OtherError "No module named parser")
       end ;;
  result_df <- parse to_numeric_text strptime_strftime t fs ;;
  expected_df <- read_reference fs "No such file or directory" ;;
  compare result_df expected_df.

Definition _test_parser (st : AgentState) (fs : files)
  : bool * AgentState :=
  match test_try st fs with
  | Ok v => (passed v, st)
  | Raise e => (false, append_error st (ParserTestFailed e))
  end.

Definition _analyze_data (fs : files) : result DataFrame :=
  match reference fs with
  | None => Raise (FileNotFoundError "CSV file not found")
  | Some read =>
      expected_df <- read ;;
      if pdf_exists fs then Ok expected_df
      else Raise (FileNotFoundError "PDF file not found")
  end.

(** The parser file is written to custom_parsers/; the write itself is
    taken to succeed. *)
Definition _generate_parser (st : AgentState) (fs : files)
  : result AgentState :=
  _ <- read_reference fs "No such file or directory" ;;
  let parser_code :=
    if eqb_str (target_bank st) (lit "icici") then icici_template
    else generic_template in
  Ok (set_generated_code st parser_code).

(** The three steps inside the [try] of [run]: what [_test_parser]
    returned and the state it left, unless a step raised. *)
Definition attempt_try (st : AgentState) (fs : files)
  : result (bool * AgentState) :=
  _ <- _analyze_data fs ;;
  st1 <- _generate_parser st fs ;;
  Ok (_test_parser st1 fs).

(** One turn of the [while] loop of [run]: the state after it, and
    whether the turn ended in [break]. *)
Definition cycle (st : AgentState) (fs : files) : AgentState * bool :=
  match attempt_try st fs with
  | Ok (true, st2) => (set_success st2 true, true)
  | Ok (false, st2) => (set_attempt st2 (attempt st2 + 1), false)
  | Raise e =>
      let st1 := append_error st (ErrorInAttempt (attempt st) e) in
      (set_attempt st1 (attempt st1 + 1), false)
  end.

(** The [while] loop.  [env a] is what attempt number [a] finds on disk;
    [started] collects the attempt numbers of the turns entered (the
    "Attempt a/max" lines of the log).  [None] only when [fuel] runs out
    before the loop condition fails. *)
Fixpoint run_loop (fuel : nat) (env : Z -> files) (st : AgentState)
  (started : list Z) : option (AgentState * list Z) :=
  if (attempt st <=? max_attempts st)%Z && negb (success st) then
    match fuel with
    | O => None
    | S fuel' =>
        let '(st', break) := cycle st (env (attempt st)) in
        if break then Some (st', started ++ [attempt st])
        else run_loop fuel' env st' (started ++ [attempt st])
    end
  else Some (st, started).

Definition run (fuel : nat) (env : Z -> files) (st : AgentState)
  : option (AgentState * list Z) :=
  run_loop fuel env st [].

(** [PDFParserAgent.__init__]: [pdf_found] tells whether the bank
    directory holds a PDF. *)
Definition __init__ (target : str) (pdf_found : bool) : result AgentState :=
  if pdf_found then
    Ok {| target_bank := lower target; attempt := 1; max_attempts := 3;
          success := false; error_log := []; generated_code := None |}
  else Raise (FileNotFoundError "No PDF files found").

Inductive stdout_line : Type :=
| SuccessLine (target : str)
| ParserLocation (target : str)
| FailedLine (target : str) (attempts : Z)
| ErrorsEncountered
| ErrorLine (e : log_entry).

(** How the process ends: [sys.exit(code)] after the printed lines, or
    an exception nobody catches. *)
Inductive process_end : Type :=
| SysExit (code : Z) (printed : list stdout_line)
| Uncaught (e : exn).

Definition main (fuel : nat) (target : str) (pdf_found : bool)
  (env : Z -> files) : option process_end :=
  match __init__ target pdf_found with
  | Raise e => Some (Uncaught e)
  | Ok st0 =>
      match run fuel env st0 with
      | None => None
      | Some (st, _) =>
          if success st then
            Some (SysExit 0 [SuccessLine target;
                             ParserLocation (target_bank st)])
          else
            Some (SysExit 1
                    (FailedLine target (max_attempts st)
                     :: match error_log st with
                        | [] => []
                        | errors =>
                            ErrorsEncountered :: map ErrorLine errors
                        end))
      end
  end.

End Conversions.

End Agent.

(** ** Reference conversions for plain inputs

    Executable stand-ins for the two library conversions, used to run
    the model on concrete files: unsigned decimal literals such as
    5000.00, and day-month-year dates of the Gregorian calendar.  The
    further notations pandas accepts (signs, exponents, a space in
    place of a leading zero) are not covered. *)

Module PlainText.
Import PyStr.

Fixpoint number_of_digits (acc : N) (s : str) : option N :=
  match s with
  | [] => Some acc
  | c :: s' =>
      if isdigit c then number_of_digits (acc * 10 + (code c - 48)) s'
      else None
  end.

Definition natural (s : str) : option N :=
  match s with
  | [] => None
  | _ => number_of_digits 0 s
  end.

Definition decimal_text (s : str) : option Q :=
  match split_on "." s with
  | [i] => option_map (fun n => inject_Z (Z.of_N n)) (natural i)
  | [i; f] =>
      match natural i, number_of_digits 0 f with
      | Some a, Some b =>
          let scale := (10 ^ Z.of_nat (List.length f))%Z in
          Some (Qmake (Z.of_N a * scale + Z.of_N b) (Z.to_pos scale))
      | _, _ => None
      end
  | _ => None
  end.

Definition leap (y : N) : bool :=
  ((y mod 4 =? 0) && (negb (y mod 100 =? 0) || (y mod 400 =? 0)))%N.

Definition days_in_month (y m : N) : N :=
  (if m =? 2 then (if leap y then 29 else 28)
   else if (m =? 4) || (m =? 6) || (m =? 9) || (m =? 11) then 30
   else 31)%N.

Definition two_digits (n : N) : str :=
  [ascii_of_N (48 + n / 10); ascii_of_N (48 + n mod 10)]%N.

Definition day_month_year (s : str) : option str :=
  match split_on "-" s with
  | [d; m; y] =>
      if ((List.length d <=? 2) && (List.length m <=? 2)
          && (List.length y =? 4))%nat
      then
        match natural d, natural m, natural y with
        | Some dv, Some mv, Some yv =>
            if ((1 <=? mv) && (mv <=? 12) && (1 <=? dv)
                && (dv <=? days_in_month yv mv))%N
            then Some (two_digits dv ++ lit "-" ++ two_digits mv
                       ++ lit "-" ++ y)
            else None
        | _, _, _ => None
        end
      else None
  | _ => None
  end.

End PlainText.

(** ** Shapes of tokens, stated without the matcher *)

Module Shapes.
Import PyStr.

(** [s] has an occurrence of a token satisfying [P]. *)
Definition occurs_in (P : str -> Prop) (s : str) : Prop :=
  exists a tok b, s = a ++ tok ++ b /\ P tok.

(** Two digits, a dash, two digits, a dash, four digits. *)
Definition date_shaped (tok : str) : Prop :=
  exists d1 d2 m1 m2 y1 y2 y3 y4,
    tok = [d1; d2; "-"; m1; m2; "-"; y1; y2; y3; y4]%char
    /\ Forall (fun c => isdigit c = true) [d1; d2; m1; m2; y1; y2; y3; y4].

(** A non-empty run of digits and separating commas, a decimal point,
    and two digits, with nothing after them. *)
Definition amount_shaped (tok : str) : Prop :=
  exists run d1 d2,
    tok = run ++ ["."; d1; d2]%char
    /\ run <> []
    /\ Forall (fun c => isdigit c = true \/ c = ","%char) run
    /\ isdigit d1 = true /\ isdigit d2 = true.

(** [tok] begins with an amount; what follows it is not examined. *)
Definition amount_prefixed (tok : str) : Prop :=
  exists head rest, tok = head ++ rest /\ amount_shaped head.

(** The tokens of a line after its first one, as [str.split] cuts
    the stripped line. *)
Definition tokens_after_date (raw : str) : list str :=
  tl (split (strip raw)).

(** The amount tokens found on a line, commas removed, and the
    description made of the other tokens, both in their order on the
    line. *)
Definition amounts_of_line (raw : str) : list str :=
  map (remove_char ",")
      (filter (Re.re_match LineParser.amount_pattern) (tokens_after_date raw)).

Definition description_of_line (raw : str) : str :=
  join (lit " ")
       (filter (fun tok => negb (Re.re_match LineParser.amount_pattern tok))
               (tokens_after_date raw)).

(** Some keyword occurs in the lower-cased description. *)
Definition mentions_keyword (keywords : list str) (description : str)
  : Prop :=
  exists word, In word keywords /\ contains word (lower description) = true.

(** The first amount goes to the debit field when the description
    mentions a keyword, to the credit field otherwise. *)
Definition first_by_keyword (keywords : list str)
  (t : LineParser.transaction) (a0 : str) : Prop :=
  (mentions_keyword keywords (LineParser.Description t) ->
   LineParser.Debit_Amt t = a0 /\ LineParser.Credit_Amt t = [])
  /\ (~ mentions_keyword keywords (LineParser.Description t) ->
      LineParser.Debit_Amt t = [] /\ LineParser.Credit_Amt t = a0).

(** How the fields of the record [t] built from [raw] follow from the
    number of amount tokens on the line. *)
Definition assigned_by_count (keywords : list str) (raw : str)
  (t : LineParser.transaction) : Prop :=
  match amounts_of_line raw with
  | [] => False
  | [a0] => first_by_keyword keywords t a0 /\ LineParser.Balance t = []
  | [a0; a1] => first_by_keyword keywords t a0 /\ LineParser.Balance t = a1
  | a0 :: a1 :: a2 :: _ =>
      LineParser.Debit_Amt t = a0 /\ LineParser.Credit_Amt t = a1
      /\ LineParser.Balance t = a2
  end.

(** What every record of the table satisfies. *)
Definition well_formed_record (t : LineParser.transaction) : Prop :=
  LineParser.Description t <> []
  /\ (LineParser.Debit_Amt t <> [] \/ LineParser.Credit_Amt t <> []).

End Shapes.

(** ** Tables, stated without the boolean tests *)

Module TableShapes.
Import PyStr Pandas.

(** The empty-string sentinel. *)
Definition sentinel : cell := CStr [].

(** A cell after normalisation: a missing value and a numeric zero
    both become the sentinel; anything else is kept. *)
Definition normalized_cell (c : cell) : cell :=
  match c with
  | CNaN => sentinel
  | CNum q => if Qeq_bool q 0%Q then sentinel else CNum q
  | CStr s => CStr s
  end.

(** Two cells hold the same value. *)
Definition same_cell (a b : cell) : Prop :=
  match a, b with
  | CStr s, CStr t => s = t
  | CNum p, CNum q => Qeq p q
  | CNaN, CNaN => True
  | _, _ => False
  end.



(** A column that [read_csv] stored as numbers: every entry of the
    file was a plain numeral or blank. *)
Definition numeric_column (col : Series) : Prop :=
  dtype_of col = int64 \/ dtype_of col = float64.

(** A cell that holds no text. *)
Definition numeric_or_missing (c : cell) : Prop :=
  match c with
  | CStr _ => False
  | _ => True
  end.

Section Dates.

Variable strptime_strftime : str -> option str.

(** A date cell that reformatting leaves as it is. *)
Definition settled_date (c : cell) : Prop :=
  match c with
  | CStr s => strptime_strftime s = Some s
  | CNum _ => False
  | CNaN => True
  end.

(** A reference table with the four columns the fallback touches, its
    dates already in the printed form and no text among its amounts. *)
Definition plain_reference (df : DataFrame) : Prop :=
  (exists col, getitem df (lit "Date") = Ok col /\ Forall settled_date col)
  /\ (exists col, getitem df (lit "Debit Amt") = Ok col
                  /\ Forall numeric_or_missing col)
  /\ (exists col, getitem df (lit "Credit Amt") = Ok col
                  /\ Forall numeric_or_missing col)
  /\ (exists col, getitem df (lit "Balance") = Ok col
                  /\ Forall numeric_or_missing col).

(** A reference table that the fallback replays: a Date column of text
    (or with a blank) whose cells reformatting leaves as they are, and
    Debit Amt, Credit Amt and Balance columns stored as numbers. *)
Definition numeric_reference (df : DataFrame) : Prop :=
  (exists col, getitem df (lit "Date") = Ok col
               /\ Forall settled_date col
               /\ (dtype_of col = object \/ In CNaN col))
  /\ (exists col, getitem df (lit "Debit Amt") = Ok col
                  /\ numeric_column col)
  /\ (exists col, getitem df (lit "Credit Amt") = Ok col
                  /\ numeric_column col)
  /\ (exists col, getitem df (lit "Balance") = Ok col
                  /\ numeric_column col).

End Dates.

End TableShapes.

(** ** Runs of the agent, stated without the loop *)

Module DriverShapes.
Import Pandas GeneratedParser Agent.

(** The attempt numbers [a], [a + 1], ... of [n] consecutive turns. *)
Fixpoint count_from (a : Z) (n : nat) : list Z :=
  match n with
  | O => []
  | S n' => a :: count_from (a + 1)%Z n'
  end.

(** The turns left to an agent in state [st]. *)
Definition attempts_left (st : AgentState) : nat :=
  Z.to_nat (max_attempts st + 1 - attempt st).

(** The reference file is absent, or it is there and the statement is
    not. *)
Definition missing_input (fs : files) : Prop :=
  reference fs = None
  \/ (exists df, reference fs = Some (Ok df) /\ pdf_exists fs = false).

(** The entry logged for a missing file at attempt [a]. *)
Definition missing_file_entry (entry : log_entry) (a : Z) : Prop :=
  exists msg, entry = ErrorInAttempt a (FileNotFoundError msg).

(** The state [__init__] builds for [target]. *)
Definition initial_state (target : PyStr.str) : AgentState :=
  {| target_bank := PyStr.lower target; attempt := 1; max_attempts := 3;
     success := false; error_log := []; generated_code := None |}.

(** What [main] prints after the first line of a failed run. *)
Definition diagnostics (log : list log_entry) : list stdout_line :=
  match log with
  | [] => []
  | _ => ErrorsEncountered :: map ErrorLine log
  end.

(** How [main] ends after a run that left the state [st]. *)
Definition exit_of (target : PyStr.str) (st : AgentState) : process_end :=
  if success st
  then SysExit 0 [SuccessLine target; ParserLocation (target_bank st)]
  else SysExit 1 (FailedLine target (max_attempts st)
                  :: diagnostics (error_log st)).

End DriverShapes.

(** ** Sample inputs *)

Module Samples.
Import PyStr LineParser.

Definition newline : string := String "010" EmptyString.

(** Two transactions and a line that is none. *)
Definition statement : str :=
  lit ("01-01-2024 Salary Credit 5000.00 10000.00" ++ newline
       ++ "02-01-2024 ATM Withdrawal 2000.00 8000.00" ++ newline
       ++ "garbage line").

Definition salary_line : str :=
  lit "01-01-2024 Salary Credit 5000.00 10000.00".

Definition salary_record : transaction :=
  {| Date := lit "01-01-2024"; Description := lit "Salary Credit";
     Debit_Amt := []; Credit_Amt := lit "5000.00";
     Balance := lit "10000.00" |}.

Definition atm_line : str :=
  lit "02-01-2024 ATM Withdrawal 2000.00 8000.00".

Definition atm_record : transaction :=
  {| Date := lit "02-01-2024"; Description := lit "ATM Withdrawal";
     Debit_Amt := lit "2000.00"; Credit_Amt := [];
     Balance := lit "8000.00" |}.

(** A line with three amounts. *)
Definition transfer_line : str :=
  lit "03-01-2024 Transfer 10.00 20.00 30.00".

Definition transfer_record : transaction :=
  {| Date := lit "03-01-2024"; Description := lit "Transfer";
     Debit_Amt := lit "10.00"; Credit_Amt := lit "20.00";
     Balance := lit "30.00" |}.

Definition header_text : str :=
  lit ("Statement of account" ++ newline ++ "Page 1 of 2").

Definition dated_short_line : str := lit "01-01-2024 5000.00".

(** A token with three digits after the decimal point. *)
Definition long_fraction : str := lit "12.345".

End Samples.

Module TableSamples.
Import PyStr Pandas GeneratedParser Samples.

(** The reference table of [Samples.statement], as [read_csv] returns
    it from a file with the amounts written as 5000.00: blank amounts
    are missing values, and the three amount columns are [float64]. *)
Definition reference_table : DataFrame :=
  [(lit "Date",
     series object [CStr (lit "01-01-2024"); CStr (lit "02-01-2024")]);
   (lit "Description",
     series object [CStr (lit "Salary Credit"); CStr (lit "ATM Withdrawal")]);
   (lit "Debit Amt", series float64 [CNaN; CNum 2000%Q]);
   (lit "Credit Amt", series float64 [CNum 5000%Q; CNaN]);
   (lit "Balance", series float64 [CNum 10000%Q; CNum 8000%Q])].

(** The same reference from a file with the amounts written without a
    decimal point, as 5000: the balances, none of them blank, are an
    [int64] column. *)
Definition integer_reference_table : DataFrame :=
  [(lit "Date",
     series object [CStr (lit "01-01-2024"); CStr (lit "02-01-2024")]);
   (lit "Description",
     series object [CStr (lit "Salary Credit"); CStr (lit "ATM Withdrawal")]);
   (lit "Debit Amt", series float64 [CNaN; CNum 2000%Q]);
   (lit "Credit Amt", series float64 [CNum 5000%Q; CNaN]);
   (lit "Balance", series int64 [CNum 10000%Q; CNum 8000%Q])].


(** A reference whose balance was written with a thousands separator,
    which [read_csv] keeps as text. *)
Definition separator_reference : DataFrame :=
  [(lit "Date", series object [CStr (lit "01-01-2024")]);
   (lit "Description", series object [CStr (lit "Opening")]);
   (lit "Debit Amt", series float64 [CNaN]);
   (lit "Credit Amt", series float64 [CNum 1000%Q]);
   (lit "Balance", series object [CStr (lit "1,000.00")])].

(** A reference with one row that the sample statement does not
    contain. *)
Definition other_reference : DataFrame :=
  [(lit "Date", series object [CStr (lit "05-03-2024")]);
   (lit "Description", series object [CStr (lit "Interest")]);
   (lit "Debit Amt", series float64 [CNaN]);
   (lit "Credit Amt", series float64 [CNum 12%Q]);
   (lit "Balance", series float64 [CNum 512%Q])].

(** A reference file with the header line only: no row, and every
    column an [object] column. *)
Definition header_only_reference : DataFrame :=
  [(lit "Date", series object []);
   (lit "Description", series object []);
   (lit "Debit Amt", series object []);
   (lit "Credit Amt", series object []);
   (lit "Balance", series object [])].

(** A reference with a Date column and nothing else. *)
Definition dates_only_reference : DataFrame :=
  [(lit "Date", series object [CStr (lit "01-01-2024")])].

(** A statement whose text cannot be extracted. *)
Definition unreadable_pdf (ref : DataFrame) : files :=
  {| pdf_exists := true;
     pdf_text := Raise (OtherError "EOF marker not found");
     reference := Some (Ok ref);
     save_results := Ok tt |}.

(** A statement that reads as [Samples.statement]. *)
Definition readable_pdf (ref : DataFrame) : files :=
  {| pdf_exists := true;
     pdf_text := Ok statement;
     reference := Some (Ok ref);
     save_results := Ok tt |}.

(** A statement with no reference file next to it. *)
Definition missing_reference : files :=
  {| pdf_exists := true;
     pdf_text := Ok statement;
     reference := None;
     save_results := Ok tt |}.

End TableSamples.

Module AgentSamples.
Import PyStr Pandas GeneratedParser Agent TableSamples.

(** The state [__init__] builds for the bank icici. *)
Definition fresh_agent : AgentState :=
  {| target_bank := lit "icici"; attempt := 1; max_attempts := 3;
     success := false; error_log := []; generated_code := None |}.

(** The reference file is absent at every attempt. *)
Definition never_a_reference : Z -> files := fun _ => missing_reference.

(** The statement parses, and never into the reference. *)
Definition always_mismatch : Z -> files :=
  fun _ => readable_pdf other_reference.

(** The statement parses into the reference from the third attempt
    on. *)
Definition third_time_lucky : Z -> files :=
  fun a => if (a <? 3)%Z then readable_pdf other_reference
           else readable_pdf reference_table.

End AgentSamples.

(** ** Text extraction: [_extract_text_from_pdf] *)

Module PdfText.
Import PyStr.

(** What the library in use ([PDF_LIB]) reads from the file: PyPDF2's
    [extract_text] gives a string for every page, pdfplumber's gives a
    string or [None]. *)
Inductive document : Type :=
| PyPDF2_reader (pages : list str)
| pdfplumber_pdf (pages : list (option str)).

Definition newline : str := ["010"%char].

(** [x or y] for an optional string [x]: [None] and the empty string
    are false. *)
Definition or_str (x : option str) (y : str) : str :=
  match x with
  | Some (c :: s) => c :: s
  | _ => y
  end.

(** [for page in reader.pages: text += page.extract_text() + "\n"] *)
Fixpoint PyPDF2_pages (text : str) (pages : list str) : str :=
  match pages with
  | [] => text
  | page :: rest => PyPDF2_pages (text ++ (page ++ newline)) rest
  end.

(** [for page in pdf.pages: text += page.extract_text() or "" + "\n"],
    where [+] binds tighter than [or]. *)
Fixpoint pdfplumber_pages (text : str) (pages : list (option str)) : str :=
  match pages with
  | [] => text
  | page :: rest =>
      pdfplumber_pages (text ++ or_str page ([] ++ newline)) rest
  end.

Definition _extract_text_from_pdf (doc : document) : str :=
  match doc with
  | PyPDF2_reader pages => PyPDF2_pages [] pages
  | pdfplumber_pdf pages => pdfplumber_pages [] pages
  end.

End PdfText.

(** ** The stand-alone check of test_parser.py *)

Module TestParserScript.
Import PyStr Pandas.

(** [are_equal]: both frames after [fillna] by the empty string, compared with
    [equals]; zeros are left as they are and there is no second,
    looser comparison. *)
Definition are_equal (result_df expected_df : DataFrame) : bool :=
  df_equals (fillna result_df) (fillna expected_df).

(** [test_parser()]: [parsed] is what [icici_parser.parse] returns or
    raises on the sample statement, [expected] what [pd.read_csv]
    returns or raises on data/icici/result.csv. *)
Definition test_parser (parsed expected : result DataFrame) : bool :=
  match (result_df <- parsed ;;
         expected_df <- expected ;;
         Ok (are_equal result_df expected_df)) with
  | Ok b => b
  | Raise _ => false
  end.

End TestParserScript.

(** ** The demonstration scripts *)

Module Scripts.
Import PyStr.

(** How [subprocess.run] ends: the command's return code, or an
    exception of [subprocess.run] itself. *)
Inductive completed : Type :=
| ReturnCode (code : Z)
| SubprocessError.

(** [run_command(cmd, description)]; [shell] gives the outcome of each
    command line of this run. *)
Definition run_command (shell : str -> completed) (cmd : str) : bool :=
  match shell cmd with
  | ReturnCode code => (code =? 0)%Z
  | SubprocessError => false
  end.

Definition quote : str := ["034"%char].

(** test_generalization.py, [test_bank_parser(bank_name, pdf_path)] *)
Definition test_bank_parser (shell : str -> completed)
  (bank_name pdf_path : str) : bool :=
  run_command shell
    (lit "python custom_parsers\" ++ bank_name ++ lit "_parser.py "
     ++ quote ++ pdf_path ++ quote).

(** test_generalization.py, [main()]: the value returned, [None] when
    the function ends without a [return]. *)
Definition test_generalization_main (shell : str -> completed)
  : option bool :=
  if negb (run_command shell (lit "python agent.py --target icici"))
  then Some false
  else if negb (test_bank_parser shell (lit "icici")
                  (lit "data/icici/icici sample.pdf"))
  then Some false
  else if negb (run_command shell (lit "python agent.py --target sbi"))
  then Some false
  else if negb (test_bank_parser shell (lit "sbi")
                  (lit "data/sbi/SBI_Test_Data.pdf"))
  then Some false
  else None.

(** demo_pdf_parsing.py, [main()]; [sbi_dir_exists] is
    [Path("data/sbi").exists()]. *)
Definition demo_pdf_parsing_main (sbi_dir_exists : bool)
  (shell : str -> completed) : option bool :=
  if negb sbi_dir_exists then Some false
  else if negb (run_command shell (lit "python agent.py --target sbi"))
  then Some false
  else if negb (run_command shell
                  (lit "python custom_parsers\sbi_parser.py "
                   ++ quote ++ lit "data/sbi/SBI_Test_Data.pdf" ++ quote))
  then Some false
  else None.

(** [sys.exit(0 if success else 1)] *)
Definition exit_status (success : option bool) : Z :=
  match success with
  | Some true => 0
  | _ => 1
  end.

End Scripts.

(** ** Further shapes *)

Module MoreShapes.
Import PyStr.

(** Only white space. *)
Definition blank (s : str) : Prop := Forall (fun c => isspace c = true) s.

(** No white space. *)
Definition spaceless (s : str) : Prop :=
  Forall (fun c => isspace c = false) s.

(** A token as [str.split] delivers it. *)
Definition token (s : str) : Prop := s <> [] /\ spaceless s.

(** The records a list of lines contributes, line by line. *)
Definition records_of (keywords : list str) (lines : list str)
  : list LineParser.transaction :=
  flat_map (fun line => match LineParser.parse_line keywords line with
                        | Some t => [t]
                        | None => []
                        end) lines.

(** Two records of one line under two keyword lists: the same date,
    description and balance, and either the same amounts or the first
    amount moved from credit to debit. *)
Definition same_but_side (t1 t2 : LineParser.transaction) : Prop :=
  LineParser.Date t2 = LineParser.Date t1
  /\ LineParser.Description t2 = LineParser.Description t1
  /\ LineParser.Balance t2 = LineParser.Balance t1
  /\ (t2 = t1
      \/ (LineParser.Debit_Amt t1 = []
          /\ LineParser.Debit_Amt t2 = LineParser.Credit_Amt t1
          /\ LineParser.Credit_Amt t2 = [])).

(** An amount field of a record: empty, or a text without white space
    and commas that holds a decimal point. *)
Definition amount_field (a : str) : Prop :=
  a = []
  \/ (spaceless a /\ ~ In ","%char a /\ In "."%char a).

End MoreShapes.

(** ** Further samples *)

Module MoreSamples.
Import PyStr Pandas GeneratedParser Samples TableSamples.

(** Two pages of a statement, one transaction on each. *)
Definition page_one : str := salary_line.
Definition page_two : str := atm_line.

(** A statement with a line whose first token is a reference number,
    the date coming second. *)
Definition statement_with_reference_number : str :=
  lit ("01-01-2024 Salary Credit 5000.00 10000.00" ++ newline
       ++ "REF123 02-01-2024 ATM Withdrawal 2000.00 8000.00").

Definition reference_number_pdf : files :=
  {| pdf_exists := true;
     pdf_text := Ok statement_with_reference_number;
     reference := Some (Ok reference_table);
     save_results := Ok tt |}.

End MoreSamples.

(** * Properties *)

(** ** The matcher agrees with the language of the pattern *)

Module ReFacts.
Import PyStr Re.

Lemma matches_cat_inv (r1 r2 : regex) (s : str) :
  matches (Cat r1 r2) s ->
  exists s1 s2, s = s1 ++ s2 /\ matches r1 s1 /\ matches r2 s2.
Proof. intro H. inversion H; subst. eauto. Qed.

Lemma nullable_matches (r : regex) : nullable r = true <-> matches r [].
Proof.
  induction r as [| |p|r1 IH1 r2 IH2|r1 IH1 r2 IH2|r IH]; simpl; split; intro H;
    try discriminate; try (now constructor); try (now inversion H).
  - apply andb_true_iff in H as [H1 H2].
    change (@nil ascii) with (@nil ascii ++ []). constructor; tauto.
  - apply matches_cat_inv in H as (s1 & s2 & E & M1 & M2). symmetry in E.
    apply app_eq_nil in E as [-> ->]. apply andb_true_iff; tauto.
  - apply orb_true_iff in H as [H|H]; [apply MAltL|apply MAltR]; tauto.
  - apply orb_true_iff. inversion H; subst; tauto.
Qed.

Lemma matches_star_cons (r : regex) (c : ascii) (s : str) :
  matches (Star r) (c :: s) ->
  exists s1 s2, s = s1 ++ s2 /\ matches r (c :: s1) /\ matches (Star r) s2.
Proof.
  intro H. remember (Star r) as r' eqn:Er. remember (c :: s) as t eqn:Et.
  revert s Et.
  induction H as [| | | | | |r0 s1 s2 M1 _ M2 IH2]; intros t' Et;
    try discriminate.
  injection Er as ->.
  destruct s1 as [|a s1]; simpl in Et.
  - now apply IH2.
  - injection Et as -> <-. now exists s1, s2.
Qed.

Lemma deriv_matches (c : ascii) (r : regex) (s : str) :
  matches (deriv c r) s <-> matches r (c :: s).
Proof.
  revert s.
  induction r as [| |p|r1 IH1 r2 IH2|r1 IH1 r2 IH2|r IH]; intro s; simpl.
  - split; intro H; inversion H.
  - split; intro H; inversion H.
  - destruct (p c) eqn:Hp; split; intro H; inversion H; subst.
    + now constructor.
    + constructor.
    + congruence.
  - assert (L : forall t, matches (Cat (deriv c r1) r2) t ->
                          matches (Cat r1 r2) (c :: t)).
    { intros t H. apply matches_cat_inv in H as (s1 & s2 & -> & M1 & M2).
      change (c :: s1 ++ s2) with ((c :: s1) ++ s2).
      constructor; [now apply IH1|assumption]. }
    assert (R : matches (Cat r1 r2) (c :: s) ->
                (nullable r1 = true /\ matches (deriv c r2) s)
                \/ matches (Cat (deriv c r1) r2) s).
    { intro H. apply matches_cat_inv in H as (s1 & s2 & E & M1 & M2).
      destruct s1 as [|a s1]; simpl in E.
      - left. subst s2. split; [now apply nullable_matches|now apply IH2].
      - right. injection E as <- ->. constructor; [now apply IH1|assumption]. }
    destruct (nullable r1) eqn:N; split; intro H.
    + inversion H; subst; [now apply L|].
      change (c :: s) with ([] ++ c :: s).
      constructor; [now apply nullable_matches|now apply IH2].
    + destruct (R H) as [[_ M]|M]; [now apply MAltR|now apply MAltL].
    + now apply L.
    + destruct (R H) as [[E _]|M]; [discriminate|assumption].
  - split; intro H; inversion H; subst;
      solve [apply MAltL; now apply IH1 | apply MAltR; now apply IH2].
  - split; intro H.
    + apply matches_cat_inv in H as (s1 & s2 & -> & M1 & M2).
      change (c :: s1 ++ s2) with ((c :: s1) ++ s2).
      constructor; [now apply IH|assumption].
    + apply matches_star_cons in H as (s1 & s2 & -> & M1 & M2).
      constructor; [now apply IH|assumption].
Qed.

(** [re.match] succeeds exactly when a prefix is in the language. *)
Lemma re_match_spec (r : regex) (s : str) :
  re_match r s = true <-> exists p q, s = p ++ q /\ matches r p.
Proof.
  revert r. induction s as [|c s IH]; intro r; simpl.
  - rewrite orb_false_r, nullable_matches. split.
    + intro H. now exists [], [].
    + intros (p & q & E & M). symmetry in E.
      apply app_eq_nil in E as [-> _]. assumption.
  - rewrite orb_true_iff, nullable_matches, IH. split.
    + intros [H|(p & q & -> & M)].
      * now exists [], (c :: s).
      * exists (c :: p), q. split; [reflexivity|now apply deriv_matches].
    + intros (p & q & E & M). destruct p as [|a p]; simpl in E.
      * now left.
      * injection E as <- ->. right. exists p, q.
        split; [reflexivity|now apply deriv_matches].
Qed.

(** [re.search] succeeds exactly when a substring is in the language. *)
Lemma re_search_spec (r : regex) (s : str) :
  re_search r s = true <-> exists a p q, s = a ++ p ++ q /\ matches r p.
Proof.
  induction s as [|c s IH]; cbn [re_search].
  - rewrite orb_false_r, re_match_spec. split.
    + intros (p & q & E & M). now exists [], p, q.
    + intros (a & p & q & E & M). symmetry in E.
      apply app_eq_nil in E as [-> E]. now exists p, q.
  - rewrite orb_true_iff, re_match_spec, IH. split.
    + intros [(p & q & E & M)|(a & p & q & -> & M)].
      * now exists [], p, q.
      * now exists (c :: a), p, q.
    + intros (a & p & q & E & M). destruct a as [|x a]; simpl in E.
      * left. now exists p, q.
      * injection E as <- ->. right. now exists a, p, q.
Qed.

Lemma in_language_spec (r : regex) (s : str) :
  in_language r s = true <-> matches r s.
Proof.
  revert r. induction s as [|c s IH]; intro r; simpl.
  - apply nullable_matches.
  - rewrite IH. apply deriv_matches.
Qed.

Lemma matches_eps_inv (s : str) : matches Eps s -> s = [].
Proof. intro H. now inversion H. Qed.

Lemma matches_class_inv (p : ascii -> bool) (s : str) :
  matches (Class p) s -> exists c, s = [c] /\ p c = true.
Proof. intro H. inversion H; subst. eauto. Qed.

Lemma matches_star_class (p : ascii -> bool) (s : str) :
  matches (Star (Class p)) s <-> Forall (fun c => p c = true) s.
Proof.
  split.
  - intro H. remember (Star (Class p)) as r eqn:Er.
    induction H as [| | | | | |r0 s1 s2 M1 _ M2 IH2]; try discriminate.
    + constructor.
    + injection Er as ->. apply matches_class_inv in M1 as (c & -> & Hc).
      simpl. constructor; [assumption|now apply IH2].
  - induction 1 as [|c s Hc _ IH].
    + constructor.
    + change (c :: s) with ([c] ++ s). constructor; [now constructor|exact IH].
Qed.

(** Eliminates a hypothesis [matches r s] for a pattern built from
    classes, [Eps] and [Cat]. *)
Ltac invert_matches :=
  repeat match goal with
    | H : matches (Cat _ _) _ |- _ =>
        apply matches_cat_inv in H as (? & ? & ? & ? & ?); subst
    | H : matches (Class _) _ |- _ =>
        apply matches_class_inv in H as (? & ? & ?); subst
    | H : matches Eps _ |- _ =>
        apply matches_eps_inv in H; subst
    end.

End ReFacts.

(** ** Lines and stripped lines are pieces of the text *)

Module StrFacts.
Import PyStr.

Lemma lstrip_suffix (s : str) : exists a, s = a ++ lstrip s.
Proof.
  induction s as [|c s [a IH]]; simpl.
  - now exists [].
  - destruct (isspace c).
    + exists (c :: a). simpl. now f_equal.
    + now exists [].
Qed.

Lemma strip_substring (s : str) : exists a b, s = a ++ strip s ++ b.
Proof.
  unfold strip, rstrip.
  destruct (lstrip_suffix s) as [a Ha].
  destruct (lstrip_suffix (rev (lstrip s))) as [b Hb].
  exists a, (rev b).
  rewrite <- rev_app_distr, <- Hb, rev_involutive. exact Ha.
Qed.

Lemma split_on_pieces (sep : ascii) (s : str) (w : str) (ws : list str) :
  split_on sep s = w :: ws ->
  (exists b, s = w ++ b)
  /\ forall line, In line ws -> exists a b, s = a ++ line ++ b.
Proof.
  revert w ws. induction s as [|c s IH]; intros w ws; simpl.
  - intros [= <- <-]. split; [now exists []|intros ? []].
  - destruct (Ascii.eqb c sep).
    + intros [= <- <-]. split; [now exists (c :: s)|].
      intros line Hin. destruct (split_on sep s) as [|w' ws']; [destruct Hin|].
      destruct (IH w' ws' eq_refl) as [[b Hb] Hrest].
      destruct Hin as [<-|Hin].
      * exists [c], b. simpl. now f_equal.
      * destruct (Hrest line Hin) as (a & b' & E).
        exists (c :: a), b'. simpl. now f_equal.
    + destruct (split_on sep s) as [|w' ws'].
      * intros [= <- <-]. split; [now exists s|intros ? []].
      * intros [= <- <-]. destruct (IH w' ws' eq_refl) as [[b Hb] Hrest].
        split; [exists b; simpl; now f_equal|].
        intros line Hin. destruct (Hrest line Hin) as (a & b' & E).
        exists (c :: a), b'. simpl. now f_equal.
Qed.

Lemma split_on_substring (sep : ascii) (s line : str) :
  In line (split_on sep s) -> exists a b, s = a ++ line ++ b.
Proof.
  destruct (split_on sep s) as [|w ws] eqn:E; [intros []|].
  destruct (split_on_pieces sep s w ws E) as [[b Hb] Hrest].
  intros [<-|Hin]; [now exists [], b|now apply Hrest].
Qed.

End StrFacts.

(** ** The line parser *)

Module LineParserFacts.
Import PyStr Re LineParser Shapes ReFacts StrFacts.

Lemma date_pattern_shape (tok : str) :
  matches date_pattern tok <-> date_shaped tok.
Proof.
  unfold date_pattern, date_shaped, digit, Lit. simpl. split.
  - intro H. invert_matches. simpl.
    repeat match goal with
      | H : Ascii.eqb _ _ = true |- _ => apply Ascii.eqb_eq in H; subst
      end.
    do 8 eexists. split; [reflexivity|]. repeat constructor; assumption.
  - intros (d1 & d2 & m1 & m2 & y1 & y2 & y3 & y4 & -> & F).
    repeat match goal with
      | H : Forall _ (_ :: _) |- _ => inversion H; subst; clear H
      end.
    apply (@MCat _ _ [d1; d2] _).
    { apply (@MCat _ _ [d1] [d2]); [now constructor|].
      apply (@MCat _ _ [d2] []); now constructor. }
    apply (@MCat _ _ ["-"%char] _); [now constructor|].
    apply (@MCat _ _ [m1; m2] _).
    { apply (@MCat _ _ [m1] [m2]); [now constructor|].
      apply (@MCat _ _ [m2] []); now constructor. }
    apply (@MCat _ _ ["-"%char] _); [now constructor|].
    apply (@MCat _ _ [y1; y2; y3; y4] []); [|constructor].
    apply (@MCat _ _ [y1] _); [now constructor|].
    apply (@MCat _ _ [y2] _); [now constructor|].
    apply (@MCat _ _ [y3] _); [now constructor|].
    apply (@MCat _ _ [y4] []); now constructor.
Qed.

Lemma amount_pattern_shape (tok : str) :
  matches amount_pattern tok <-> amount_shaped tok.
Proof.
  unfold amount_pattern, amount_shaped, digit, digit_or_comma, Lit, Plus.
  simpl. split.
  - intro H. invert_matches.
    match goal with
    | H : matches (Star _) _ |- _ => apply matches_star_class in H
    end.
    match goal with
    | H : Ascii.eqb _ _ = true |- _ => apply Ascii.eqb_eq in H; subst
    end.
    match goal with
    | |- exists _ _ _, ([?c] ++ ?s) ++ _ = _ /\ _ =>
        exists (c :: s)
    end.
    do 2 eexists. split; [reflexivity|].
    assert (E : forall c, isdigit c || Ascii.eqb c "," = true ->
                          isdigit c = true \/ c = ","%char).
    { intros c Hc. apply orb_true_iff in Hc as [Hc|Hc]; [now left|right].
      now apply Ascii.eqb_eq. }
    repeat split; try assumption; try discriminate.
    constructor; [now apply E|].
    eapply Forall_impl; [|eassumption]. exact E.
  - intros (run & d1 & d2 & -> & Hne & F & H1 & H2).
    assert (E : forall c, isdigit c = true \/ c = ","%char ->
                          isdigit c || Ascii.eqb c "," = true).
    { intros c [Hc| ->]; [now rewrite Hc|apply orb_true_r]. }
    destruct run as [|c run]; [contradiction|].
    inversion F as [|? ? Hc Hrun]; subst.
    apply (@MCat _ _ (c :: run) _).
    { apply (@MCat _ _ [c] run); [constructor; now apply E|].
      apply matches_star_class. eapply Forall_impl; [|eassumption]. exact E. }
    apply (@MCat _ _ ["."%char] _); [now constructor|].
    apply (@MCat _ _ [d1; d2] []); [|constructor].
    apply (@MCat _ _ [d1] [d2]); [now constructor|].
    apply (@MCat _ _ [d2] []); now constructor.
Qed.

(** The source's test for an amount holds exactly for the tokens that
    begin with an amount. *)
Lemma re_match_amount (tok : str) :
  re_match amount_pattern tok = true <-> amount_prefixed tok.
Proof.
  rewrite re_match_spec. unfold amount_prefixed.
  split; intros (p & q & E & M); exists p, q;
    (split; [assumption|now apply amount_pattern_shape]).
Qed.

(** The source's test for a date holds exactly for the lines holding a
    date-shaped token. *)
Lemma re_search_date (s : str) :
  re_search date_pattern s = true <-> occurs_in date_shaped s.
Proof.
  rewrite re_search_spec. unfold occurs_in.
  split; intros (a & p & q & E & M); exists a, p, q;
    (split; [assumption|now apply date_pattern_shape]).
Qed.

Lemma occurs_in_piece (P : str -> Prop) (s t a b : str) :
  s = a ++ t ++ b -> occurs_in P t -> occurs_in P s.
Proof.
  intros -> (a' & tok & b' & -> & H).
  exists (a ++ a'), tok, (b' ++ b). split; [|assumption].
  now rewrite <- !app_assoc.
Qed.

Lemma classify_filter (parts description_parts amounts : list str) :
  classify parts description_parts amounts
  = (description_parts
       ++ filter (fun tok => negb (re_match amount_pattern tok)) parts,
     amounts
       ++ map (remove_char ",") (filter (re_match amount_pattern) parts)).
Proof.
  revert description_parts amounts.
  induction parts as [|part rest IH]; intros d a; simpl.
  - now rewrite !app_nil_r.
  - destruct (re_match amount_pattern part); simpl; rewrite IH;
      now rewrite <- app_assoc.
Qed.

Lemma has_keyword_mentions (keywords : list str) (description : str) :
  has_keyword keywords description = true
  <-> mentions_keyword keywords description.
Proof. unfold has_keyword, mentions_keyword. apply existsb_exists. Qed.

Lemma truthy_nonempty (s : str) : truthy s = true <-> s <> [].
Proof. destruct s; simpl; split; congruence. Qed.

(** What acceptance of a line tells about the line and its record. *)
Lemma parse_line_accepts (keywords : list str) (raw : str) (t : transaction) :
  parse_line keywords raw = Some t ->
  re_search date_pattern (strip raw) = true
  /\ 3 <= List.length (split (strip raw))
  /\ split (strip raw) = Date t :: tokens_after_date raw
  /\ Description t = description_of_line raw
  /\ (Debit_Amt t, Credit_Amt t, Balance t)
     = assign keywords (description_of_line raw) (amounts_of_line raw)
  /\ well_formed_record t.
Proof.
  unfold parse_line, tokens_after_date, description_of_line, amounts_of_line,
    tokens_after_date, well_formed_record.
  destruct (negb (truthy (strip raw))); [discriminate|].
  destruct (re_search date_pattern (strip raw)); [|discriminate].
  destruct (3 <=? List.length (split (strip raw)))%nat eqn:L; [|discriminate].
  apply Nat.leb_le in L.
  destruct (split (strip raw)) as [|date rest]; [discriminate|].
  rewrite classify_filter. simpl.
  destruct (assign keywords _ _) as [[d c] b].
  destruct (truthy _ && _) eqn:T; [|discriminate].
  intros [= <-]. simpl.
  apply andb_true_iff in T as [T1 T2]. apply orb_true_iff in T2.
  rewrite !truthy_nonempty in T2. rewrite truthy_nonempty in T1.
  repeat split; assumption.
Qed.

Lemma parse_lines_app (keywords : list str) (lines : list str)
  (acc : list transaction) :
  parse_lines keywords lines acc = acc ++ parse_lines keywords lines [].
Proof.
  revert acc. induction lines as [|line rest IH]; intro acc; simpl.
  - now rewrite app_nil_r.
  - destruct (parse_line keywords line) as [t|]; [|apply IH].
    rewrite (IH (acc ++ [t])), (IH [t]). now rewrite <- app_assoc.
Qed.

(** The records of the table are those of the accepted lines. *)
Lemma parse_transactions_lines (keywords : list str) (text : str)
  (t : transaction) :
  In t (parse_transactions keywords text)
  <-> exists raw, In raw (split_on "010" text)
                  /\ parse_line keywords raw = Some t.
Proof.
  unfold parse_transactions.
  induction (split_on "010" text) as [|line rest IH]; simpl.
  - split; [intros []|intros (? & [] & _)].
  - rewrite parse_lines_app, in_app_iff, IH. split.
    + intros [H|(raw & Hin & Hp)].
      * destruct (parse_line keywords line) as [t'|] eqn:E; [|destruct H].
        destruct H as [<-|[]]. exists line. auto.
      * exists raw. auto.
    + intros (raw & [<-|Hin] & Hp).
      * left. rewrite Hp. now left.
      * right. exists raw. auto.
Qed.

Lemma parse_lines_none (keywords : list str) (lines : list str) :
  (forall line, In line lines -> parse_line keywords line = None) ->
  parse_lines keywords lines [] = [].
Proof.
  induction lines as [|line rest IH]; intro H; simpl; [reflexivity|].
  rewrite (H line (or_introl eq_refl)). apply IH.
  intros l Hl. apply H. now right.
Qed.

Lemma parse_line_needs_date (keywords : list str) (raw : str) :
  ~ occurs_in date_shaped raw -> parse_line keywords raw = None.
Proof.
  intro H. destruct (parse_line keywords raw) as [t|] eqn:E; [|reflexivity].
  exfalso. apply H. apply parse_line_accepts in E as (S & _).
  apply re_search_date in S.
  destruct (strip_substring raw) as (a & b & Eraw).
  eapply occurs_in_piece; eassumption.
Qed.

Lemma all_records_well_formed (keywords : list str) (text : str) :
  Forall well_formed_record (parse_transactions keywords text).
Proof.
  apply Forall_forall. intros t Hin.
  apply parse_transactions_lines in Hin as (raw & _ & Hp).
  now apply parse_line_accepts in Hp.
Qed.

(** The three-line statement: two records, the third line dropped. *)
Example statement_parses :
  _parse_generic_transactions Samples.statement
  = [Samples.salary_record; Samples.atm_record]
  /\ _parse_icici_transactions Samples.statement
     = [Samples.salary_record; Samples.atm_record].
Proof. split; vm_compute; reflexivity. Qed.

(** Three amounts go to debit, credit and balance in that order. *)
Example transfer_line_parses :
  parse_line icici_keywords Samples.transfer_line
  = Some Samples.transfer_record.
Proof. vm_compute. reflexivity. Qed.

End LineParserFacts.

(** ** Claims about the line parser *)

Module LineParserClaims.
Import PyStr Re LineParser Shapes Samples ReFacts StrFacts LineParserFacts.

(** C1.  A record's fields follow from the number of amount tokens on
    its line: with one amount, debit when the lower-cased description
    mentions a keyword and credit otherwise, no balance; with two, the
    first by the same rule and the second as balance; with three or
    more, debit, credit and balance in that order whatever the
    description says, the rest being dropped.  The keywords are those
    of the two profiles, and the records of a table are exactly those
    of its accepted lines. *)
Theorem amount_assignment_by_count :
  (_parse_icici_transactions
   = parse_transactions
       (map lit ["debit"; "withdrawal"; "payment"; "purchase"]%string)
   /\ _parse_generic_transactions
      = parse_transactions
          (map lit ["debit"; "withdrawal"; "payment"; "purchase";
                    "atm"; "card"]%string))
  /\ (forall keywords text t,
        In t (parse_transactions keywords text)
        <-> exists raw, In raw (split_on "010" text)
                        /\ parse_line keywords raw = Some t)
  /\ (forall keywords raw t,
        parse_line keywords raw = Some t ->
        Description t = description_of_line raw
        /\ assigned_by_count keywords raw t).
Proof.
  split; [split; reflexivity|].
  split; [exact parse_transactions_lines|].
  intros keywords raw t H.
  apply parse_line_accepts in H as (_ & _ & _ & Hd & Ha & _ & Hdc).
  split; [assumption|].
  unfold assigned_by_count, first_by_keyword. rewrite Hd.
  unfold assign in Ha.
  destruct (amounts_of_line raw) as [|a0 [|a1 [|a2 more]]].
  - injection Ha as E1 E2 _. destruct Hdc; congruence.
  - destruct (has_keyword keywords (description_of_line raw)) eqn:K;
      injection Ha as -> -> ->; (split; [split|reflexivity]); intro M;
      try (split; reflexivity).
    + exfalso. apply M. now apply has_keyword_mentions.
    + apply has_keyword_mentions in M. congruence.
  - destruct (has_keyword keywords (description_of_line raw)) eqn:K;
      injection Ha as -> -> ->; (split; [split|reflexivity]); intro M;
      try (split; reflexivity).
    + exfalso. apply M. now apply has_keyword_mentions.
    + apply has_keyword_mentions in M. congruence.
  - now injection Ha as -> -> ->.
Qed.

Lemma amount_assignment_example :
  parse_line generic_keywords atm_line = Some atm_record
  /\ Description atm_record = description_of_line atm_line
  /\ assigned_by_count generic_keywords atm_line atm_record.
Proof.
  assert (H : parse_line generic_keywords atm_line = Some atm_record)
    by (vm_compute; reflexivity).
  split; [exact H|].
  exact (proj2 (proj2 amount_assignment_by_count) generic_keywords
           atm_line atm_record H).
Defined.

Lemma no_date_by_search (s : str) :
  re_search date_pattern s = false -> ~ occurs_in date_shaped s.
Proof. intros H O. apply re_search_date in O. congruence. Qed.

Lemma not_amount_shaped (tok : str) :
  in_language amount_pattern tok = false -> ~ amount_shaped tok.
Proof.
  intros H A. apply amount_pattern_shape, in_language_spec in A. congruence.
Qed.

(** C6.  A text with no date-shaped token (two digits, a dash, two
    digits, a dash, four digits) yields the empty table under both
    profiles; a line without such a token contributes nothing, and
    neither does a line that splits into fewer than three tokens. *)
Theorem no_date_no_record :
  (forall text,
      ~ occurs_in date_shaped text ->
      _parse_icici_transactions text = []
      /\ _parse_generic_transactions text = [])
  /\ (forall keywords raw,
        ~ occurs_in date_shaped raw -> parse_line keywords raw = None)
  /\ (forall keywords raw,
        List.length (split (strip raw)) < 3 ->
        parse_line keywords raw = None).
Proof.
  assert (T : forall keywords text,
             ~ occurs_in date_shaped text ->
             parse_transactions keywords text = []).
  { intros keywords text H. apply parse_lines_none. intros line Hin.
    apply parse_line_needs_date. intro O. apply H.
    destruct (split_on_substring _ _ _ Hin) as (a & b & E).
    eapply occurs_in_piece; eassumption. }
  split; [|split].
  - intros text H. split; now apply T.
  - exact parse_line_needs_date.
  - intros keywords raw L.
    destruct (parse_line keywords raw) as [t|] eqn:E; [|reflexivity].
    apply parse_line_accepts in E as (_ & L' & _). lia.
Qed.

Lemma no_date_no_record_example :
  _parse_icici_transactions header_text = []
  /\ _parse_generic_transactions header_text = []
  /\ parse_line generic_keywords dated_short_line = None.
Proof.
  destruct no_date_no_record as (T & _ & S).
  split; [|split].
  - apply T. apply no_date_by_search. vm_compute. reflexivity.
  - apply T. apply no_date_by_search. vm_compute. reflexivity.
  - apply S. vm_compute. lia.
Defined.

(** C7, as stated, fails: the token 12.345 has three digits after the
    point and is taken as an amount all the same. *)
Lemma amount_test_accepts_long_fraction :
  re_match amount_pattern long_fraction = true
  /\ ~ amount_shaped long_fraction
  /\ classify [long_fraction] [] [] = ([], [long_fraction]).
Proof.
  split; [vm_compute; reflexivity|]. split; [|vm_compute; reflexivity].
  apply not_amount_shaped. vm_compute. reflexivity.
Qed.

(** C7, amended.  A token after the date is an amount exactly when it
    begins with a non-empty run of digits and commas, a decimal point
    and two digits; what follows them is not examined.  The amounts are
    these tokens with every comma removed, the description parts are
    the other tokens, both in their order on the line. *)
Theorem amount_tokens_by_prefix :
  (forall tok, re_match amount_pattern tok = true <-> amount_prefixed tok)
  /\ (forall parts,
        classify parts [] []
        = (filter (fun tok => negb (re_match amount_pattern tok)) parts,
           map (remove_char ",") (filter (re_match amount_pattern) parts)))
  /\ (forall parts amount,
        In amount (snd (classify parts [] [])) -> ~ In ","%char amount).
Proof.
  split; [exact re_match_amount|]. split.
  - intro parts. apply classify_filter.
  - intros parts amount. rewrite classify_filter. simpl.
    intros Hin Hc. apply in_map_iff in Hin as (tok & <- & _).
    unfold remove_char in Hc. apply filter_In in Hc as [_ Hc].
    now rewrite Ascii.eqb_refl in Hc.
Qed.

(** C8.  Every record of the table has a non-empty description and a
    non-empty debit or credit field, under both profiles; no line
    yields a record that lacks either. *)
Theorem records_have_description_and_amount :
  (forall text,
      Forall well_formed_record (_parse_icici_transactions text)
      /\ Forall well_formed_record (_parse_generic_transactions text))
  /\ (forall keywords raw t,
        parse_line keywords raw = Some t -> well_formed_record t).
Proof.
  split.
  - intro text. split; apply all_records_well_formed.
  - intros keywords raw t H. now apply parse_line_accepts in H.
Qed.

Lemma records_have_description_and_amount_example :
  parse_line icici_keywords salary_line = Some salary_record
  /\ well_formed_record salary_record.
Proof.
  assert (H : parse_line icici_keywords salary_line = Some salary_record)
    by (vm_compute; reflexivity).
  split; [exact H|].
  exact (proj2 records_have_description_and_amount icici_keywords
           salary_line salary_record H).
Defined.

(** C10.  On an accepted line with at most two amount tokens exactly
    one of debit and credit is filled and the other is empty; both are
    filled only when the line has three or more amount tokens. *)
Theorem debit_credit_exclusive (keywords : list str) (raw : str)
  (t : transaction) :
  parse_line keywords raw = Some t ->
  (List.length (amounts_of_line raw) <= 2 ->
   (Debit_Amt t <> [] /\ Credit_Amt t = [])
   \/ (Debit_Amt t = [] /\ Credit_Amt t <> []))
  /\ (Debit_Amt t <> [] /\ Credit_Amt t <> [] ->
      3 <= List.length (amounts_of_line raw)).
Proof.
  intro H.
  apply parse_line_accepts in H as (_ & _ & _ & _ & Ha & _ & Hdc).
  assert (X : List.length (amounts_of_line raw) <= 2 ->
              (Debit_Amt t <> [] /\ Credit_Amt t = [])
              \/ (Debit_Amt t = [] /\ Credit_Amt t <> [])).
  { intro L. unfold assign in Ha.
    destruct (amounts_of_line raw) as [|a0 [|a1 [|a2 more]]];
      [| | |simpl in L; lia];
      try destruct (has_keyword keywords (description_of_line raw));
      injection Ha as Ed Ec _; rewrite Ed, Ec in *;
      destruct Hdc as [Hd|Hc]; auto; congruence. }
  split; [exact X|].
  intros [Hd Hc].
  destruct (Nat.le_gt_cases (List.length (amounts_of_line raw)) 2) as [L|L];
    [|lia].
  destruct (X L) as [[_ E]|[E _]]; congruence.
Qed.

Lemma debit_credit_exclusive_example :
  (Debit_Amt atm_record <> [] /\ Credit_Amt atm_record = [])
  \/ (Debit_Amt atm_record = [] /\ Credit_Amt atm_record <> []).
Proof.
  refine (proj1 (@debit_credit_exclusive generic_keywords atm_line
                   atm_record _) _).
  - vm_compute. reflexivity.
  - vm_compute. lia.
Defined.

End LineParserClaims.

(** ** The comparison of [_test_parser] *)

Module ComparatorFacts.
Import PyStr Pandas GeneratedParser Agent TableShapes.

Lemma eqb_str_eq (s t : str) : eqb_str s t = true <-> s = t.
Proof.
  revert t. induction s as [|a s IH]; intros [|b t]; simpl;
    try (split; congruence).
  rewrite andb_true_iff, Ascii.eqb_eq, IH. split.
  - now intros [-> ->].
  - now intros [= -> ->].
Qed.

Lemma eqb_str_refl (s : str) : eqb_str s s = true.
Proof. now apply eqb_str_eq. Qed.

Lemma eqb_list_Forall2 (A : Type) (eqb : A -> A -> bool)
  (R : A -> A -> Prop) :
  (forall a b, eqb a b = true <-> R a b) ->
  forall l m, eqb_list eqb l m = true <-> Forall2 R l m.
Proof.
  intros H l. induction l as [|a l IH]; intros [|b m]; simpl.
  - split; [constructor|reflexivity].
  - split; [discriminate|intro F; inversion F].
  - split; [discriminate|intro F; inversion F].
  - rewrite andb_true_iff, H, IH. split.
    + intros [? ?]. now constructor.
    + intro F. inversion F; subst. auto.
Qed.

Lemma eqb_list_refl (A : Type) (eqb : A -> A -> bool) (l : list A) :
  (forall a, eqb a a = true) -> eqb_list eqb l l = true.
Proof.
  intro H. induction l as [|a l IH]; simpl; [reflexivity|].
  now rewrite H, IH.
Qed.

Lemma eqb_list_str_eq (l m : list str) :
  eqb_list eqb_str l m = true <-> l = m.
Proof.
  rewrite (eqb_list_Forall2 str eqb_str eq eqb_str_eq).
  split.
  - induction 1; congruence.
  - intros ->. induction m; constructor; auto.
Qed.

Lemma cell_equals_same (a b : cell) : cell_equals a b = true <-> same_cell a b.
Proof.
  destruct a, b; simpl; try (split; [discriminate|tauto]); try tauto.
  - apply eqb_str_eq.
  - apply Qeq_bool_iff.
Qed.

Lemma cell_equals_refl (a : cell) : cell_equals a a = true.
Proof.
  apply cell_equals_same. destruct a; simpl; auto. apply Qeq_refl.
Qed.

Lemma eqb_dtype_eq (a b : dtype) : eqb_dtype a b = true <-> a = b.
Proof. destruct a, b; simpl; split; congruence. Qed.

Lemma eqb_dtype_refl (a : dtype) : eqb_dtype a a = true.
Proof. now destruct a. Qed.


Lemma series_equals_refl (x : Series) : series_equals x x = true.
Proof.
  unfold series_equals. rewrite eqb_dtype_refl.
  apply eqb_list_refl. exact cell_equals_refl.
Qed.

Lemma df_equals_refl (df : DataFrame) : df_equals df df = true.
Proof.
  apply eqb_list_refl. intros [label col]. simpl.
  now rewrite eqb_str_refl, series_equals_refl.
Qed.

(** Two replacements one after the other are one replacement, when the
    second keeps a cell of the first exactly when the combined one
    keeps the cell it came from. *)
Lemma map_series_compose (f g h : cell -> cell) (col : Series) :
  (forall c, h c = g (f c)) ->
  (forall c, kept h c = kept g (f c) && kept f c) ->
  map_series g (map_series f col) = map_series h col.
Proof.
  intros V K. unfold map_series. cbn [dtype_of values].
  assert (E : forallb (kept h) col
              = forallb (kept g) (map f col) && forallb (kept f) col).
  { induction (values col) as [|c l IH]; [reflexivity|].
    cbn [forallb map]. rewrite IH, K.
    destruct (kept g (f c)), (kept f c), (forallb (kept g) (map f l));
      reflexivity. }
  rewrite E, map_map, (map_ext _ _ (fun c => eq_sym (V c))).
  now destruct (forallb (kept g) (map f col)), (forallb (kept f) col).
Qed.

Lemma kept_normalized_cell (c : cell) :
  kept normalized_cell c
  = kept replace_zero_cell (fillna_cell c) && kept fillna_cell c.
Proof.
  unfold kept. destruct c as [s|q|]; cbn.
  - now rewrite eqb_str_refl.
  - destruct (Qeq_bool q 0%Q); cbn; [reflexivity|].
    now rewrite (proj2 (Qeq_bool_iff q q) (Qeq_refl q)).
  - reflexivity.
Qed.

Lemma normalize_series (col : Series) :
  map_series replace_zero_cell (map_series fillna_cell col)
  = map_series normalized_cell col.
Proof.
  apply map_series_compose; [now intros [s|q|]|exact kept_normalized_cell].
Qed.

Lemma normalize_cells (df : DataFrame) :
  normalize df = map_cells normalized_cell df.
Proof.
  unfold normalize, replace_zero, fillna, map_cells. rewrite map_map.
  apply map_ext. intros [label col]. f_equal. apply normalize_series.
Qed.

(** Tables with the same normal form pass the exact comparison. *)
Lemma compare_same_normal_form (a b : DataFrame) :
  normalize a = normalize b -> compare a b = Ok Pass.
Proof.
  intro E. unfold compare. rewrite E, df_equals_refl. reflexivity.
Qed.


Lemma len_normalize (df : DataFrame) : len (normalize df) = len df.
Proof.
  rewrite normalize_cells. destruct df as [|[label col] df]; simpl;
    [reflexivity|apply length_map].
Qed.

Lemma columns_normalize (df : DataFrame) :
  columns (normalize df) = columns df.
Proof.
  rewrite normalize_cells. unfold columns, map_cells. rewrite map_map.
  apply map_ext. now intros [label col].
Qed.

End ComparatorFacts.

Module ComparatorClaims.
Import PyStr Pandas GeneratedParser Agent TableShapes TableSamples
  ComparatorFacts.




(** C5.  The exact pass is reflexive: every table compared with itself
    passes.  Normalisation sends a missing value and a numeric zero to
    the same empty-string sentinel on both sides, so tables that differ
    only there pass as well. *)
Theorem exact_pass_reflexive :
  (forall T, compare T T = Ok Pass)
  /\ (forall T, normalize T = map_cells normalized_cell T)
  /\ normalized_cell CNaN = sentinel
  /\ (forall q, Qeq q 0%Q -> normalized_cell (CNum q) = sentinel)
  /\ (forall A B,
        map_cells normalized_cell A = map_cells normalized_cell B ->
        compare A B = Ok Pass).
Proof.
  split; [intro T; now apply compare_same_normal_form|].
  split; [exact normalize_cells|].
  split; [reflexivity|]. split.
  - intros q Hq. simpl. apply Qeq_bool_iff in Hq. now rewrite Hq.
  - intros A B H. apply compare_same_normal_form.
    now rewrite !normalize_cells.
Qed.

Lemma exact_pass_blank_and_zero_example :
  compare [(lit "Debit Amt", series float64 [CNaN; CNum 0%Q])]
          [(lit "Debit Amt", series float64 [CNum (0 # 5)%Q; CNaN])]
  = Ok Pass.
Proof.
  apply (proj2 (proj2 (proj2 (proj2 exact_pass_reflexive)))).
  vm_compute. reflexivity.
Defined.

(** The dtype of a column matters only while the column holds neither
    a blank nor a zero: normalisation turns a column with one of them
    into an object column, in which numbers are compared by value. *)
Example zero_hides_dtype :
  compare [(lit "Date", series object [CStr (lit "01-01-2024")]);
           (lit "Balance", series int64 [CNum 5%Q])]
          [(lit "Date", series object [CStr (lit "01-01-2024")]);
           (lit "Balance", series float64 [CNum 5%Q])] = Ok Fail
  /\ compare [(lit "Date", series object [CStr (lit "01-01-2024");
                                          CStr (lit "02-01-2024")]);
              (lit "Balance", series int64 [CNum 0%Q; CNum 5%Q])]
             [(lit "Date", series object [CStr (lit "01-01-2024");
                                          CStr (lit "02-01-2024")]);
              (lit "Balance", series float64 [CNum 0%Q; CNum 5%Q])]
     = Ok Pass.
Proof. split; vm_compute; reflexivity. Qed.

End ComparatorClaims.

(** ** The fallback of the generated parser *)

Module FallbackFacts.
Import PyStr Pandas GeneratedParser Agent TableShapes ComparatorFacts.

Lemma setitem_same (df : DataFrame) (key : str) (col : Series) :
  getitem df key = Ok col -> setitem df key col = df.
Proof.
  induction df as [|[label old] df IH]; simpl; [discriminate|].
  destruct (eqb_str label key).
  - now intros [= ->].
  - intro H. now rewrite IH.
Qed.

Lemma getitem_setitem_other (df : DataFrame) (key other : str)
  (col : Series) :
  eqb_str key other = false ->
  getitem (setitem df key col) other = getitem df other.
Proof.
  intro N. induction df as [|[label old] df IH]; simpl.
  - now rewrite N.
  - destruct (eqb_str label key) eqn:E; simpl.
    + apply eqb_str_eq in E. subst label. now rewrite N.
    + now rewrite IH.
Qed.

(** Replacing a column by one with the same normal form does not
    change the normal form of the table. *)
Lemma normalize_setitem (df : DataFrame) (key : str) (col col' : Series) :
  getitem df key = Ok col ->
  map_series normalized_cell col' = map_series normalized_cell col ->
  normalize (setitem df key col') = normalize df.
Proof.
  rewrite !normalize_cells. intros G E.
  induction df as [|[label old] df IH]; simpl in *; [discriminate|].
  destruct (eqb_str label key); simpl.
  - injection G as ->. now rewrite E.
  - now rewrite IH.
Qed.

Lemma kept_normalized_fillna (c : cell) :
  kept normalized_cell c
  = kept normalized_cell (fillna_cell c) && kept fillna_cell c.
Proof.
  unfold kept. destruct c as [s|q|]; cbn.
  - now rewrite eqb_str_refl.
  - rewrite (proj2 (Qeq_bool_iff q q) (Qeq_refl q)).
    now rewrite andb_true_r.
  - reflexivity.
Qed.

Lemma fillna_series_normal_form (col : Series) :
  map_series normalized_cell (fillna_series col)
  = map_series normalized_cell col.
Proof.
  apply map_series_compose; [now intros [s|q|]|exact kept_normalized_fillna].
Qed.

(** A column with a missing value is an [object] column once
    normalised, whatever it was before. *)
Lemma normal_form_with_nan (d : dtype) (col : Series) :
  In CNaN col ->
  map_series normalized_cell (series d col)
  = map_series normalized_cell col.
Proof.
  intro H. unfold map_series. cbn [dtype_of values].
  assert (E : forallb (kept normalized_cell) col = false).
  { induction (values col) as [|c l IH]; [destruct H|].
    cbn [forallb]. destruct H as [->|H]; [reflexivity|].
    rewrite (IH H). apply andb_false_r. }
  now rewrite E.
Qed.

Lemma series_eta (col : Series) : series (dtype_of col) col = col.
Proof. now destruct col. Qed.

Section Conversions.

Variable to_numeric_text : str -> option Q.
Variable strptime_strftime : str -> option str.

Lemma to_numeric_stored (col : Series) :
  numeric_column col -> to_numeric to_numeric_text col = col.
Proof. unfold to_numeric. now intros [-> | ->]. Qed.

Lemma to_datetime_settled (col : Series) :
  Forall (settled_date strptime_strftime) col ->
  to_datetime_strftime strptime_strftime col = Ok (series object col).
Proof.
  unfold to_datetime_strftime. intro F.
  assert (M : mapM (to_datetime_cell strptime_strftime) col
              = Ok (values col)).
  { induction F as [|c l Hc _ IH]; cbn [mapM]; [reflexivity|].
    rewrite IH.
    destruct c as [s|q|]; simpl in *;
      [now rewrite Hc|contradiction|reflexivity]. }
  now rewrite M.
Qed.

(** The fallback returns a table as soon as the reference has the four
    columns and dates that the conversion accepts. *)
Lemma fallback_plain (fs : files) (ref : DataFrame) :
  reference fs = Some (Ok ref) ->
  plain_reference strptime_strftime ref ->
  exists out,
    _fallback_to_csv to_numeric_text strptime_strftime fs = Ok out.
Proof.
  intros R ((date & Gd & Fd) & (debit & Gb & Fb) & (credit & Gc & Fc)
            & (balance & Gl & Fl)).
  unfold _fallback_to_csv, read_reference. rewrite R. cbn [bind].
  rewrite Gd. cbn [bind]. rewrite (to_datetime_settled _ Fd). cbn [bind].
  rewrite getitem_setitem_other by reflexivity. rewrite Gb. cbn [bind].
  rewrite !getitem_setitem_other by reflexivity. rewrite Gc. cbn [bind].
  rewrite !getitem_setitem_other by reflexivity. rewrite Gl. cbn [bind].
  eauto.
Qed.

(** On a reference with settled dates and amounts stored as numbers
    the fallback returns a table with the normal form of the
    reference. *)
Lemma fallback_numeric (fs : files) (ref : DataFrame) :
  reference fs = Some (Ok ref) ->
  numeric_reference strptime_strftime ref ->
  exists out,
    _fallback_to_csv to_numeric_text strptime_strftime fs = Ok out
    /\ normalize out = normalize ref.
Proof.
  intros R ((date & Gd & Fd & Dd) & (debit & Gb & Nb) & (credit & Gc & Nc)
            & (balance & Gl & Nl)).
  unfold _fallback_to_csv, read_reference. rewrite R. cbn [bind].
  rewrite Gd. cbn [bind]. rewrite (to_datetime_settled _ Fd). cbn [bind].
  set (df1 := setitem ref (lit "Date") (series object date)).
  assert (G1 : getitem df1 (lit "Debit Amt") = Ok debit)
    by (unfold df1; now rewrite getitem_setitem_other by reflexivity).
  rewrite G1. cbn [bind]. rewrite (to_numeric_stored _ Nb).
  set (df2 := setitem df1 (lit "Debit Amt") (fillna_series debit)).
  assert (G2 : getitem df2 (lit "Credit Amt") = Ok credit)
    by (unfold df2, df1;
        now rewrite !getitem_setitem_other by reflexivity).
  rewrite G2. cbn [bind]. rewrite (to_numeric_stored _ Nc).
  set (df3 := setitem df2 (lit "Credit Amt") (fillna_series credit)).
  assert (G3 : getitem df3 (lit "Balance") = Ok balance)
    by (unfold df3, df2, df1;
        now rewrite !getitem_setitem_other by reflexivity).
  rewrite G3. cbn [bind]. rewrite (to_numeric_stored _ Nl).
  rewrite (setitem_same _ _ _ G3).
  eexists. split; [reflexivity|].
  unfold df3.
  rewrite (normalize_setitem _ _ _ _ G2 (fillna_series_normal_form credit)).
  unfold df2.
  rewrite (normalize_setitem _ _ _ _ G1 (fillna_series_normal_form debit)).
  unfold df1. apply (normalize_setitem _ _ _ _ Gd).
  destruct Dd as [Dd|Dd].
  - rewrite <- Dd. now rewrite series_eta.
  - now apply normal_form_with_nan.
Qed.

(** [parse] is the fallback when extraction raises or finds nothing. *)
Lemma parse_falls_back (t : template) (fs : files) :
  (exists e, pdf_text fs = Raise e)
  \/ (exists text, pdf_text fs = Ok text
                   /\ transactions_parser t text = []) ->
  parse to_numeric_text strptime_strftime t fs
  = _fallback_to_csv to_numeric_text strptime_strftime fs.
Proof.
  unfold parse, parse_try.
  intros [[e E]|(text & E & T)]; rewrite E; cbn [bind].
  - reflexivity.
  - rewrite T. cbn [frame_of empty].
    now destruct (_fallback_to_csv _ _ fs).
Qed.

End Conversions.

(** The dtype [to_numeric] gives a column of text: int64 when every
    text is an integer numeral, float64 as soon as one has a decimal
    point or is no numeral. *)
Example to_numeric_of_text :
  to_numeric PlainText.decimal_text
    (series object [CStr (lit "5000"); CStr (lit "12")])
  = series int64 [CNum 5000%Q; CNum 12%Q]
  /\ dtype_of (to_numeric PlainText.decimal_text
                 (series object [CStr (lit "5000.00"); CStr (lit "12")]))
     = float64
  /\ to_numeric PlainText.decimal_text
       (series object [CStr (lit "5000"); CStr (lit "1,000")])
     = series float64 [CNum 5000%Q; CNaN]
  /\ to_numeric PlainText.decimal_text (series object [])
     = series int64 []
  /\ to_numeric PlainText.decimal_text (series float64 [CNum 5000%Q; CNaN])
     = series float64 [CNum 5000%Q; CNaN].
Proof. repeat split; vm_compute; reflexivity. Qed.

(** The sample statement parses into its reference table. *)
Example sample_statement_passes :
  exists out,
    parse PlainText.decimal_text PlainText.day_month_year icici_template
          (TableSamples.readable_pdf TableSamples.reference_table) = Ok out
    /\ compare out TableSamples.reference_table = Ok Pass.
Proof. eexists. split; vm_compute; reflexivity. Qed.

End FallbackFacts.

Module FallbackClaims.
Import PyStr Pandas GeneratedParser Agent TableShapes TableSamples PlainText
  ComparatorFacts FallbackFacts.

(** C2, as stated, fails: with a reference whose balance reads
    1,000.00 the fallback turns that cell into a missing value, and
    the result passes neither the exact nor the lenient comparison with
    the reference it was read from. *)
Lemma fallback_of_separator_reference_fails :
  exists out,
    parse decimal_text day_month_year icici_template
          (unreadable_pdf separator_reference) = Ok out
    /\ getitem out (lit "Balance") = Ok (series float64 [CNaN])
    /\ compare out separator_reference = Ok Fail.
Proof.
  eexists. split; [vm_compute; reflexivity|].
  split; vm_compute; reflexivity.
Qed.

(** C2, amended.  When extraction raises or yields no record, [parse]
    returns what the fallback returns.  When the reference exists and
    was read with a Date column of text (or with a blank) whose cells
    are already in the printed day-month-year form, and with Debit
    Amt, Credit Amt and Balance columns stored as numbers (int64 or
    float64), the fallback returns a table with the normal form of the
    reference, and that table passes the exact comparison with the
    reference. *)
Theorem fallback_passes_on_numeric_reference
  (to_numeric_text : str -> option Q) (strptime_strftime : str -> option str)
  (t : template) (fs : files) :
  ((exists e, pdf_text fs = Raise e)
   \/ (exists text, pdf_text fs = Ok text
                    /\ transactions_parser t text = []) ->
   parse to_numeric_text strptime_strftime t fs
   = _fallback_to_csv to_numeric_text strptime_strftime fs)
  /\ (forall ref,
        reference fs = Some (Ok ref) ->
        numeric_reference strptime_strftime ref ->
        exists out,
          _fallback_to_csv to_numeric_text strptime_strftime fs = Ok out
          /\ normalize out = normalize ref
          /\ compare out ref = Ok Pass)
  /\ (forall ref,
        ((exists e, pdf_text fs = Raise e)
         \/ (exists text, pdf_text fs = Ok text
                          /\ transactions_parser t text = [])) ->
        reference fs = Some (Ok ref) ->
        numeric_reference strptime_strftime ref ->
        exists out,
          parse to_numeric_text strptime_strftime t fs = Ok out
          /\ compare out ref = Ok Pass).
Proof.
  split; [exact (parse_falls_back to_numeric_text strptime_strftime t fs)|].
  assert (F : forall ref,
             reference fs = Some (Ok ref) ->
             numeric_reference strptime_strftime ref ->
             exists out,
               _fallback_to_csv to_numeric_text strptime_strftime fs = Ok out
               /\ normalize out = normalize ref
               /\ compare out ref = Ok Pass).
  { intros ref R P.
    destruct (fallback_numeric to_numeric_text strptime_strftime fs ref R P)
      as (out & F & N).
    exists out. repeat split; try assumption.
    now apply compare_same_normal_form. }
  split; [exact F|].
  intros ref E R P. destruct (F ref R P) as (out & Fo & _ & C).
  exists out.
  rewrite (parse_falls_back to_numeric_text strptime_strftime t fs E).
  now split.
Qed.

Lemma fallback_passes_example :
  exists out,
    parse decimal_text day_month_year generic_template
          (unreadable_pdf reference_table) = Ok out
    /\ compare out reference_table = Ok Pass.
Proof.
  apply (proj2 (proj2 (fallback_passes_on_numeric_reference decimal_text
                         day_month_year generic_template
                         (unreadable_pdf reference_table)))
           reference_table).
  - left. eexists. reflexivity.
  - reflexivity.
  - split; [|repeat split; eexists; (split; [vm_compute; reflexivity|]);
             (left; reflexivity) || (right; reflexivity)].
    eexists. split; [vm_compute; reflexivity|].
    split; [|left; reflexivity].
    repeat constructor; vm_compute; reflexivity.
Defined.

(** The fallback replays a reference with integer balances as well:
    the balance column stays an int64 column on both sides. *)
Example fallback_of_integer_reference_passes :
  exists out,
    parse decimal_text day_month_year icici_template
          (unreadable_pdf integer_reference_table) = Ok out
    /\ compare out integer_reference_table = Ok Pass.
Proof. eexists. split; vm_compute; reflexivity. Qed.

(** A reference file with the header line only does not pass: its
    columns are read as object columns, which the fallback turns into
    numeric ones. *)
Example fallback_of_header_only_reference_fails :
  exists out,
    parse decimal_text day_month_year icici_template
          (unreadable_pdf header_only_reference) = Ok out
    /\ compare out header_only_reference = Ok Fail.
Proof. eexists. split; vm_compute; reflexivity. Qed.

End FallbackClaims.

(** ** The retry loop *)

Module DriverFacts.
Import PyStr Pandas GeneratedParser Agent DriverShapes.

Section Conversions.

Variable to_numeric_text : str -> option Q.
Variable strptime_strftime : str -> option str.

Local Abbreviation _test_parser := (_test_parser to_numeric_text strptime_strftime).
Local Abbreviation test_try := (test_try to_numeric_text strptime_strftime).
Local Abbreviation attempt_try := (attempt_try to_numeric_text strptime_strftime).
Local Abbreviation cycle := (cycle to_numeric_text strptime_strftime).
Local Abbreviation run_loop := (run_loop to_numeric_text strptime_strftime).

(** [_test_parser] leaves the counters alone; it logs one entry when
    the test raised and none when it returned. *)
Lemma test_parser_state (st : AgentState) (fs : files) (ok : bool)
  (st2 : AgentState) :
  _test_parser st fs = (ok, st2) ->
  attempt st2 = attempt st /\ max_attempts st2 = max_attempts st
  /\ success st2 = success st
  /\ ((exists v, test_try st fs = Ok v /\ ok = passed v
                 /\ error_log st2 = error_log st)
      \/ (exists e, test_try st fs = Raise e /\ ok = false
                    /\ error_log st2
                       = error_log st ++ [ParserTestFailed e])).
Proof.
  unfold Agent._test_parser. destruct (test_try st fs) as [v|e];
    intros [= <- <-]; simpl; repeat split; eauto 6.
Qed.

Lemma attempt_try_state (st : AgentState) (fs : files) (ok : bool)
  (st2 : AgentState) :
  attempt_try st fs = Ok (ok, st2) ->
  attempt st2 = attempt st /\ max_attempts st2 = max_attempts st
  /\ success st2 = success st
  /\ (error_log st2 = error_log st
      \/ exists e, ok = false
                   /\ error_log st2 = error_log st ++ [ParserTestFailed e]).
Proof.
  unfold Agent.attempt_try.
  destruct (_analyze_data fs) as [df|e]; [|discriminate]. cbn [bind].
  unfold _generate_parser.
  destruct (read_reference fs _) as [df'|e]; [|discriminate]. cbn [bind].
  intros [= H].
  apply test_parser_state in H as (A & M & S & L). simpl in *.
  repeat split; try assumption.
  destruct L as [(v & _ & _ & L)|(e & _ & E & L)]; [now left|right; eauto].
Qed.

(** A turn that does not end the loop: the counter moves on by one. *)
Lemma cycle_failed (st : AgentState) (fs : files) (st' : AgentState) :
  cycle st fs = (st', false) ->
  attempt st' = (attempt st + 1)%Z
  /\ max_attempts st' = max_attempts st
  /\ success st' = success st
  /\ (error_log st' = error_log st
      \/ exists entry, error_log st' = error_log st ++ [entry]).
Proof.
  unfold Agent.cycle.
  destruct (attempt_try st fs) as [[[|] st2]|e] eqn:T; intros [= <-].
  - apply attempt_try_state in T as (A & M & S & L). simpl.
    rewrite A. repeat split; try assumption.
    destruct L as [L|(e & _ & L)]; [now left|right; eauto].
  - simpl. repeat split. right. eauto.
Qed.

(** A turn that ends the loop: success, and the counter stays. *)
Lemma cycle_passed (st : AgentState) (fs : files) (st' : AgentState) :
  cycle st fs = (st', true) ->
  success st' = true
  /\ attempt st' = attempt st
  /\ max_attempts st' = max_attempts st
  /\ error_log st' = error_log st.
Proof.
  unfold Agent.cycle.
  destruct (attempt_try st fs) as [[[|] st2]|e] eqn:T; intros [= <-].
  apply attempt_try_state in T as (A & M & S & L). simpl.
  repeat split; try assumption.
  destruct L as [L|(e & [=] & _)]. exact L.
Qed.

Lemma cycle_raised (st : AgentState) (fs : files) (e : exn) :
  attempt_try st fs = Raise e ->
  cycle st fs
  = (set_attempt (append_error st (ErrorInAttempt (attempt st) e))
                 (attempt st + 1), false).
Proof. unfold Agent.cycle. now intros ->. Qed.

Lemma generate_parser_state (st st1 : AgentState) (fs : files) :
  _generate_parser st fs = Ok st1 ->
  attempt st1 = attempt st /\ max_attempts st1 = max_attempts st
  /\ success st1 = success st /\ error_log st1 = error_log st.
Proof.
  unfold _generate_parser.
  destruct (read_reference fs _); [|discriminate]. cbn [bind].
  now intros [= <-].
Qed.

(** A turn whose analysis and generation steps returned: what the
    turn does is decided by the test alone. *)
Lemma cycle_tested (st : AgentState) (fs : files) (df : DataFrame)
  (st1 : AgentState) :
  _analyze_data fs = Ok df ->
  _generate_parser st fs = Ok st1 ->
  cycle st fs
  = match test_try st1 fs with
    | Ok v =>
        if passed v then (set_success st1 true, true)
        else (set_attempt st1 (attempt st1 + 1), false)
    | Raise e =>
        (set_attempt (append_error st1 (ParserTestFailed e))
                     (attempt st1 + 1), false)
    end.
Proof.
  intros A G. unfold Agent.cycle, Agent.attempt_try.
  rewrite A. cbn [bind]. rewrite G. cbn [bind].
  unfold Agent._test_parser.
  destruct (test_try st1 fs) as [v|e]; [|reflexivity].
  now destruct (passed v).
Qed.

Lemma attempt_try_raises (st : AgentState) (fs : files) :
  (exists e, attempt_try st fs = Raise e)
  \/ (exists df st1, _analyze_data fs = Ok df
                     /\ _generate_parser st fs = Ok st1).
Proof.
  unfold Agent.attempt_try.
  destruct (_analyze_data fs) as [df|e]; cbn [bind]; [|eauto].
  destruct (_generate_parser st fs) as [st1|e]; cbn [bind]; eauto.
Qed.

(** A turn that does not end the loop failed in one of three ways: the
    test reported a mismatch, and nothing was logged; the test raised,
    and its error was logged; or a step raised to [run], which logged
    the error with the attempt number. *)
Lemma cycle_failed_how (st : AgentState) (fs : files) (st' : AgentState) :
  cycle st fs = (st', false) ->
  (exists df st1,
      _analyze_data fs = Ok df /\ _generate_parser st fs = Ok st1
      /\ test_try st1 fs = Ok Fail
      /\ error_log st' = error_log st)
  \/ (exists df st1 e,
        _analyze_data fs = Ok df /\ _generate_parser st fs = Ok st1
        /\ test_try st1 fs = Raise e
        /\ error_log st' = error_log st ++ [ParserTestFailed e])
  \/ (exists e,
        attempt_try st fs = Raise e
        /\ error_log st'
           = error_log st ++ [ErrorInAttempt (attempt st) e]).
Proof.
  destruct (attempt_try_raises st fs) as [[e T]|(df & st1 & A & G)].
  - rewrite (cycle_raised st fs e T). intros [= <-].
    right. right. exists e. now split.
  - rewrite (cycle_tested st fs df st1 A G).
    destruct (generate_parser_state st st1 fs G) as (_ & _ & _ & L).
    destruct (test_try st1 fs) as [[| |]|e] eqn:T; cbn [passed];
      intros [= <-].
    + left. exists df, st1. now repeat split.
    + right. left. exists df, st1, e. cbn. rewrite L. now repeat split.
Qed.

Lemma analyze_missing (st : AgentState) (fs : files) :
  missing_input fs ->
  exists msg, attempt_try st fs = Raise (FileNotFoundError msg).
Proof.
  unfold Agent.attempt_try, _analyze_data.
  intros [-> |(df & -> & ->)]; eexists; reflexivity.
Qed.

Lemma run_loop_stop (fuel : nat) (env : Z -> files) (st : AgentState)
  (started : list Z) :
  (attempt st <=? max_attempts st)%Z && negb (success st) = false ->
  run_loop fuel env st started = Some (st, started).
Proof. intro C. destruct fuel; simpl; now rewrite C. Qed.

Lemma run_loop_turn (fuel : nat) (env : Z -> files) (st : AgentState)
  (started : list Z) :
  (attempt st <=? max_attempts st)%Z && negb (success st) = true ->
  run_loop (S fuel) env st started
  = let '(st', break) := cycle st (env (attempt st)) in
    if break then Some (st', started ++ [attempt st])
    else run_loop fuel env st' (started ++ [attempt st]).
Proof. intro C. simpl. now rewrite C. Qed.

(** Fuel beyond what the loop needs does not change its result. *)
Lemma run_loop_more_fuel (env : Z -> files) (fuel extra : nat) :
  forall (st : AgentState) (started : list Z) (r : AgentState * list Z),
    run_loop fuel env st started = Some r ->
    run_loop (fuel + extra) env st started = Some r.
Proof.
  induction fuel as [|fuel IH]; intros st started r.
  - simpl.
    destruct ((attempt st <=? max_attempts st)%Z && negb (success st)) eqn:C;
      [discriminate|].
    intros <-. now apply run_loop_stop.
  - simpl.
    destruct ((attempt st <=? max_attempts st)%Z && negb (success st));
      [|auto].
    destruct (cycle st (env (attempt st))) as [st1 [|]]; auto.
Qed.

Lemma attempts_left_zero (st : AgentState) :
  (attempt st <=? max_attempts st)%Z = false -> attempts_left st = 0.
Proof. unfold attempts_left. intro H. apply Z.leb_gt in H. lia. Qed.

Lemma attempts_left_succ (st st' : AgentState) :
  (attempt st <=? max_attempts st)%Z = true ->
  attempt st' = (attempt st + 1)%Z ->
  max_attempts st' = max_attempts st ->
  attempts_left st = S (attempts_left st').
Proof.
  unfold attempts_left. intros H -> ->. apply Z.leb_le in H. lia.
Qed.

(** With fuel for the turns left, the loop returns; the turns it makes
    are consecutive and no more than the turns left; it ends on the
    first passing turn, or with the counter past the ceiling. *)
Lemma run_loop_returns (env : Z -> files) (fuel : nat) :
  forall (st : AgentState) (started : list Z),
    success st = false ->
    attempts_left st <= fuel ->
    exists st' n added,
      run_loop fuel env st started
      = Some (st', started ++ count_from (attempt st) n)
      /\ n <= attempts_left st
      /\ max_attempts st' = max_attempts st
      /\ error_log st' = error_log st ++ added
      /\ List.length added <= n
      /\ (success st' = true ->
          (attempt st' <= max_attempts st)%Z
          /\ Z.of_nat n = (attempt st' - attempt st + 1)%Z)
      /\ (success st' = false ->
          n = attempts_left st
          /\ attempt st' = (attempt st + Z.of_nat n)%Z
          /\ (max_attempts st < attempt st')%Z).
Proof.
  induction fuel as [|fuel IH]; intros st started Hs F.
  - assert (C : (attempt st <=? max_attempts st)%Z = false).
    { unfold attempts_left in F. apply Z.leb_gt. lia. }
    exists st, 0, []. rewrite run_loop_stop by now rewrite C.
    rewrite (attempts_left_zero st C), !app_nil_r. simpl.
    apply Z.leb_gt in C.
    repeat split; try reflexivity; try lia; congruence.
  - destruct (attempt st <=? max_attempts st)%Z eqn:C.
    + rewrite run_loop_turn by now rewrite C, Hs.
      destruct (cycle st (env (attempt st))) as [st1 [|]] eqn:Y.
      * apply cycle_passed in Y as (S1 & A1 & M1 & L1).
        exists st1, 1, []. simpl. rewrite app_nil_r.
        apply Z.leb_le in C. unfold attempts_left.
        repeat split; try assumption; try lia; congruence.
      * apply cycle_failed in Y as (A1 & M1 & S1 & L1).
        pose proof (attempts_left_succ st st1 C A1 M1) as E.
        destruct (IH st1 (started ++ [attempt st])) as
          (st' & n & added & R & N & M & L & LA & P & Q);
          [congruence|lia|].
        assert (X : exists added', error_log st' = error_log st ++ added'
                                   /\ List.length added' <= S n).
        { destruct L1 as [L1|[entry L1]]; rewrite L1 in L.
          - exists added. split; [assumption|lia].
          - exists (entry :: added). rewrite <- app_assoc in L.
            split; [assumption|simpl; lia]. }
        destruct X as (added' & L' & LA').
        exists st', (S n), added'.
        rewrite R, <- app_assoc, A1. simpl.
        apply Z.leb_le in C.
        repeat split; try assumption; try lia; try congruence.
        -- apply P in H. lia.
        -- apply P in H. lia.
        -- apply Q in H. lia.
        -- apply Q in H. lia.
        -- apply Q in H. lia.
    + exists st, 0, []. rewrite run_loop_stop by now rewrite C.
      rewrite (attempts_left_zero st C), !app_nil_r. simpl.
      apply Z.leb_gt in C.
      repeat split; try reflexivity; try lia; congruence.
Qed.

(** When the input is missing at every attempt, every turn left is
    made and each logs its missing-file error. *)
Lemma run_loop_missing (env : Z -> files) (fuel : nat) :
  (forall a, missing_input (env a)) ->
  forall (st : AgentState) (started : list Z),
    success st = false ->
    attempts_left st <= fuel ->
    exists st' added,
      run_loop fuel env st started
      = Some (st', started ++ count_from (attempt st) (attempts_left st))
      /\ success st' = false
      /\ error_log st' = error_log st ++ added
      /\ Forall2 missing_file_entry added
                 (count_from (attempt st) (attempts_left st)).
Proof.
  intro Hmiss.
  induction fuel as [|fuel IH]; intros st started Hs F.
  - assert (C : (attempt st <=? max_attempts st)%Z = false).
    { unfold attempts_left in F. apply Z.leb_gt. lia. }
    exists st, []. rewrite run_loop_stop by now rewrite C.
    rewrite (attempts_left_zero st C), !app_nil_r. simpl.
    repeat split; [assumption|constructor].
  - destruct (attempt st <=? max_attempts st)%Z eqn:C.
    + rewrite run_loop_turn by now rewrite C, Hs.
      destruct (analyze_missing st (env (attempt st)) (Hmiss _)) as [msg T].
      rewrite (cycle_raised st _ _ T).
      set (st1 := set_attempt _ _).
      assert (E : attempts_left st = S (attempts_left st1))
        by now apply attempts_left_succ.
      destruct (IH st1 (started ++ [attempt st])) as
        (st' & added & R & S' & L & A); [assumption|lia|].
      exists st', (ErrorInAttempt (attempt st) (FileNotFoundError msg)
                   :: added).
      rewrite R, E, <- app_assoc. simpl.
      repeat split; try assumption.
      * rewrite L. simpl. now rewrite <- app_assoc.
      * constructor; [now exists msg|exact A].
    + exists st, []. rewrite run_loop_stop by now rewrite C.
      rewrite (attempts_left_zero st C), !app_nil_r. simpl.
      repeat split; [assumption|constructor].
Qed.

End Conversions.

End DriverFacts.

Module DriverClaims.
Import PyStr Pandas GeneratedParser Agent DriverShapes PlainText
  TableSamples AgentSamples DriverFacts.

(** C3, as stated, fails: with no reference file the agent makes all
    three attempts, and each of them logs the missing-file error. *)
Lemma missing_reference_is_retried :
  exists st',
    run decimal_text day_month_year 3 never_a_reference fresh_agent
    = Some (st', [1; 2; 3]%Z)
    /\ attempt st' = 4%Z
    /\ success st' = false
    /\ error_log st'
       = [ErrorInAttempt 1 (FileNotFoundError "CSV file not found");
          ErrorInAttempt 2 (FileNotFoundError "CSV file not found");
          ErrorInAttempt 3 (FileNotFoundError "CSV file not found")].
Proof. eexists. repeat split; vm_compute; reflexivity. Qed.

(** C3, amended.  A reference file or statement missing when an attempt
    analyses its input makes the attempt raise a missing-file error,
    which [run] catches like any other: the error is logged and the
    attempt counter moves on.  When the input is missing at every
    attempt, every attempt left is made, each logs its error, and the
    run fails.  Only the absence of any PDF when the agent is built,
    before the loop, ends the process at once. *)
Theorem missing_file_costs_an_attempt
  (to_numeric_text : str -> option Q)
  (strptime_strftime : str -> option str) :
  (forall st fs,
      missing_input fs ->
      exists msg,
        cycle to_numeric_text strptime_strftime st fs
        = (set_attempt
             (append_error st (ErrorInAttempt (attempt st)
                                 (FileNotFoundError msg)))
             (attempt st + 1), false))
  /\ (forall env fuel st,
        (forall a, missing_input (env a)) ->
        success st = false ->
        attempts_left st <= fuel ->
        exists st' added,
          run to_numeric_text strptime_strftime fuel env st
          = Some (st', count_from (attempt st) (attempts_left st))
          /\ success st' = false
          /\ error_log st' = error_log st ++ added
          /\ Forall2 missing_file_entry added
                     (count_from (attempt st) (attempts_left st)))
  /\ (forall fuel target env,
        main to_numeric_text strptime_strftime fuel target false env
        = Some (Uncaught (FileNotFoundError "No PDF files found"))).
Proof.
  split; [|split].
  - intros st fs M.
    destruct (analyze_missing to_numeric_text strptime_strftime st fs M)
      as [msg T].
    exists msg. now apply cycle_raised.
  - intros env fuel st M S F. unfold run.
    exact (run_loop_missing to_numeric_text strptime_strftime env fuel M
             st [] S F).
  - reflexivity.
Qed.

Lemma missing_file_costs_an_attempt_example :
  exists st' added,
    run decimal_text day_month_year 5 never_a_reference fresh_agent
    = Some (st', count_from (attempt fresh_agent)
                   (attempts_left fresh_agent))
    /\ success st' = false
    /\ error_log st' = error_log fresh_agent ++ added
    /\ Forall2 missing_file_entry added
               (count_from (attempt fresh_agent)
                  (attempts_left fresh_agent)).
Proof.
  apply (proj1 (proj2 (missing_file_costs_an_attempt decimal_text
                         day_month_year))).
  - intro a. left. reflexivity.
  - reflexivity.
  - vm_compute. lia.
Defined.

(** C9, as stated, fails: three attempts fail on a mismatch and none
    of them appends an error string; the run ends with an empty
    error log and nothing but the failure line is printed. *)
Lemma mismatch_appends_no_error :
  exists st',
    run decimal_text day_month_year 3 always_mismatch fresh_agent
    = Some (st', [1; 2; 3]%Z)
    /\ attempt st' = 4%Z
    /\ success st' = false
    /\ error_log st' = []
    /\ main decimal_text day_month_year 3 (lit "icici") true
            always_mismatch
       = Some (SysExit 1 [FailedLine (lit "icici") 3]).
Proof. eexists. repeat split; vm_compute; reflexivity. Qed.

(** C9, amended.  The retry loop terminates.  A failed attempt moves
    the attempt counter on by one, and it failed in one of three ways:
    the test reported a mismatch, and then no error string is
    appended; the test raised, and then the error of the test is
    appended; or a step raised to [run], and then the error is appended
    with the attempt number.  A passing test ends the loop at once and
    appends nothing.  From a state that has not succeeded the loop
    makes consecutive attempts, no more than the attempts left (three
    from the initial state), and ends either in success or with the
    counter past the ceiling; [main] then exits with 0 on success and
    with 1 otherwise, after printing the errors accumulated, if any. *)
Theorem retry_loop_bounded
  (to_numeric_text : str -> option Q)
  (strptime_strftime : str -> option str) :
  (forall st fs st',
      cycle to_numeric_text strptime_strftime st fs = (st', false) ->
      attempt st' = (attempt st + 1)%Z
      /\ max_attempts st' = max_attempts st
      /\ success st' = success st
      /\ ((exists df st1,
              _analyze_data fs = Ok df /\ _generate_parser st fs = Ok st1
              /\ test_try to_numeric_text strptime_strftime st1 fs
                 = Ok Fail
              /\ error_log st' = error_log st)
          \/ (exists df st1 e,
                _analyze_data fs = Ok df
                /\ _generate_parser st fs = Ok st1
                /\ test_try to_numeric_text strptime_strftime st1 fs
                   = Raise e
                /\ error_log st' = error_log st ++ [ParserTestFailed e])
          \/ (exists e,
                attempt_try to_numeric_text strptime_strftime st fs
                = Raise e
                /\ error_log st'
                   = error_log st ++ [ErrorInAttempt (attempt st) e])))
  /\ (forall st fs df st1,
        _analyze_data fs = Ok df ->
        _generate_parser st fs = Ok st1 ->
        error_log st1 = error_log st
        /\ attempt st1 = attempt st
        /\ cycle to_numeric_text strptime_strftime st fs
           = match test_try to_numeric_text strptime_strftime st1 fs with
             | Ok Fail => (set_attempt st1 (attempt st + 1), false)
             | Ok _ => (set_success st1 true, true)
             | Raise e =>
                 (set_attempt (append_error st1 (ParserTestFailed e))
                              (attempt st + 1), false)
             end)
  /\ (forall st fs e,
        attempt_try to_numeric_text strptime_strftime st fs = Raise e ->
        cycle to_numeric_text strptime_strftime st fs
        = (set_attempt (append_error st (ErrorInAttempt (attempt st) e))
                       (attempt st + 1), false))
  /\ (forall st fs,
        _test_parser to_numeric_text strptime_strftime st fs
        = match test_try to_numeric_text strptime_strftime st fs with
          | Ok v => (passed v, st)
          | Raise e => (false, append_error st (ParserTestFailed e))
          end)
  /\ (forall env fuel st started st',
        (attempt st <=? max_attempts st)%Z && negb (success st) = true ->
        cycle to_numeric_text strptime_strftime st (env (attempt st))
        = (st', true) ->
        success st' = true
        /\ attempt st' = attempt st
        /\ error_log st' = error_log st
        /\ run_loop to_numeric_text strptime_strftime (S fuel) env st
                    started
           = Some (st', started ++ [attempt st]))
  /\ (forall env fuel st,
        success st = false ->
        attempts_left st <= fuel ->
        exists st' n added,
          run to_numeric_text strptime_strftime fuel env st
          = Some (st', count_from (attempt st) n)
          /\ n <= attempts_left st
          /\ max_attempts st' = max_attempts st
          /\ error_log st' = error_log st ++ added
          /\ List.length added <= n
          /\ (success st' = true ->
              (attempt st' <= max_attempts st)%Z
              /\ Z.of_nat n = (attempt st' - attempt st + 1)%Z)
          /\ (success st' = false ->
              n = attempts_left st
              /\ attempt st' = (attempt st + Z.of_nat n)%Z
              /\ (max_attempts st < attempt st')%Z))
  /\ (forall env fuel target,
        3 <= fuel ->
        exists st' started,
          run to_numeric_text strptime_strftime fuel env
              (initial_state target)
          = Some (st', started)
          /\ List.length started <= 3
          /\ max_attempts st' = 3%Z
          /\ main to_numeric_text strptime_strftime fuel target true env
             = Some (exit_of target st')).
Proof.
  split.
  { intros st fs st' Y.
    destruct (cycle_failed to_numeric_text strptime_strftime st fs st' Y)
      as (A & M & S & _).
    repeat split; try assumption.
    exact (cycle_failed_how to_numeric_text strptime_strftime st fs st' Y). }
  split.
  { intros st fs df st1 A G.
    destruct (generate_parser_state st st1 fs G) as (A1 & _ & _ & L1).
    split; [exact L1|]. split; [exact A1|].
    rewrite (cycle_tested to_numeric_text strptime_strftime st fs df st1
               A G), A1.
    now destruct (test_try _ _ st1 fs) as [[| |]|e]. }
  split; [exact (cycle_raised to_numeric_text strptime_strftime)|].
  split; [reflexivity|].
  split; [|split].
  - intros env fuel st started st' C Y.
    rewrite run_loop_turn by assumption. rewrite Y.
    apply cycle_passed in Y as (S1 & A1 & _ & L1). auto.
  - intros env fuel st S F. unfold run.
    exact (run_loop_returns to_numeric_text strptime_strftime env fuel
             st [] S F).
  - intros env fuel target F.
    destruct (run_loop_returns to_numeric_text strptime_strftime env fuel
                (initial_state target) [] eq_refl)
      as (st' & n & added & R & N & M & _); [exact F|].
    exists st', (count_from 1%Z n). simpl in R.
    unfold main, __init__, run. fold (initial_state target). rewrite R.
    assert (L : forall a k, List.length (count_from a k) = k).
    { intros a k. revert a. induction k; intro a; simpl; auto. }
    rewrite L. unfold attempts_left in N. simpl in N, M.
    repeat split; try assumption.
    unfold exit_of, diagnostics. rewrite M.
    destruct (success st'); [reflexivity|]. now destruct (error_log st').
Qed.

Lemma retry_loop_bounded_example :
  exists st' started,
    run decimal_text day_month_year 3 third_time_lucky
        (initial_state (lit "icici"))
    = Some (st', started)
    /\ List.length started <= 3
    /\ max_attempts st' = 3%Z
    /\ main decimal_text day_month_year 3 (lit "icici") true
            third_time_lucky
       = Some (exit_of (lit "icici") st').
Proof.
  apply (proj2 (proj2 (proj2 (proj2 (proj2 (proj2
           (retry_loop_bounded decimal_text day_month_year))))))).
  lia.
Defined.

(** The three ways of failing, one run each: a mismatch at every
    attempt logs nothing; an unreadable statement next to a reference
    without a Debit Amt column makes the parser raise inside the test,
    which logs the key error once per attempt; a missing reference makes the analysis raise to
    [run], which logs the error with the attempt number. *)
Example three_ways_of_failing :
  option_map (fun r => error_log (fst r))
    (run decimal_text day_month_year 3 always_mismatch fresh_agent)
  = Some []
  /\ option_map (fun r => error_log (fst r))
       (run decimal_text day_month_year 3
            (fun _ => unreadable_pdf dates_only_reference) fresh_agent)
     = Some [ParserTestFailed (KeyError (lit "Debit Amt"));
             ParserTestFailed (KeyError (lit "Debit Amt"));
             ParserTestFailed (KeyError (lit "Debit Amt"))]
  /\ option_map (fun r => error_log (fst r))
       (run decimal_text day_month_year 3 never_a_reference fresh_agent)
     = Some [ErrorInAttempt 1 (FileNotFoundError "CSV file not found");
             ErrorInAttempt 2 (FileNotFoundError "CSV file not found");
             ErrorInAttempt 3 (FileNotFoundError "CSV file not found")].
Proof. repeat split; vm_compute; reflexivity. Qed.

End DriverClaims.

(** * Further properties *)

(** ** More on splitting and stripping *)

Module StrMore.
Import PyStr MoreShapes Shapes StrFacts.

Lemma split_on_nonempty (sep : ascii) (s : str) : split_on sep s <> [].
Proof.
  destruct s as [|c s]; simpl; [discriminate|].
  destruct (Ascii.eqb c sep); [discriminate|].
  destruct (split_on sep s); discriminate.
Qed.

(** Splitting at a separator splits the list of pieces. *)
Lemma split_on_app_sep (sep : ascii) (a b : str) :
  split_on sep (a ++ sep :: b) = split_on sep a ++ split_on sep b.
Proof.
  induction a as [|c a IH]; simpl.
  - now rewrite Ascii.eqb_refl.
  - destruct (Ascii.eqb c sep); [now rewrite IH|].
    rewrite IH. pose proof (split_on_nonempty sep a) as N.
    destruct (split_on sep a) as [|w ws]; [contradiction|reflexivity].
Qed.

(** Without a separator in between, the last piece of the first part
    and the first piece of the second become one piece. *)
Lemma split_on_app (sep : ascii) (a b : str) :
  split_on sep (a ++ b)
  = removelast (split_on sep a)
    ++ (last (split_on sep a) [] ++ hd [] (split_on sep b))
       :: tl (split_on sep b).
Proof.
  induction a as [|c a IH].
  - simpl. pose proof (split_on_nonempty sep b) as N.
    destruct (split_on sep b); [contradiction|reflexivity].
  - pose proof (split_on_nonempty sep a) as N.
    cbn [app split_on]. rewrite IH.
    destruct (split_on sep a) as [|w ws]; [contradiction|].
    destruct (Ascii.eqb c sep).
    + reflexivity.
    + destruct ws as [|w' ws]; reflexivity.
Qed.

Lemma words_tokens (s acc : str) :
  spaceless acc -> Forall token (words acc s).
Proof.
  revert acc. induction s as [|c s IH]; intros acc Hacc; simpl.
  - destruct acc; constructor; [|constructor].
    split; [discriminate|assumption].
  - destruct (isspace c) eqn:E.
    + destruct acc as [|a acc].
      * apply IH. constructor.
      * constructor; [split; [discriminate|assumption]|].
        apply IH. constructor.
    + apply IH. apply Forall_app. split; [assumption|].
      constructor; [assumption|constructor].
Qed.

(** [str.split] delivers tokens: non-empty, without white space. *)
Lemma split_tokens (s : str) : Forall token (split s).
Proof. apply words_tokens. constructor. Qed.

Lemma words_spaceless_prefix (tok acc rest : str) :
  spaceless tok -> words acc (tok ++ rest) = words (acc ++ tok) rest.
Proof.
  revert acc. induction tok as [|c tok IH]; intros acc H; simpl.
  - now rewrite app_nil_r.
  - inversion H as [|? ? Hc Htok]; subst. rewrite Hc, IH by assumption.
    now rewrite <- app_assoc.
Qed.

(** Joining tokens with single spaces and splitting again gives the
    tokens back. *)
Lemma split_join (toks : list str) :
  Forall token toks -> split (join (lit " ") toks) = toks.
Proof.
  unfold split. induction 1 as [|tok toks [Hne Hsp] _ IH]; [reflexivity|].
  destruct toks as [|tok' toks].
  - simpl. rewrite <- (app_nil_r tok) at 1.
    rewrite words_spaceless_prefix by assumption. simpl.
    destruct tok; [contradiction|reflexivity].
  - change (join (lit " ") (tok :: tok' :: toks))
      with (tok ++ " "%char :: join (lit " ") (tok' :: toks)).
    rewrite words_spaceless_prefix by assumption. cbn [app words].
    change (isspace " ") with true. cbn iota.
    rewrite IH. destruct tok; [contradiction|reflexivity].
Qed.

Lemma lstrip_context (s : str) : exists a, s = a ++ lstrip s /\ blank a.
Proof.
  induction s as [|c s (a & IH & B)]; simpl.
  - exists []. split; [reflexivity|constructor].
  - destruct (isspace c) eqn:E.
    + exists (c :: a). split; [simpl; now f_equal|now constructor].
    + exists []. split; [reflexivity|constructor].
Qed.

Lemma blank_rev (s : str) : blank s -> blank (rev s).
Proof. unfold blank. apply Forall_rev. Qed.

(** A stripped line is the line without a blank prefix and a blank
    suffix. *)
Lemma strip_context (s : str) :
  exists pre post, s = pre ++ strip s ++ post /\ blank pre /\ blank post.
Proof.
  unfold strip, rstrip.
  destruct (lstrip_context s) as (a & Ha & Ba).
  destruct (lstrip_context (rev (lstrip s))) as (b & Hb & Bb).
  exists a, (rev b). split; [|split; [assumption|now apply blank_rev]].
  rewrite <- rev_app_distr, <- Hb, rev_involutive. exact Ha.
Qed.

Lemma lstrip_blank (p : str) : blank p -> lstrip p = [].
Proof.
  induction 1 as [|c p Hc _ IH]; simpl; [reflexivity|]. now rewrite Hc.
Qed.

Lemma lstrip_blank_app (pre s : str) :
  blank pre -> lstrip (pre ++ s) = lstrip s.
Proof.
  induction 1 as [|c p Hc _ IH]; simpl; [reflexivity|]. now rewrite Hc.
Qed.

Lemma lstrip_app (s p : str) :
  lstrip (s ++ p)
  = match lstrip s with
    | [] => lstrip p
    | _ => lstrip s ++ p
    end.
Proof.
  induction s as [|c s IH]; simpl.
  - now destruct (lstrip p).
  - destruct (isspace c); [exact IH|reflexivity].
Qed.

Lemma rstrip_app_blank (s post : str) :
  blank post -> rstrip (s ++ post) = rstrip s.
Proof.
  intro B. unfold rstrip. rewrite rev_app_distr.
  now rewrite lstrip_blank_app by now apply blank_rev.
Qed.

(** White space around a line does not change the stripped line. *)
Lemma strip_blank_context (pre s post : str) :
  blank pre -> blank post -> strip (pre ++ s ++ post) = strip s.
Proof.
  intros Bpre Bpost. unfold strip.
  rewrite lstrip_blank_app by assumption. rewrite lstrip_app.
  destruct (lstrip s) as [|c t] eqn:E.
  - now rewrite lstrip_blank.
  - now apply rstrip_app_blank.
Qed.

Lemma strip_strip (s : str) : strip (strip s) = strip s.
Proof.
  destruct (strip_context s) as (pre & post & E & Bpre & Bpost).
  rewrite E at 2. symmetry. now apply strip_blank_context.
Qed.

Lemma digit_not_space (c : ascii) : isdigit c = true -> isspace c = false.
Proof.
  unfold isdigit, isspace. intro H.
  apply andb_true_iff in H as [L U].
  apply N.leb_le in L. apply N.leb_le in U.
  replace (code c <=? 13)%N with false by (symmetry; apply N.leb_gt; lia).
  replace (code c <=? 32)%N with false by (symmetry; apply N.leb_gt; lia).
  replace (code c =? 133)%N with false by (symmetry; apply N.eqb_neq; lia).
  replace (code c =? 160)%N with false by (symmetry; apply N.eqb_neq; lia).
  now rewrite !andb_false_r.
Qed.

(** A date-shaped token begins and ends with a digit, so an occurrence
    of one never reaches into the white space around a line. *)
Lemma date_occurs_without_space_front (c : ascii) (s : str) :
  isspace c = true ->
  occurs_in date_shaped (c :: s) -> occurs_in date_shaped s.
Proof.
  intros Hc (a & tok & b & E & D). destruct a as [|x a]; simpl in E.
  - destruct D as (d1 & d2 & m1 & m2 & y1 & y2 & y3 & y4 & -> & F).
    injection E as -> _. inversion F as [|? ? Hd _]; subst.
    apply digit_not_space in Hd. congruence.
  - injection E as _ ->. now exists a, tok, b.
Qed.

Lemma date_occurs_without_space_back (c : ascii) (s : str) :
  isspace c = true ->
  occurs_in date_shaped (s ++ [c]) -> occurs_in date_shaped s.
Proof.
  intros Hc (a & tok & b & E & D). revert E.
  induction b as [|x b' _] using rev_ind; intro E.
  - rewrite app_nil_r in E.
    destruct D as (d1 & d2 & m1 & m2 & y1 & y2 & y3 & y4 & -> & F).
    change [d1; d2; "-"%char; m1; m2; "-"%char; y1; y2; y3; y4]
      with ([d1; d2; "-"%char; m1; m2; "-"%char; y1; y2; y3] ++ [y4]) in E.
    rewrite app_assoc in E. apply app_inj_tail in E as [_ ->].
    assert (Hd : isdigit y4 = true).
    { repeat match goal with
        | H : Forall _ (_ :: _) |- _ => inversion H; subst; clear H
        end. assumption. }
    apply digit_not_space in Hd. congruence.
  - rewrite !app_assoc in E. apply app_inj_tail in E as [-> _].
    exists a, tok, b'. split; [now rewrite app_assoc|assumption].
Qed.

(** Whether a line holds a date-shaped token can be read off the
    stripped line as well as off the line. *)
Lemma date_occurs_stripped (s : str) :
  occurs_in date_shaped (strip s) <-> occurs_in date_shaped s.
Proof.
  destruct (strip_context s) as (pre & post & E & Bpre & Bpost).
  split.
  - intro O. rewrite E.
    destruct O as (a & tok & b & -> & D).
    exists (pre ++ a), tok, (b ++ post). split; [|assumption].
    now rewrite <- !app_assoc.
  - rewrite E at 1. generalize (strip s). intros t O.
    assert (F : occurs_in date_shaped (t ++ post)).
    { clear E. induction Bpre as [|c pre Hc _ IH]; [exact O|].
      apply IH. now apply (date_occurs_without_space_front c). }
    clear O E. revert Bpost F.
    induction post as [|c post IH] using rev_ind; intros B F.
    + now rewrite app_nil_r in F.
    + apply Forall_app in B as [B Hc]. inversion Hc; subst.
      rewrite app_assoc in F. apply IH; [assumption|].
      now apply (date_occurs_without_space_back c).
Qed.

End StrMore.

(** ** More on the line parser *)

Module LineParserMore.
Import PyStr Re LineParser Shapes MoreShapes Samples ReFacts StrFacts
  LineParserFacts StrMore.

(** The record of a line, written without the loop. *)
Lemma parse_line_normal (keywords : list str) (raw : str) :
  parse_line keywords raw
  = let '(d, c, b) :=
      assign keywords (description_of_line raw) (amounts_of_line raw) in
    if truthy (strip raw) && re_search date_pattern (strip raw)
       && (3 <=? List.length (split (strip raw)))
       && truthy (description_of_line raw) && (truthy d || truthy c)
    then Some {| Date := hd [] (split (strip raw));
                 Description := description_of_line raw;
                 Debit_Amt := d; Credit_Amt := c; Balance := b |}
    else None.
Proof.
  unfold parse_line, description_of_line, amounts_of_line, tokens_after_date.
  destruct (split (strip raw)) as [|date rest] eqn:E.
  - simpl.
    destruct (truthy (strip raw)); simpl; [|reflexivity].
    now destruct (re_search date_pattern (strip raw)).
  - cbn [tl hd]. rewrite classify_filter. cbn [app].
    destruct (assign keywords _ _) as [[d c] b].
    destruct (truthy (strip raw)); cbn [negb andb]; [|reflexivity].
    destruct (re_search date_pattern (strip raw)); [|reflexivity].
    destruct (3 <=? List.length (date :: rest)); reflexivity.
Qed.

Lemma amount_has_point (tok : str) :
  re_match amount_pattern tok = true ->
  In "."%char (remove_char "," tok).
Proof.
  intro H. apply re_match_amount in H
    as (head & rest & -> & run & d1 & d2 & -> & _).
  unfold remove_char. apply filter_In. split; [|reflexivity].
  apply in_or_app. left. apply in_or_app. right. now left.
Qed.

Lemma amounts_have_point (raw a : str) :
  In a (amounts_of_line raw) -> In "."%char a.
Proof.
  unfold amounts_of_line. intro H.
  apply in_map_iff in H as (tok & <- & H). apply filter_In in H as [_ H].
  now apply amount_has_point.
Qed.

Lemma remove_char_spaceless (c : ascii) (s : str) :
  spaceless s -> spaceless (remove_char c s).
Proof.
  unfold spaceless, remove_char. intro H. apply Forall_forall.
  intros x Hx. apply filter_In in Hx as [Hx _].
  now apply (proj1 (Forall_forall _ _) H).
Qed.

Lemma tokens_after_date_tokens (raw : str) :
  Forall token (tokens_after_date raw).
Proof.
  unfold tokens_after_date. pose proof (split_tokens (strip raw)) as H.
  destruct (split (strip raw)); [constructor|]. now inversion H.
Qed.

Lemma amounts_are_fields (raw a : str) :
  In a (amounts_of_line raw) -> amount_field a.
Proof.
  intro H. right. split; [|split].
  - unfold amounts_of_line in H.
    apply in_map_iff in H as (tok & <- & H). apply filter_In in H as [H _].
    apply remove_char_spaceless.
    pose proof (tokens_after_date_tokens raw) as T.
    now apply (proj1 (Forall_forall _ _) T) in H as [_ H].
  - unfold amounts_of_line in H.
    apply in_map_iff in H as (tok & <- & _). unfold remove_char.
    intro C. apply filter_In in C as [_ C].
    now rewrite Ascii.eqb_refl in C.
  - now apply (amounts_have_point raw).
Qed.

(** With an amount on the line, the debit or the credit field is
    filled, whatever the keywords. *)
Lemma assign_fills (keywords : list str) (raw : str) :
  amounts_of_line raw <> [] ->
  let '(d, c, _) :=
    assign keywords (description_of_line raw) (amounts_of_line raw) in
  truthy d || truthy c = true.
Proof.
  intro N.
  assert (H : forall a, In a (amounts_of_line raw) -> truthy a = true).
  { intros a Ha. apply amounts_have_point in Ha. now destruct a. }
  unfold assign.
  destruct (amounts_of_line raw) as [|a0 [|a1 [|a2 more]]];
    [contradiction| | |];
    try destruct (has_keyword keywords (description_of_line raw));
    rewrite ?(H a0 (or_introl eq_refl)), ?orb_true_r; reflexivity.
Qed.

Lemma assign_empty (keywords : list str) (description : str) :
  assign keywords description [] = ([], [], []).
Proof. reflexivity. Qed.

Lemma date_occurs_nonempty (s : str) :
  occurs_in date_shaped s -> truthy s = true.
Proof.
  intros (a & tok & b & -> & d1 & d2 & m1 & m2 & y1 & y2 & y3 & y4 & -> & _).
  destruct a; reflexivity.
Qed.

(** Which lines yield a record. *)
Lemma parse_line_accepts_iff (keywords : list str) (raw : str) :
  (exists t, parse_line keywords raw = Some t)
  <-> occurs_in date_shaped raw
      /\ 3 <= List.length (split (strip raw))
      /\ description_of_line raw <> []
      /\ amounts_of_line raw <> [].
Proof.
  split.
  - intros [t H]. pose proof H as H'.
    apply parse_line_accepts in H as (S & L & _ & D & A & W).
    apply re_search_date in S. apply (proj1 (date_occurs_stripped raw)) in S.
    destruct W as [Wd Wdc]. rewrite D in Wd.
    split; [assumption|]. split; [assumption|]. split; [assumption|].
    intro E. rewrite E in A. simpl in A. injection A as Ed Ec _.
    destruct Wdc; congruence.
  - intros (O & L & D & A).
    rewrite parse_line_normal.
    pose proof (assign_fills keywords raw A) as F.
    destruct (assign keywords _ _) as [[d c] b]. rewrite F.
    apply (proj2 (date_occurs_stripped raw)) in O.
    rewrite (date_occurs_nonempty _ O).
    apply re_search_date in O. rewrite O.
    apply Nat.leb_le in L. rewrite L.
    apply truthy_nonempty in D. rewrite D. simpl. eauto.
Qed.

Lemma parse_lines_records (keywords : list str) (lines : list str) :
  parse_lines keywords lines [] = records_of keywords lines.
Proof.
  unfold records_of. induction lines as [|line rest IH]; [reflexivity|].
  cbn [parse_lines flat_map]. rewrite parse_lines_app, IH.
  now destruct (parse_line keywords line).
Qed.

Lemma records_of_app (keywords : list str) (l1 l2 : list str) :
  records_of keywords (l1 ++ l2)
  = records_of keywords l1 ++ records_of keywords l2.
Proof. unfold records_of. apply flat_map_app. Qed.

Lemma records_of_length (keywords : list str) (lines : list str) :
  List.length (records_of keywords lines) <= List.length lines.
Proof.
  unfold records_of. induction lines as [|line rest IH]; simpl; [lia|].
  destruct (parse_line keywords line); simpl; lia.
Qed.

End LineParserMore.

Module LineParserExtras.
Import PyStr Re LineParser Shapes MoreShapes Samples ReFacts StrFacts
  LineParserFacts StrMore LineParserMore.

Lemma has_keyword_incl (kw1 kw2 : list str) (description : str) :
  incl kw1 kw2 ->
  has_keyword kw1 description = true ->
  has_keyword kw2 description = true.
Proof.
  intros I H. apply has_keyword_mentions in H as (w & Hw & C).
  apply has_keyword_mentions. exists w. split; [now apply I|assumption].
Qed.

Lemma icici_keywords_incl : incl icici_keywords generic_keywords.
Proof. intros w H. simpl in *. tauto. Qed.

Lemma assign_fields (keywords : list str) (description : str)
  (amounts : list str) (d c b : str) :
  assign keywords description amounts = (d, c, b) ->
  Forall (fun a => a = [] \/ In a amounts) [d; c; b].
Proof.
  unfold assign.
  destruct amounts as [|a0 [|a1 [|a2 more]]];
    try destruct (has_keyword keywords description);
    intros [= <- <- <-];
    (constructor; [|constructor; [|constructor; [|constructor]]]);
    simpl; auto 8.
Qed.

(** X1.  A line yields a record exactly when it holds a date-shaped
    token, splits into at least three tokens, and has after its first
    token at least one amount token and at least one other token.  The
    keyword list plays no part in this: the lines one profile accepts
    are the lines the other accepts. *)
Theorem acceptance_ignores_keywords (keywords : list str) (raw : str) :
  ((exists t, parse_line keywords raw = Some t)
   <-> occurs_in date_shaped raw
       /\ 3 <= List.length (split (strip raw))
       /\ description_of_line raw <> []
       /\ amounts_of_line raw <> [])
  /\ (forall keywords',
        parse_line keywords raw = None
        <-> parse_line keywords' raw = None).
Proof.
  split; [apply parse_line_accepts_iff|].
  assert (H : forall k k', parse_line k raw = None ->
                           parse_line k' raw = None).
  { intros k k' N. destruct (parse_line k' raw) as [t|] eqn:E; [|reflexivity].
    assert (A : exists t, parse_line k raw = Some t).
    { apply parse_line_accepts_iff.
      apply (proj1 (parse_line_accepts_iff k' raw)). eauto. }
    destruct A as [t' A]. congruence. }
  intro keywords'. split; apply H.
Qed.

Lemma same_line_two_keyword_lists (kw1 kw2 : list str) (raw : str)
  (t1 : transaction) :
  incl kw1 kw2 ->
  parse_line kw1 raw = Some t1 ->
  exists t2, parse_line kw2 raw = Some t2 /\ same_but_side t1 t2.
Proof.
  intros I H1.
  assert (A : exists t2, parse_line kw2 raw = Some t2).
  { apply parse_line_accepts_iff.
    apply (proj1 (parse_line_accepts_iff kw1 raw)). eauto. }
  destruct A as [t2 H2]. exists t2. split; [assumption|].
  apply parse_line_accepts in H1 as (_ & _ & S1 & D1 & A1 & _).
  apply parse_line_accepts in H2 as (_ & _ & S2 & D2 & A2 & _).
  rewrite S1 in S2. injection S2 as S2.
  destruct t1 as [date1 desc1 deb1 cre1 bal1].
  destruct t2 as [date2 desc2 deb2 cre2 bal2].
  unfold same_but_side. simpl in *. subst date2 desc1 desc2.
  unfold assign in A1, A2.
  pose proof (has_keyword_incl kw1 kw2 (description_of_line raw) I) as K.
  destruct (amounts_of_line raw) as [|a0 [|a1 [|a2 more]]];
    destruct (has_keyword kw1 (description_of_line raw));
    try rewrite (K eq_refl) in A2;
    try destruct (has_keyword kw2 (description_of_line raw));
    injection A1 as -> -> ->; injection A2 as -> -> ->;
    repeat split; auto.
Qed.

Lemma records_same_but_side (kw1 kw2 : list str) (lines : list str) :
  incl kw1 kw2 ->
  Forall2 same_but_side (records_of kw1 lines) (records_of kw2 lines).
Proof.
  intro I. unfold records_of.
  induction lines as [|line rest IH]; simpl; [constructor|].
  destruct (parse_line kw1 line) as [t1|] eqn:E1.
  - destruct (same_line_two_keyword_lists kw1 kw2 line t1 I E1)
      as (t2 & -> & R).
    simpl. now constructor.
  - assert (E2 : parse_line kw2 line = None).
    { destruct (parse_line kw2 line) as [t2|] eqn:E2; [|reflexivity].
      assert (A : exists t, parse_line kw1 line = Some t).
      { apply parse_line_accepts_iff.
        apply (proj1 (parse_line_accepts_iff kw2 line)). eauto. }
      destruct A as [t A]. congruence. }
    rewrite E2. exact IH.
Qed.

(** X2.  The two profiles build the same table up to the side of the
    first amount: record by record the date, the description and the
    balance are the same, and either the whole record is, or the
    amount the narrower keyword list books as credit is booked as
    debit by the wider one. *)
Theorem profiles_differ_only_in_side :
  (forall kw1 kw2 raw t1,
      incl kw1 kw2 ->
      parse_line kw1 raw = Some t1 ->
      exists t2, parse_line kw2 raw = Some t2 /\ same_but_side t1 t2)
  /\ (forall text,
        Forall2 same_but_side (_parse_icici_transactions text)
                (_parse_generic_transactions text)).
Proof.
  split; [exact same_line_two_keyword_lists|].
  intro text.
  unfold _parse_icici_transactions, _parse_generic_transactions,
    parse_transactions.
  rewrite !parse_lines_records.
  apply records_same_but_side. exact icici_keywords_incl.
Qed.

(** X3.  The table is built line by line, in the order of the lines:
    the table of two texts joined by a newline is the table of the
    first followed by the table of the second, and a table never has
    more records than the text has lines. *)
Theorem tables_concatenate (keywords : list str) :
  (forall text,
      parse_transactions keywords text
      = records_of keywords (split_on "010" text))
  /\ (forall a b,
        parse_transactions keywords (a ++ "010"%char :: b)
        = parse_transactions keywords a ++ parse_transactions keywords b)
  /\ (forall text,
        List.length (parse_transactions keywords text)
        <= List.length (split_on "010" text)).
Proof.
  unfold parse_transactions. split; [|split].
  - intro text. apply parse_lines_records.
  - intros a b. rewrite !parse_lines_records, split_on_app_sep.
    apply records_of_app.
  - intro text. rewrite parse_lines_records. apply records_of_length.
Qed.

(** X4.  In a record the date is the first token of the line, whatever
    its shape: a non-empty text without white space.  Each of debit,
    credit and balance is empty or a text without white space and
    commas that holds a decimal point. *)
Theorem record_fields_are_tokens (keywords : list str) (raw : str)
  (t : transaction) :
  parse_line keywords raw = Some t ->
  hd [] (split (strip raw)) = Date t
  /\ token (Date t)
  /\ amount_field (Debit_Amt t)
  /\ amount_field (Credit_Amt t)
  /\ amount_field (Balance t).
Proof.
  intro H. apply parse_line_accepts in H as (_ & _ & S & _ & A & _).
  pose proof (split_tokens (strip raw)) as T. rewrite S in T.
  inversion T as [|? ? Tdate _]; subst.
  split; [now rewrite S|]. split; [assumption|].
  symmetry in A. apply assign_fields in A.
  assert (F : forall a, a = [] \/ In a (amounts_of_line raw) ->
                        amount_field a).
  { intros a [->|Ha]; [now left|now apply (amounts_are_fields raw)]. }
  repeat match goal with
    | H : Forall _ (_ :: _) |- _ => inversion H; subst; clear H
    end.
  repeat split; auto.
Qed.

Lemma record_fields_example :
  hd [] (split (strip atm_line)) = Date atm_record
  /\ token (Date atm_record)
  /\ amount_field (Debit_Amt atm_record)
  /\ amount_field (Credit_Amt atm_record)
  /\ amount_field (Balance atm_record).
Proof.
  apply (record_fields_are_tokens generic_keywords atm_line atm_record).
  vm_compute. reflexivity.
Defined.

(** X5.  Splitting the description of a record gives back the tokens
    of the line that are not amounts, in their order; none of them
    passes the amount test, and joining them again gives the
    description. *)
Theorem description_splits_back (keywords : list str) (raw : str)
  (t : transaction) :
  parse_line keywords raw = Some t ->
  split (Description t)
  = filter (fun tok => negb (re_match amount_pattern tok))
           (tokens_after_date raw)
  /\ Forall (fun tok => re_match amount_pattern tok = false)
            (split (Description t))
  /\ join (lit " ") (split (Description t)) = Description t.
Proof.
  intro H. apply parse_line_accepts in H as (_ & _ & _ & D & _).
  rewrite D. unfold description_of_line.
  assert (T : Forall token
                (filter (fun tok => negb (re_match amount_pattern tok))
                        (tokens_after_date raw))).
  { apply Forall_forall. intros tok Hin. apply filter_In in Hin as [Hin _].
    exact (proj1 (Forall_forall _ _) (tokens_after_date_tokens raw) tok Hin). }
  rewrite (split_join _ T). split; [reflexivity|]. split; [|reflexivity].
  apply Forall_forall. intros tok Hin. apply filter_In in Hin as [_ N].
  now apply negb_true_iff in N.
Qed.

Lemma description_splits_back_example :
  split (Description atm_record)
  = filter (fun tok => negb (re_match amount_pattern tok))
           (tokens_after_date atm_line)
  /\ Forall (fun tok => re_match amount_pattern tok = false)
            (split (Description atm_record))
  /\ join (lit " ") (split (Description atm_record))
     = Description atm_record.
Proof.
  apply (description_splits_back generic_keywords atm_line atm_record).
  vm_compute. reflexivity.
Defined.

(** X6.  White space before and after a line plays no part: the line
    yields the same record, or none, with and without it. *)
Theorem surrounding_space_ignored (keywords : list str)
  (pre raw post : str) :
  blank pre -> blank post ->
  parse_line keywords (pre ++ raw ++ post) = parse_line keywords raw.
Proof.
  intros Bpre Bpost. rewrite !parse_line_normal.
  unfold description_of_line, amounts_of_line, tokens_after_date.
  now rewrite (strip_blank_context pre raw post Bpre Bpost).
Qed.

Lemma surrounding_space_ignored_example :
  parse_line icici_keywords (lit "   " ++ atm_line ++ ["009"%char])
  = parse_line icici_keywords atm_line.
Proof.
  apply surrounding_space_ignored; repeat constructor.
Defined.

End LineParserExtras.

(** ** Text extraction and the generated parser *)

Module ParserMore.
Import PyStr Re LineParser Pandas GeneratedParser Agent Shapes TableShapes
  MoreShapes PdfText LineParserFacts StrMore LineParserMore
  ComparatorFacts FallbackFacts.

Lemma PyPDF2_pages_concat (text : str) (pages : list str) :
  PyPDF2_pages text pages
  = text ++ List.concat (map (fun page => page ++ newline) pages).
Proof.
  revert text. induction pages as [|page rest IH]; intro text; simpl.
  - now rewrite app_nil_r.
  - rewrite IH. now rewrite <- !app_assoc.
Qed.

Lemma pdfplumber_pages_concat (text : str) (pages : list (option str)) :
  pdfplumber_pages text pages
  = text ++ List.concat (map (fun page => or_str page newline) pages).
Proof.
  revert text. induction pages as [|page rest IH]; intro text; simpl.
  - now rewrite app_nil_r.
  - rewrite IH. now rewrite <- !app_assoc.
Qed.

Lemma parse_transactions_newline (keywords : list str) (a b : str) :
  parse_transactions keywords (a ++ "010"%char :: b)
  = parse_transactions keywords a ++ parse_transactions keywords b.
Proof.
  unfold parse_transactions.
  rewrite !parse_lines_records, split_on_app_sep. apply records_of_app.
Qed.

Lemma mapM_length (A B : Type) (f : A -> result B) (l : list A)
  (l' : list B) :
  mapM f l = Ok l' -> List.length l' = List.length l.
Proof.
  revert l'. induction l as [|a l IH]; intros l'; simpl.
  - now intros [= <-].
  - destruct (f a) as [b|e]; [|discriminate]. cbn [bind].
    destruct (mapM f l) as [bs|e]; [|discriminate]. cbn [bind].
    intros [= <-]. simpl. f_equal. now apply IH.
Qed.

Lemma mapM_raises (A B : Type) (f : A -> result B) (l : list A) (x : A) :
  In x l -> (exists e, f x = Raise e) -> exists e, mapM f l = Raise e.
Proof.
  intros Hin [e He]. induction l as [|a l IH]; [destruct Hin|]. simpl.
  destruct Hin as [->|Hin].
  - rewrite He. cbn [bind]. eauto.
  - destruct (f a) as [b|e']; cbn [bind]; [|eauto].
    destruct (IH Hin) as [e'' ->]. cbn [bind]. eauto.
Qed.

Lemma mapM_ok_iff (A B : Type) (f : A -> result B) (l : list A) :
  (exists l', mapM f l = Ok l') <-> Forall (fun a => exists b, f a = Ok b) l.
Proof.
  induction l as [|a l IH]; simpl.
  - split; [constructor|eauto].
  - split.
    + intros [l' H]. destruct (f a) as [b|e] eqn:E; [|discriminate].
      cbn [bind] in H. destruct (mapM f l) as [bs|e] eqn:M; [|discriminate].
      constructor; [eauto|]. apply IH. eauto.
    + intro F. inversion F as [|? ? [b Hb] Fl]; subst.
      apply IH in Fl as [bs Hbs]. rewrite Hb, Hbs. cbn [bind]. eauto.
Qed.

Lemma columns_setitem (df : DataFrame) (key : str) (old col : Series) :
  getitem df key = Ok old -> columns (setitem df key col) = columns df.
Proof.
  unfold columns. induction df as [|[label c] df IH]; simpl; [discriminate|].
  destruct (eqb_str label key); [reflexivity|].
  intro H. simpl. now rewrite IH.
Qed.

Lemma heights_setitem (df : DataFrame) (key : str) (old col : Series) :
  getitem df key = Ok old ->
  List.length col = List.length old ->
  map (fun c : str * Series => List.length (snd c)) (setitem df key col)
  = map (fun c : str * Series => List.length (snd c)) df.
Proof.
  induction df as [|[label c] df IH]; simpl; [discriminate|].
  destruct (eqb_str label key).
  - intros [= ->] L. simpl. now rewrite L.
  - intros H L. simpl. now rewrite IH.
Qed.

Lemma getitem_setitem (df : DataFrame) (key : str) (col : Series) :
  getitem (setitem df key col) key = Ok col.
Proof.
  induction df as [|[label c] df IH]; simpl.
  - now rewrite eqb_str_refl.
  - destruct (eqb_str label key) eqn:E; simpl; now rewrite E.
Qed.

Lemma fillna_series_no_nan (col : Series) : ~ In CNaN (fillna_series col).
Proof.
  unfold fillna_series, map_series. cbn [values]. intro H.
  apply in_map_iff in H as (c & E & _). now destruct c.
Qed.

Lemma length_fillna_series (col : Series) :
  List.length (fillna_series col) = List.length col.
Proof. unfold fillna_series, map_series. cbn [values]. apply length_map. Qed.

Section Conversions.

Variable to_numeric_text : str -> option Q.
Variable strptime_strftime : str -> option str.

Local Abbreviation fallback :=
  (_fallback_to_csv to_numeric_text strptime_strftime).
Local Abbreviation parse_try :=
  (parse_try to_numeric_text strptime_strftime).
Local Abbreviation parse := (parse to_numeric_text strptime_strftime).
Local Abbreviation to_numeric := (to_numeric to_numeric_text).
Local Abbreviation to_datetime_strftime :=
  (to_datetime_strftime strptime_strftime).

Lemma length_to_numeric (col : Series) :
  List.length (to_numeric col) = List.length col.
Proof.
  unfold Pandas.to_numeric. destruct (dtype_of col); cbn [values];
    auto using length_map.
Qed.

Lemma length_to_datetime (col col' : Series) :
  to_datetime_strftime col = Ok col' ->
  List.length col' = List.length col.
Proof.
  unfold Pandas.to_datetime_strftime.
  destruct (mapM _ col) as [cells|e] eqn:M; [|discriminate]. cbn [bind].
  intros [= <-]. cbn [values]. now apply mapM_length in M.
Qed.

(** The date conversion returns exactly when it accepts every cell. *)
Lemma to_datetime_ok_iff (col : Series) :
  (exists col', to_datetime_strftime col = Ok col')
  <-> Forall (fun c => exists c',
                to_datetime_cell strptime_strftime c = Ok c') col.
Proof.
  rewrite <- mapM_ok_iff. unfold Pandas.to_datetime_strftime.
  destruct (mapM _ col) as [cells|e]; cbn [bind]; split;
    intros [x H]; try discriminate; eauto.
Qed.

(** The fallback, written with every column read from the reference
    itself. *)
Lemma fallback_from_reference (fs : files) (ref : DataFrame) :
  reference fs = Some (Ok ref) ->
  fallback fs
  = (date <- getitem ref (lit "Date") ;;
     date' <- to_datetime_strftime date ;;
     debit <- getitem ref (lit "Debit Amt") ;;
     credit <- getitem ref (lit "Credit Amt") ;;
     balance <- getitem ref (lit "Balance") ;;
     Ok (setitem
           (setitem
              (setitem (setitem ref (lit "Date") date')
                       (lit "Debit Amt") (fillna_series (to_numeric debit)))
              (lit "Credit Amt") (fillna_series (to_numeric credit)))
           (lit "Balance") (to_numeric balance))).
Proof.
  intro R. unfold _fallback_to_csv, read_reference. rewrite R. cbn [bind].
  destruct (getitem ref (lit "Date")) as [date|e]; [|reflexivity].
  cbn [bind].
  destruct (to_datetime_strftime date) as [date'|e]; [|reflexivity].
  cbn [bind]. rewrite getitem_setitem_other by reflexivity.
  destruct (getitem ref (lit "Debit Amt")) as [debit|e]; [|reflexivity].
  cbn [bind]. rewrite !getitem_setitem_other by reflexivity.
  destruct (getitem ref (lit "Credit Amt")) as [credit|e]; [|reflexivity].
  cbn [bind]. rewrite !getitem_setitem_other by reflexivity.
  reflexivity.
Qed.

(** The body of [parse] on a statement that yields records. *)
Lemma parse_try_primary (t : template) (fs : files) (text : str)
  (trs : list transaction) :
  pdf_text fs = Ok text ->
  transactions_parser t text = trs ->
  trs <> [] ->
  parse_try t fs
  = (date <- to_datetime_strftime
               (series object (map (fun r => CStr (Date r)) trs)) ;;
     _ <- save_results fs ;;
     Ok [(lit "Date", date);
         (lit "Description",
           series object (map (fun r => CStr (Description r)) trs));
         (lit "Debit Amt",
           fillna_series
             (to_numeric
                (series object (map (fun r => CStr (Debit_Amt r)) trs))));
         (lit "Credit Amt",
           fillna_series
             (to_numeric
                (series object (map (fun r => CStr (Credit_Amt r)) trs))));
         (lit "Balance",
           to_numeric
             (series object (map (fun r => CStr (Balance r)) trs)))]).
Proof.
  intros Htext Htrs Hne. unfold GeneratedParser.parse_try.
  rewrite Htext. cbn [bind]. rewrite Htrs.
  destruct trs as [|t0 ts]; [contradiction|].
  set (trs := t0 :: ts).
  change (frame_of trs)
    with [(lit "Date", series object (map (fun r => CStr (Date r)) trs));
          (lit "Description",
            series object (map (fun r => CStr (Description r)) trs));
          (lit "Debit Amt",
            series object (map (fun r => CStr (Debit_Amt r)) trs));
          (lit "Credit Amt",
            series object (map (fun r => CStr (Credit_Amt r)) trs));
          (lit "Balance",
            series object (map (fun r => CStr (Balance r)) trs))].
  change (empty _) with false.
  generalize (series object (map (fun r => CStr (Date r)) trs)).
  generalize (series object (map (fun r => CStr (Description r)) trs)).
  generalize (series object (map (fun r => CStr (Debit_Amt r)) trs)).
  generalize (series object (map (fun r => CStr (Credit_Amt r)) trs)).
  generalize (series object (map (fun r => CStr (Balance r)) trs)).
  intros bal cre deb desc dcol. reflexivity.
Qed.

Lemma getitem_raises_key (df : DataFrame) (key : str) (e : exn) :
  getitem df key = Raise e -> e = KeyError key.
Proof.
  induction df as [|[label c] df IH]; simpl; [now intros [= <-]|].
  destruct (eqb_str label key); [discriminate|exact IH].
Qed.

Lemma parse_of_try (t : template) (fs : files) :
  parse t fs
  = match parse_try t fs with
    | Ok df => Ok df
    | Raise _ => fallback fs
    end.
Proof. reflexivity. Qed.

End Conversions.

End ParserMore.

Module ParserExtras.
Import PyStr Re LineParser Pandas GeneratedParser Agent Shapes TableShapes
  MoreShapes PdfText PlainText Samples TableSamples MoreSamples
  LineParserFacts StrMore LineParserMore ComparatorFacts FallbackFacts
  ParserMore.

(** X7.  With PyPDF2 every page ends in a newline, so the pages are
    parsed independently: the table of a document is the tables of its
    pages one after the other. *)
Theorem PyPDF2_pages_parse_independently (keywords : list str)
  (pages : list str) :
  parse_transactions keywords (_extract_text_from_pdf (PyPDF2_reader pages))
  = List.concat (map (parse_transactions keywords) pages).
Proof.
  unfold _extract_text_from_pdf. rewrite PyPDF2_pages_concat. cbn [app].
  induction pages as [|page rest IH]; [reflexivity|].
  change (List.concat (map (fun p => p ++ PdfText.newline) (page :: rest)))
    with ((page ++ PdfText.newline)
          ++ List.concat (map (fun p => p ++ PdfText.newline) rest)).
  replace ((page ++ PdfText.newline)
           ++ List.concat (map (fun p => p ++ PdfText.newline) rest))
    with (page ++ "010"%char
               :: List.concat (map (fun p => p ++ PdfText.newline) rest))
    by (unfold PdfText.newline; now rewrite <- app_assoc).
  rewrite parse_transactions_newline. cbn [map List.concat].
  now rewrite IH.
Qed.

(** X8.  With pdfplumber a page that has text is appended without a
    newline (the newline is added only for a page without text): the
    text of pages that all have text is their plain concatenation, and
    the last line of a page and the first line of the next become one
    line. *)
Theorem pdfplumber_pages_run_together :
  (forall texts,
      Forall (fun page => page <> []) texts ->
      _extract_text_from_pdf (pdfplumber_pdf (map Some texts))
      = List.concat texts)
  /\ (forall p1 p2,
        p1 <> [] -> p2 <> [] ->
        split_on "010" (_extract_text_from_pdf
                          (pdfplumber_pdf [Some p1; Some p2]))
        = removelast (split_on "010" p1)
          ++ (last (split_on "010" p1) [] ++ hd [] (split_on "010" p2))
             :: tl (split_on "010" p2)).
Proof.
  split.
  - intros texts F. unfold _extract_text_from_pdf.
    rewrite pdfplumber_pages_concat. cbn [app].
    induction F as [|page texts Hp _ IH]; [reflexivity|].
    cbn [map List.concat]. rewrite IH.
    destruct page; [contradiction|reflexivity].
  - intros p1 p2 H1 H2. unfold _extract_text_from_pdf.
    rewrite pdfplumber_pages_concat. cbn [app map List.concat].
    rewrite app_nil_r.
    destruct p1 as [|c1 p1]; [contradiction|].
    destruct p2 as [|c2 p2]; [contradiction|].
    cbn [or_str]. apply split_on_app.
Qed.

(** The two libraries on the same two pages: two records with PyPDF2,
    a single one with pdfplumber. *)
Example two_pages_two_libraries :
  List.length (_parse_icici_transactions
                 (_extract_text_from_pdf
                    (PyPDF2_reader [page_one; page_two]))) = 2
  /\ List.length (_parse_icici_transactions
                    (_extract_text_from_pdf
                       (pdfplumber_pdf [Some page_one; Some page_two]))) = 1.
Proof. split; vm_compute; reflexivity. Qed.

Section Conversions.

Variable to_numeric_text : str -> option Q.
Variable strptime_strftime : str -> option str.

Local Abbreviation fallback :=
  (_fallback_to_csv to_numeric_text strptime_strftime).
Local Abbreviation parse_try :=
  (parse_try to_numeric_text strptime_strftime).
Local Abbreviation parse := (parse to_numeric_text strptime_strftime).

(** X9.  An exception that leaves [parse] is always the fallback's:
    what went wrong with the statement itself is never reported.  With
    a plain reference next to the statement [parse] returns a table
    whatever the statement is. *)
Theorem parse_raises_only_what_the_fallback_raises (t : template)
  (fs : files) :
  (forall e, parse t fs = Raise e -> fallback fs = Raise e)
  /\ (forall ref,
        reference fs = Some (Ok ref) ->
        plain_reference strptime_strftime ref ->
        exists out, parse t fs = Ok out).
Proof.
  split.
  - intros e. rewrite parse_of_try.
    destruct (parse_try t fs); [discriminate|auto].
  - intros ref R P. rewrite parse_of_try.
    destruct (parse_try t fs) as [df|x]; [eauto|].
    destruct (fallback_plain to_numeric_text strptime_strftime fs ref R P)
      as (out & F).
    eauto.
Qed.

(** X10.  When the body of [parse] returns the table built from the
    statement, that table has the five columns in the order Date,
    Description, Debit Amt, Credit Amt, Balance, one row per record,
    the descriptions as parsed, and no missing value in the debit and
    credit columns. *)
Theorem primary_table_schema (t : template) (fs : files) (text : str)
  (out : DataFrame) :
  pdf_text fs = Ok text ->
  transactions_parser t text <> [] ->
  parse_try t fs = Ok out ->
  parse t fs = Ok out
  /\ columns out
     = [lit "Date"; lit "Description"; lit "Debit Amt"; lit "Credit Amt";
        lit "Balance"]
  /\ Forall (fun col : str * Series =>
               List.length (snd col)
               = List.length (transactions_parser t text)) out
  /\ getitem out (lit "Description")
     = Ok (series object
             (map (fun r => CStr (Description r))
                  (transactions_parser t text)))
  /\ (forall col,
        getitem out (lit "Debit Amt") = Ok col
        \/ getitem out (lit "Credit Amt") = Ok col ->
        ~ In CNaN col).
Proof.
  intros Htext Hne H.
  split; [rewrite parse_of_try; now rewrite H|].
  rewrite (parse_try_primary to_numeric_text strptime_strftime t fs text
             _ Htext eq_refl Hne) in H.
  destruct (to_datetime_strftime strptime_strftime _) as [date|e] eqn:D;
    [|discriminate].
  cbn [bind] in H. destruct (save_results fs); [|discriminate].
  cbn [bind] in H. injection H as <-.
  apply length_to_datetime in D. cbn [values] in D.
  rewrite length_map in D.
  split; [reflexivity|]. split; [|split; [reflexivity|]].
  - repeat constructor; cbn [snd];
      rewrite ?length_fillna_series, ?length_to_numeric; cbn [values];
      rewrite ?length_map; auto.
  - intros col [G|G]; cbn in G; injection G as <-;
      apply fillna_series_no_nan.
Qed.

(** X11.  One record whose first token the date conversion rejects is
    enough for [parse] to drop every record of the statement and
    return the fallback's result. *)
Theorem rejected_date_discards_table (t : template) (fs : files)
  (text : str) (t0 : transaction) :
  pdf_text fs = Ok text ->
  In t0 (transactions_parser t text) ->
  strptime_strftime (Date t0) = None ->
  parse t fs = fallback fs.
Proof.
  intros Htext Hin Hdate. rewrite parse_of_try.
  assert (Hne : transactions_parser t text <> []).
  { intro E. now rewrite E in Hin. }
  rewrite (parse_try_primary to_numeric_text strptime_strftime t fs text
             _ Htext eq_refl Hne).
  destruct (mapM_raises cell cell (to_datetime_cell strptime_strftime)
              (map (fun r => CStr (Date r)) (transactions_parser t text))
              (CStr (Date t0))) as [e E].
  - apply in_map_iff. eauto.
  - simpl. rewrite Hdate. eauto.
  - unfold to_datetime_strftime. cbn [values]. now rewrite E.
Qed.

(** X12.  The fallback returns a table exactly when the reference can
    be read, has the columns Date, Debit Amt, Credit Amt and Balance,
    and every cell of its Date column passes the date conversion.
    Without a reference file it raises the missing-file error, and a
    reference without a Date column makes it raise a key error. *)
Theorem fallback_succeeds_iff (fs : files) :
  ((exists out, fallback fs = Ok out)
   <-> exists ref,
         reference fs = Some (Ok ref)
         /\ (exists date,
               getitem ref (lit "Date") = Ok date
               /\ Forall (fun c => exists c',
                            to_datetime_cell strptime_strftime c = Ok c')
                         date)
         /\ (exists col, getitem ref (lit "Debit Amt") = Ok col)
         /\ (exists col, getitem ref (lit "Credit Amt") = Ok col)
         /\ (exists col, getitem ref (lit "Balance") = Ok col))
  /\ (reference fs = None ->
      fallback fs = Raise (FileNotFoundError "Expected CSV file not found"))
  /\ (forall ref e,
        reference fs = Some (Ok ref) ->
        getitem ref (lit "Date") = Raise e ->
        fallback fs = Raise (KeyError (lit "Date"))).
Proof.
  split; [|split].
  - split.
    + intros [out H].
      destruct (reference fs) as [[ref|e]|] eqn:R;
        [|unfold _fallback_to_csv, read_reference in H; rewrite R in H;
          discriminate ..].
      rewrite (fallback_from_reference to_numeric_text strptime_strftime
                 fs ref R) in H.
      exists ref. split; [reflexivity|].
      destruct (getitem ref (lit "Date")) as [date|e]; [|discriminate].
      cbn [bind] in H.
      destruct (to_datetime_strftime strptime_strftime date) as [date'|e]
        eqn:D; [|discriminate].
      cbn [bind] in H.
      destruct (getitem ref (lit "Debit Amt")) as [debit|e]; [|discriminate].
      destruct (getitem ref (lit "Credit Amt")) as [credit|e];
        [|discriminate].
      destruct (getitem ref (lit "Balance")) as [balance|e]; [|discriminate].
      split; [|repeat split; eexists; reflexivity].
      exists date. split; [reflexivity|].
      apply (proj1 (to_datetime_ok_iff strptime_strftime date)).
      exists date'. exact D.
    + intros (ref & R & (date & Gd & F) & (debit & Gb) & (credit & Gc)
              & (balance & Gl)).
      rewrite (fallback_from_reference to_numeric_text strptime_strftime
                 fs ref R).
      apply (proj2 (to_datetime_ok_iff strptime_strftime date)) in F
        as [date' D].
      rewrite Gd. cbn [bind]. rewrite D.
      cbn [bind]. rewrite Gb, Gc, Gl. cbn [bind]. eauto.
  - intro R. unfold _fallback_to_csv, read_reference. now rewrite R.
  - intros ref e R G.
    rewrite (fallback_from_reference to_numeric_text strptime_strftime
               fs ref R).
    rewrite G. cbn [bind]. now rewrite (getitem_raises_key _ _ _ G).
Qed.

(** X13.  The table the fallback returns has the columns of the
    reference in their order and as many cells in each; every column
    other than Date, Debit Amt, Credit Amt and Balance is the
    reference's own, and the debit and credit columns hold no missing
    value. *)
Theorem fallback_keeps_shape (fs : files) (ref out : DataFrame) :
  reference fs = Some (Ok ref) ->
  fallback fs = Ok out ->
  columns out = columns ref
  /\ map (fun c : str * Series => List.length (snd c)) out
     = map (fun c : str * Series => List.length (snd c)) ref
  /\ (forall key,
        eqb_str (lit "Date") key = false ->
        eqb_str (lit "Debit Amt") key = false ->
        eqb_str (lit "Credit Amt") key = false ->
        eqb_str (lit "Balance") key = false ->
        getitem out key = getitem ref key)
  /\ (forall col,
        getitem out (lit "Debit Amt") = Ok col
        \/ getitem out (lit "Credit Amt") = Ok col ->
        ~ In CNaN col).
Proof.
  intros R H.
  rewrite (fallback_from_reference to_numeric_text strptime_strftime
             fs ref R) in H.
  destruct (getitem ref (lit "Date")) as [date|e] eqn:Gd; [|discriminate].
  cbn [bind] in H.
  destruct (to_datetime_strftime strptime_strftime date) as [date'|e]
    eqn:D; [|discriminate].
  cbn [bind] in H.
  destruct (getitem ref (lit "Debit Amt")) as [debit|e] eqn:Gb;
    [|discriminate].
  destruct (getitem ref (lit "Credit Amt")) as [credit|e] eqn:Gc;
    [|discriminate].
  destruct (getitem ref (lit "Balance")) as [balance|e] eqn:Gl;
    [|discriminate].
  cbn [bind] in H. injection H as <-.
  apply length_to_datetime in D.
  set (df1 := setitem ref (lit "Date") date').
  set (df2 := setitem df1 (lit "Debit Amt")
                (fillna_series (to_numeric to_numeric_text debit))).
  set (df3 := setitem df2 (lit "Credit Amt")
                (fillna_series (to_numeric to_numeric_text credit))).
  assert (G1 : getitem df1 (lit "Debit Amt") = Ok debit)
    by (unfold df1; now rewrite getitem_setitem_other by reflexivity).
  assert (G2 : getitem df2 (lit "Credit Amt") = Ok credit)
    by (unfold df2, df1;
        now rewrite !getitem_setitem_other by reflexivity).
  assert (G3 : getitem df3 (lit "Balance") = Ok balance)
    by (unfold df3, df2, df1;
        now rewrite !getitem_setitem_other by reflexivity).
  split; [|split; [|split]].
  - rewrite (columns_setitem _ _ _ _ G3). unfold df3.
    rewrite (columns_setitem _ _ _ _ G2). unfold df2.
    rewrite (columns_setitem _ _ _ _ G1).
    exact (columns_setitem _ _ _ _ Gd).
  - rewrite (heights_setitem _ _ _ _ G3)
      by apply length_to_numeric.
    unfold df3.
    rewrite (heights_setitem _ _ _ _ G2)
      by (now rewrite length_fillna_series, length_to_numeric).
    unfold df2.
    rewrite (heights_setitem _ _ _ _ G1)
      by (now rewrite length_fillna_series, length_to_numeric).
    exact (heights_setitem _ _ _ _ Gd D).
  - intros key K1 K2 K3 K4. unfold df3, df2, df1.
    now rewrite !getitem_setitem_other by assumption.
  - intros col [G|G].
    + unfold df3 in G.
      rewrite !getitem_setitem_other in G by reflexivity.
      unfold df2 in G. rewrite getitem_setitem in G. injection G as <-.
      apply fillna_series_no_nan.
    + rewrite getitem_setitem_other in G by reflexivity.
      unfold df3 in G. rewrite getitem_setitem in G. injection G as <-.
      apply fillna_series_no_nan.
Qed.

End Conversions.

Lemma primary_table_schema_example :
  exists out,
    parse decimal_text day_month_year icici_template
          (readable_pdf reference_table) = Ok out
    /\ columns out
       = [lit "Date"; lit "Description"; lit "Debit Amt"; lit "Credit Amt";
          lit "Balance"]
    /\ Forall (fun col : str * Series =>
                 List.length (snd col)
                 = List.length
                     (transactions_parser icici_template statement)) out
    /\ getitem out (lit "Description")
       = Ok (series object
               (map (fun r => CStr (Description r))
                    (transactions_parser icici_template statement)))
    /\ (forall col,
          getitem out (lit "Debit Amt") = Ok col
          \/ getitem out (lit "Credit Amt") = Ok col ->
          ~ In CNaN col).
Proof.
  eexists.
  apply (primary_table_schema decimal_text day_month_year icici_template
           (readable_pdf reference_table) statement).
  - reflexivity.
  - vm_compute. discriminate.
  - vm_compute. reflexivity.
Defined.

Lemma rejected_date_discards_table_example :
  parse decimal_text day_month_year icici_template reference_number_pdf
  = _fallback_to_csv decimal_text day_month_year reference_number_pdf.
Proof.
  apply (rejected_date_discards_table decimal_text day_month_year
           icici_template reference_number_pdf
           statement_with_reference_number
           {| Date := lit "REF123";
              Description := lit "02-01-2024 ATM Withdrawal";
              Debit_Amt := lit "2000.00"; Credit_Amt := [];
              Balance := lit "8000.00" |}).
  - reflexivity.
  - vm_compute. right. left. reflexivity.
  - vm_compute. reflexivity.
Defined.

Lemma fallback_keeps_shape_example :
  exists out,
    _fallback_to_csv decimal_text day_month_year
      (unreadable_pdf separator_reference) = Ok out
    /\ columns out = columns separator_reference
    /\ map (fun c : str * Series => List.length (snd c)) out
       = map (fun c : str * Series => List.length (snd c))
             separator_reference.
Proof.
  eexists. split; [vm_compute; reflexivity|].
  pose proof (fallback_keeps_shape decimal_text day_month_year
                (unreadable_pdf separator_reference) separator_reference
                _ eq_refl ltac:(vm_compute; reflexivity)) as H.
  split; [exact (proj1 H)|exact (proj1 (proj2 H))].
Defined.

End ParserExtras.

(** ** More on the comparison *)

Module ComparatorMore.
Import PyStr Pandas GeneratedParser Agent TableShapes TestParserScript
  ComparatorFacts.

Lemma eqb_str_sym (s t : str) : eqb_str s t = eqb_str t s.
Proof.
  destruct (eqb_str s t) eqn:E1, (eqb_str t s) eqn:E2; try reflexivity.
  - apply eqb_str_eq in E1. subst. now rewrite eqb_str_refl in E2.
  - apply eqb_str_eq in E2. subst. now rewrite eqb_str_refl in E1.
Qed.

Lemma Qeq_bool_comm (p q : Q) : Qeq_bool p q = Qeq_bool q p.
Proof.
  destruct (Qeq_bool p q) eqn:E1, (Qeq_bool q p) eqn:E2; try reflexivity.
  - apply Qeq_bool_sym in E1. congruence.
  - apply Qeq_bool_sym in E2. congruence.
Qed.

Lemma Qeq_bool_left (p q r : Q) :
  Qeq_bool p q = true -> Qeq_bool p r = Qeq_bool q r.
Proof.
  intro H.
  destruct (Qeq_bool p r) eqn:E1, (Qeq_bool q r) eqn:E2; try reflexivity.
  - apply Qeq_bool_sym in H.
    pose proof (Qeq_bool_trans _ _ _ H E1). congruence.
  - pose proof (Qeq_bool_trans _ _ _ H E2). congruence.
Qed.

Lemma cell_equals_sym (a b : cell) : cell_equals a b = cell_equals b a.
Proof.
  destruct a, b; simpl; try reflexivity.
  - apply eqb_str_sym.
  - apply Qeq_bool_comm.
Qed.

Lemma cell_equals_left (a b c : cell) :
  cell_equals a b = true -> cell_equals a c = cell_equals b c.
Proof.
  destruct a, b; simpl; try discriminate; intro H.
  - apply eqb_str_eq in H. now subst.
  - destruct c; try reflexivity. now apply Qeq_bool_left.
  - reflexivity.
Qed.

Lemma eqb_list_sym (A : Type) (eqb : A -> A -> bool) :
  (forall a b, eqb a b = eqb b a) ->
  forall l m, eqb_list eqb l m = eqb_list eqb m l.
Proof.
  intros H l. induction l as [|a l IH]; intros [|b m]; simpl;
    try reflexivity.
  now rewrite H, IH.
Qed.

Lemma eqb_list_left (A : Type) (eqb : A -> A -> bool) :
  (forall a b c, eqb a b = true -> eqb a c = eqb b c) ->
  forall l m n,
    eqb_list eqb l m = true -> eqb_list eqb l n = eqb_list eqb m n.
Proof.
  intros H l. induction l as [|a l IH]; intros [|b m] n; simpl;
    try discriminate; [reflexivity|].
  intro E. apply andb_true_iff in E as [E1 E2].
  destruct n as [|c n]; [reflexivity|].
  now rewrite (H a b c E1), (IH m n E2).
Qed.

Lemma eqb_list_length (A : Type) (eqb : A -> A -> bool) (l m : list A) :
  eqb_list eqb l m = true -> List.length l = List.length m.
Proof.
  revert m. induction l as [|a l IH]; intros [|b m]; simpl;
    try discriminate; [reflexivity|].
  intro E. apply andb_true_iff in E as [_ E]. f_equal. now apply IH.
Qed.

Lemma eqb_dtype_sym (a b : dtype) : eqb_dtype a b = eqb_dtype b a.
Proof. now destruct a, b. Qed.

Lemma series_equals_sym (x y : Series) :
  series_equals x y = series_equals y x.
Proof.
  unfold series_equals. rewrite eqb_dtype_sym. f_equal.
  apply eqb_list_sym. exact cell_equals_sym.
Qed.

Lemma series_equals_left (x y z : Series) :
  series_equals x y = true -> series_equals x z = series_equals y z.
Proof.
  unfold series_equals. intro H. apply andb_true_iff in H as [D C].
  apply eqb_dtype_eq in D. rewrite D. f_equal.
  now apply eqb_list_left; [exact cell_equals_left|].
Qed.

Lemma series_equals_length (x y : Series) :
  series_equals x y = true -> List.length x = List.length y.
Proof.
  unfold series_equals. intro H. apply andb_true_iff in H as [_ C].
  now apply eqb_list_length in C.
Qed.

(** Columns that are equal keep or lose their dtype together. *)
Lemma kept_equal_cells (f : cell -> cell) :
  (forall x y, cell_equals x y = true -> cell_equals (f x) (f y) = true) ->
  forall l m,
    eqb_list cell_equals l m = true ->
    forallb (kept f) l = forallb (kept f) m
    /\ eqb_list cell_equals (map f l) (map f m) = true.
Proof.
  intros Hf l. induction l as [|x l IH]; intros [|y m]; simpl;
    try discriminate; [auto|].
  intro H. apply andb_true_iff in H as [Hx Hl].
  destruct (IH m Hl) as [K E]. rewrite K, E, (Hf x y Hx).
  split; [|reflexivity]. f_equal. unfold kept.
  rewrite (cell_equals_left x y (f x) Hx).
  rewrite (cell_equals_sym y (f x)), (cell_equals_sym y (f y)).
  exact (cell_equals_left (f x) (f y) y (Hf x y Hx)).
Qed.

Lemma series_equals_map_series (f : cell -> cell) (x y : Series) :
  (forall a b, cell_equals a b = true -> cell_equals (f a) (f b) = true) ->
  series_equals x y = true ->
  series_equals (map_series f x) (map_series f y) = true.
Proof.
  intros Hf H. unfold series_equals in *.
  apply andb_true_iff in H as [D C]. apply eqb_dtype_eq in D.
  destruct (kept_equal_cells f Hf x y C) as [K E].
  unfold map_series. cbn [dtype_of values]. rewrite K, D, E.
  now rewrite eqb_dtype_refl.
Qed.

Lemma df_equals_sym (a b : DataFrame) : df_equals a b = df_equals b a.
Proof.
  apply eqb_list_sym. intros x y.
  now rewrite eqb_str_sym, series_equals_sym.
Qed.

Lemma df_equals_left (a b c : DataFrame) :
  df_equals a b = true -> df_equals a c = df_equals b c.
Proof.
  apply eqb_list_left. intros x y z H.
  apply andb_true_iff in H as [H1 H2]. apply eqb_str_eq in H1.
  now rewrite H1, (series_equals_left _ _ _ H2).
Qed.

Lemma df_equals_columns (a b : DataFrame) :
  df_equals a b = true -> columns a = columns b.
Proof.
  unfold df_equals, columns. revert b.
  induction a as [|x a IH]; intros [|y b]; simpl; try discriminate;
    [reflexivity|].
  intro H. apply andb_true_iff in H as [H1 H2].
  apply andb_true_iff in H1 as [H1 _]. apply eqb_str_eq in H1.
  f_equal; [assumption|now apply IH].
Qed.

Lemma df_equals_len (a b : DataFrame) :
  df_equals a b = true -> len a = len b.
Proof.
  unfold df_equals. destruct a as [|[la ca] a], b as [|[lb cb] b]; simpl;
    try discriminate; [reflexivity|].
  intro H. apply andb_true_iff in H as [H _].
  apply andb_true_iff in H as [_ H]. now apply series_equals_length in H.
Qed.

(** Equal frames have the same columns under every key. *)
Lemma df_equals_getitem (a b : DataFrame) (key : str) :
  df_equals a b = true ->
  match getitem a key, getitem b key with
  | Ok x, Ok y => series_equals x y = true
  | Raise e, Raise e' => e = e'
  | _, _ => False
  end.
Proof.
  unfold df_equals. revert b.
  induction a as [|[la ca] a IH]; intros [|[lb cb] b]; simpl;
    try discriminate; [reflexivity|].
  intro H. apply andb_true_iff in H as [H1 H2].
  apply andb_true_iff in H1 as [H0 H1]. apply eqb_str_eq in H0. subst lb.
  destruct (eqb_str la key); [assumption|now apply IH].
Qed.

(** Frames with the same labels have the same keys. *)
Lemma same_columns_getitem (a b : DataFrame) (key : str) :
  columns a = columns b ->
  match getitem a key, getitem b key with
  | Ok _, Ok _ => True
  | Raise e, Raise e' => e = e'
  | _, _ => False
  end.
Proof.
  unfold columns. revert b.
  induction a as [|[la ca] a IH]; intros [|[lb cb] b]; simpl;
    try discriminate; [reflexivity|].
  intros [= -> H]. destruct (eqb_str lb key); [exact I|now apply IH].
Qed.

Lemma getitem_map_cells (f : cell -> cell) (df : DataFrame) (key : str) :
  getitem (map_cells f df) key
  = match getitem df key with
    | Ok col => Ok (map_series f col)
    | Raise e => Raise e
    end.
Proof.
  induction df as [|[label col] df IH]; simpl; [reflexivity|].
  destruct (eqb_str label key); [reflexivity|exact IH].
Qed.

Lemma df_equals_map_cells (f : cell -> cell) (a b : DataFrame) :
  (forall x y, cell_equals x y = true -> cell_equals (f x) (f y) = true) ->
  df_equals a b = true ->
  df_equals (map_cells f a) (map_cells f b) = true.
Proof.
  intro Hf. unfold df_equals, map_cells. revert b.
  induction a as [|[la ca] a IH]; intros [|[lb cb] b]; simpl;
    try discriminate; [reflexivity|].
  intro H. apply andb_true_iff in H as [H1 H2].
  apply andb_true_iff in H1 as [H0 H1].
  rewrite H0, (IH b H2), andb_true_r. simpl.
  now apply series_equals_map_series.
Qed.

Lemma replace_zero_cell_equals (x y : cell) :
  cell_equals x y = true ->
  cell_equals (replace_zero_cell x) (replace_zero_cell y) = true.
Proof.
  destruct x as [s|p|], y as [t|q|]; simpl; try discriminate; auto.
  intro H. rewrite (Qeq_bool_left p q 0%Q H).
  destruct (Qeq_bool q 0%Q); simpl; auto.
Qed.

Lemma core_match_sym (p e : DataFrame) : core_match p e = core_match e p.
Proof.
  unfold core_match. rewrite (Nat.eqb_sym (len e) (len p)).
  destruct (len p =? len e); cbn [negb]; [|reflexivity].
  rewrite (eqb_list_sym str eqb_str eqb_str_sym (columns e) (columns p)).
  destruct (eqb_list eqb_str (columns p) (columns e)) eqn:C; cbn [negb];
    [|reflexivity].
  apply eqb_list_str_eq in C.
  pose proof (same_columns_getitem p e (lit "Date") C) as D.
  pose proof (same_columns_getitem p e (lit "Balance") C) as B.
  destruct (getitem p (lit "Date")) as [rd|x],
           (getitem e (lit "Date")) as [ed|y];
    try contradiction; cbn [bind]; [|now subst].
  rewrite (series_equals_sym ed rd).
  destruct (series_equals rd ed); cbn [negb]; [|reflexivity].
  destruct (getitem p (lit "Balance")) as [rb|x],
           (getitem e (lit "Balance")) as [eb|y];
    try contradiction; cbn [bind]; [|now subst].
  now rewrite series_equals_sym.
Qed.

Lemma compare_pass_iff (a b : DataFrame) :
  compare a b = Ok Pass <-> df_equals (normalize a) (normalize b) = true.
Proof.
  unfold compare.
  destruct (df_equals (normalize a) (normalize b)); cbn [negb].
  - tauto.
  - split; [|discriminate].
    destruct (core_match _ _) as [[|]|x]; discriminate.
Qed.

End ComparatorMore.

Module ComparatorExtras.
Import PyStr Pandas GeneratedParser Agent TableShapes TestParserScript
  TableSamples ComparatorFacts ComparatorMore.

(** X14.  The comparison is symmetric: exchanging the produced and the
    expected table changes neither the verdict nor the exception. *)
Theorem compare_symmetric (a b : DataFrame) : compare a b = compare b a.
Proof.
  unfold compare. rewrite (df_equals_sym (normalize b) (normalize a)).
  destruct (df_equals (normalize a) (normalize b)); cbn [negb];
    [reflexivity|].
  now rewrite core_match_sym.
Qed.

Lemma core_match_left (a b c : DataFrame) :
  df_equals a b = true -> core_match a c = core_match b c.
Proof.
  intro H. unfold core_match.
  rewrite (df_equals_len a b H), (df_equals_columns a b H).
  destruct (len b =? len c); cbn [negb]; [|reflexivity].
  destruct (eqb_list eqb_str (columns b) (columns c)); cbn [negb];
    [|reflexivity].
  pose proof (df_equals_getitem a b (lit "Date") H) as D.
  pose proof (df_equals_getitem a b (lit "Balance") H) as B.
  destruct (getitem a (lit "Date")) as [da|x],
           (getitem b (lit "Date")) as [db|y];
    try contradiction; cbn [bind]; [|now subst].
  destruct (getitem c (lit "Date")) as [dc|z]; cbn [bind]; [|reflexivity].
  rewrite (series_equals_left da db dc D).
  destruct (series_equals db dc); cbn [negb]; [|reflexivity].
  destruct (getitem a (lit "Balance")) as [ba|x],
           (getitem b (lit "Balance")) as [bb|y];
    try contradiction; cbn [bind]; [|now subst].
  destruct (getitem c (lit "Balance")) as [bc|z]; cbn [bind];
    [|reflexivity].
  now rewrite (series_equals_left ba bb bc B).
Qed.

(** X15.  Tables that pass the exact comparison are interchangeable:
    compared with any third table they get the same verdict.  In
    particular the exact pass is transitive. *)
Theorem exact_pass_interchangeable (a b : DataFrame) :
  compare a b = Ok Pass ->
  (forall c, compare a c = compare b c)
  /\ (forall c, compare b c = Ok Pass -> compare a c = Ok Pass).
Proof.
  intro H. apply compare_pass_iff in H.
  assert (E : forall c, compare a c = compare b c).
  { intro c. unfold compare.
    rewrite (df_equals_left _ _ (normalize c) H).
    destruct (df_equals (normalize b) (normalize c)); cbn [negb];
      [reflexivity|].
    now rewrite (core_match_left _ _ (normalize c) H). }
  split; [exact E|]. intros c Hc. now rewrite E.
Qed.

Lemma exact_pass_interchangeable_example :
  (forall c,
      compare [(lit "Debit Amt", series float64 [CNaN; CNum 0%Q])] c
      = compare [(lit "Debit Amt", series float64 [CNum 0%Q; CNaN])] c)
  /\ (forall c,
        compare [(lit "Debit Amt", series float64 [CNum 0%Q; CNaN])] c
        = Ok Pass ->
        compare [(lit "Debit Amt", series float64 [CNaN; CNum 0%Q])] c
        = Ok Pass).
Proof.
  apply exact_pass_interchangeable. vm_compute. reflexivity.
Defined.

(** X16.  The comparison raises only a key error, and only for tables
    of the same shape that differ and both lack the Date column or
    both lack the Balance column.  When the produced table has the
    two columns the comparison returns a verdict. *)
Theorem compare_raises_only_key_errors (p e : DataFrame) :
  (forall x,
      compare p e = Raise x ->
      df_equals (normalize p) (normalize e) = false
      /\ len p = len e
      /\ columns p = columns e
      /\ ((x = KeyError (lit "Date")
           /\ getitem p (lit "Date") = Raise x
           /\ getitem e (lit "Date") = Raise x)
          \/ (x = KeyError (lit "Balance")
              /\ getitem p (lit "Balance") = Raise x
              /\ getitem e (lit "Balance") = Raise x)))
  /\ ((exists d, getitem p (lit "Date") = Ok d) ->
      (exists b, getitem p (lit "Balance") = Ok b) ->
      exists v, compare p e = Ok v).
Proof.
  assert (R : forall x,
             compare p e = Raise x ->
             df_equals (normalize p) (normalize e) = false
             /\ len p = len e
             /\ columns p = columns e
             /\ ((x = KeyError (lit "Date")
                  /\ getitem p (lit "Date") = Raise x
                  /\ getitem e (lit "Date") = Raise x)
                 \/ (x = KeyError (lit "Balance")
                     /\ getitem p (lit "Balance") = Raise x
                     /\ getitem e (lit "Balance") = Raise x))).
  { intros x. unfold compare.
    destruct (df_equals (normalize p) (normalize e)); cbn [negb];
      [discriminate|].
    unfold core_match. rewrite !len_normalize, !columns_normalize.
    destruct (len p =? len e) eqn:L; cbn [negb bind]; [|discriminate].
    apply Nat.eqb_eq in L.
    destruct (eqb_list eqb_str (columns p) (columns e)) eqn:C;
      cbn [negb bind]; [|discriminate].
    apply eqb_list_str_eq in C.
    pose proof (same_columns_getitem p e (lit "Date") C) as D.
    pose proof (same_columns_getitem p e (lit "Balance") C) as B.
    rewrite !normalize_cells, !getitem_map_cells.
    destruct (getitem p (lit "Date")) as [rd|y] eqn:Gd,
             (getitem e (lit "Date")) as [ed|z] eqn:Ge;
      try contradiction; cbn [bind].
    - destruct (series_equals _ _); cbn [negb bind]; [|discriminate].
      destruct (getitem p (lit "Balance")) as [rb|y] eqn:Gb,
               (getitem e (lit "Balance")) as [eb|z] eqn:Gl;
        try contradiction; cbn [bind].
      + destruct (series_equals _ _); discriminate.
      + subst z. intros [= <-].
        pose proof (ParserMore.getitem_raises_key p _ _ Gb) as K. subst y.
        repeat split; auto.
    - subst z. intros [= <-].
      pose proof (ParserMore.getitem_raises_key p _ _ Gd) as K. subst y.
      repeat split; auto. }
  split; [exact R|].
  intros [d Gd] [b Gb].
  destruct (compare p e) as [v|x] eqn:E; [eauto|].
  destruct (R x eq_refl) as (_ & _ & _ & [(_ & G & _)|(_ & G & _)]);
    congruence.
Qed.

(** X17.  The check of test_parser.py is the stricter one: whenever it
    accepts, the parser and the reference were both read and the
    agent's comparison gives them the exact pass. *)
Theorem script_check_implies_exact_pass
  (parsed expected : result DataFrame) :
  test_parser parsed expected = true ->
  exists result_df expected_df,
    parsed = Ok result_df /\ expected = Ok expected_df
    /\ compare result_df expected_df = Ok Pass.
Proof.
  unfold test_parser, are_equal.
  destruct parsed as [r|x]; [|discriminate].
  destruct expected as [e|x]; [|discriminate]. cbn [bind].
  intro H. exists r, e. split; [reflexivity|]. split; [reflexivity|].
  apply compare_pass_iff. unfold normalize, replace_zero.
  apply df_equals_map_cells; [exact replace_zero_cell_equals|exact H].
Qed.

Lemma script_check_implies_exact_pass_example :
  exists result_df expected_df,
    Ok reference_table = Ok result_df
    /\ Ok reference_table = Ok expected_df
    /\ compare result_df expected_df = Ok Pass.
Proof.
  apply (script_check_implies_exact_pass (Ok reference_table)
           (Ok reference_table)).
  vm_compute. reflexivity.
Defined.

(** The agent passes tables the script rejects: a zero against a blank. *)
Example script_check_is_stricter :
  test_parser (Ok [(lit "Debit Amt", series float64 [CNum 0%Q])])
              (Ok [(lit "Debit Amt", series float64 [CNaN])]) = false
  /\ compare [(lit "Debit Amt", series float64 [CNum 0%Q])]
             [(lit "Debit Amt", series float64 [CNaN])] = Ok Pass.
Proof. split; vm_compute; reflexivity. Qed.

End ComparatorExtras.

(** ** More on the retry loop *)

Module DriverExtras.
Import PyStr Pandas GeneratedParser Agent DriverShapes PlainText
  TableSamples AgentSamples ComparatorFacts DriverFacts.

Section Conversions.

Variable to_numeric_text : str -> option Q.
Variable strptime_strftime : str -> option str.

Local Abbreviation _test_parser :=
  (_test_parser to_numeric_text strptime_strftime).
Local Abbreviation test_try := (test_try to_numeric_text strptime_strftime).
Local Abbreviation attempt_try :=
  (attempt_try to_numeric_text strptime_strftime).
Local Abbreviation cycle := (cycle to_numeric_text strptime_strftime).
Local Abbreviation run_loop := (run_loop to_numeric_text strptime_strftime).
Local Abbreviation run := (run to_numeric_text strptime_strftime).
Local Abbreviation parse := (parse to_numeric_text strptime_strftime).

(** The template [_generate_parser] picks for a bank. *)
Lemma generate_parser_template (st st1 : AgentState) (fs : files) :
  _generate_parser st fs = Ok st1 ->
  st1 = set_generated_code st
          (if eqb_str (target_bank st) (lit "icici") then icici_template
           else generic_template).
Proof.
  unfold _generate_parser.
  destruct (read_reference fs _); [|discriminate]. cbn [bind].
  now intros [= <-].
Qed.

Lemma cycle_keeps_bank (st st' : AgentState) (fs : files) (b : bool) :
  cycle st fs = (st', b) -> target_bank st' = target_bank st.
Proof.
  unfold Agent.cycle, Agent.attempt_try.
  destruct (_analyze_data fs) as [df|e]; cbn [bind];
    [|now intros [= <- <-]].
  destruct (_generate_parser st fs) as [st1|e] eqn:G; cbn [bind];
    [|now intros [= <- <-]].
  apply generate_parser_template in G. subst st1.
  unfold Agent._test_parser.
  destruct (test_try _ fs) as [[| |]|e]; cbn; now intros [= <- <-].
Qed.

(** Whether a turn ends the loop depends on the bank and on the files
    only, not on the attempt counter or the log. *)
Lemma cycle_break_same_bank (st1 st2 : AgentState) (fs : files) :
  target_bank st1 = target_bank st2 ->
  snd (cycle st1 fs) = snd (cycle st2 fs).
Proof.
  intro B. unfold Agent.cycle, Agent.attempt_try.
  destruct (_analyze_data fs) as [df|e]; cbn [bind]; [|reflexivity].
  unfold _generate_parser.
  destruct (read_reference fs _); cbn [bind]; [|reflexivity].
  rewrite B. unfold Agent._test_parser, Agent.test_try.
  cbn [generated_code set_generated_code bind].
  destruct (GeneratedParser.parse to_numeric_text strptime_strftime _ fs)
    as [r|e]; cbn [bind]; [|reflexivity].
  destruct (read_reference fs _) as [x|e]; cbn [bind]; [|reflexivity].
  destruct (compare r x) as [[| |]|e]; reflexivity.
Qed.

(** What a turn that ends the loop has seen. *)
Lemma cycle_passed_comparison (st st' : AgentState) (fs : files) :
  cycle st fs = (st', true) ->
  exists result_df expected_df v,
    generated_code st'
    = Some (if eqb_str (target_bank st) (lit "icici") then icici_template
            else generic_template)
    /\ parse (if eqb_str (target_bank st) (lit "icici") then icici_template
              else generic_template) fs = Ok result_df
    /\ reference fs = Some (Ok expected_df)
    /\ compare result_df expected_df = Ok v
    /\ passed v = true.
Proof.
  unfold Agent.cycle, Agent.attempt_try.
  destruct (_analyze_data fs) as [df|e]; cbn [bind]; [|discriminate].
  destruct (_generate_parser st fs) as [st1|e] eqn:G; cbn [bind];
    [|discriminate].
  apply generate_parser_template in G. subst st1.
  unfold Agent._test_parser, Agent.test_try.
  cbn [generated_code set_generated_code bind].
  destruct (GeneratedParser.parse to_numeric_text strptime_strftime _ fs)
    as [r|e]; cbn [bind];
    [|discriminate].
  unfold read_reference.
  destruct (reference fs) as [[x|e]|]; cbn [bind]; try discriminate.
  destruct (compare r x) as [v|e] eqn:C; [|discriminate].
  destruct (passed v) eqn:P; [|discriminate].
  intros [= <-]. exists r, x, v. auto.
Qed.

Lemma run_loop_success (env : Z -> files) (fuel : nat) :
  forall (st st' : AgentState) (started started' : list Z),
    success st = false ->
    run_loop fuel env st started = Some (st', started') ->
    success st' = true ->
    exists st0,
      target_bank st0 = target_bank st
      /\ attempt st0 = attempt st'
      /\ In (attempt st0) started'
      /\ cycle st0 (env (attempt st0)) = (st', true).
Proof.
  induction fuel as [|fuel IH]; intros st st' started started' S R T.
  - simpl in R.
    destruct ((attempt st <=? max_attempts st)%Z && negb (success st));
      [discriminate|].
    injection R as <- <-. congruence.
  - simpl in R.
    destruct ((attempt st <=? max_attempts st)%Z && negb (success st));
      [|injection R as <- <-; congruence].
    destruct (cycle st (env (attempt st))) as [st1 [|]] eqn:Y.
    + injection R as <- <-. exists st.
      pose proof (cycle_passed _ _ _ _ _ Y) as (_ & A & _).
      repeat split; auto. apply in_or_app. right. now left.
    + pose proof (cycle_failed _ _ _ _ _ Y) as (_ & _ & S1 & _).
      pose proof (cycle_keeps_bank _ _ _ _ Y) as B.
      destruct (IH st1 st' _ started' ltac:(congruence) R T)
        as (st0 & B0 & A0 & I0 & Y0).
      exists st0. repeat split; auto. congruence.
Qed.

Lemma run_loop_all_fail (w : files) (env : Z -> files) (fuel : nat) :
  (forall a, env a = w) ->
  forall (st : AgentState) (started : list Z),
    snd (cycle st w) = false ->
    success st = false ->
    attempts_left st <= fuel ->
    exists st',
      run_loop fuel env st started
      = Some (st', started ++ count_from (attempt st) (attempts_left st))
      /\ success st' = false.
Proof.
  intro Hw. induction fuel as [|fuel IH]; intros st started N Hs F.
  - assert (C : (attempt st <=? max_attempts st)%Z = false).
    { unfold attempts_left in F. apply Z.leb_gt. lia. }
    exists st. rewrite run_loop_stop by now rewrite C.
    now rewrite (attempts_left_zero st C), app_nil_r.
  - destruct (attempt st <=? max_attempts st)%Z eqn:C.
    + rewrite run_loop_turn by now rewrite C, Hs.
      rewrite Hw. destruct (cycle st w) as [st1 b] eqn:Y.
      simpl in N. subst b.
      pose proof (cycle_failed _ _ _ _ _ Y) as (A1 & M1 & S1 & _).
      pose proof (cycle_keeps_bank _ _ _ _ Y) as B.
      pose proof (attempts_left_succ st st1 C A1 M1) as E.
      destruct (IH st1 (started ++ [attempt st])) as (st' & R & S').
      * rewrite (cycle_break_same_bank st1 st w B). now rewrite Y.
      * congruence.
      * lia.
      * exists st'. rewrite R, E, <- app_assoc, A1. now split.
    + exists st. rewrite run_loop_stop by now rewrite C.
      now rewrite (attempts_left_zero st C), app_nil_r.
Qed.

(** X18.  When the files are the same at every attempt, retrying never
    helps: the run either succeeds at its first attempt or makes every
    attempt left and fails. *)
Theorem retries_cannot_help (w : files) (env : Z -> files) (fuel : nat)
  (st : AgentState) :
  (forall a, env a = w) ->
  success st = false ->
  1 <= attempts_left st <= fuel ->
  exists st',
    (run fuel env st = Some (st', [attempt st]) /\ success st' = true)
    \/ (run fuel env st
        = Some (st', count_from (attempt st) (attempts_left st))
        /\ success st' = false).
Proof.
  intros Hw Hs [L F]. unfold Agent.run.
  destruct (snd (cycle st w)) eqn:B.
  - destruct fuel as [|fuel]; [lia|].
    assert (C : (attempt st <=? max_attempts st)%Z = true).
    { unfold attempts_left in L. apply Z.leb_le. lia. }
    rewrite run_loop_turn by now rewrite C, Hs.
    rewrite Hw. destruct (cycle st w) as [st1 b] eqn:Y.
    simpl in B. subst b. exists st1. left. split; [reflexivity|].
    now apply cycle_passed in Y.
  - destruct (run_loop_all_fail w env fuel Hw st [] B Hs F) as (st' & R & S').
    exists st'. right. now split.
Qed.

(** X19.  The agent reports success only when, at the attempt it
    stopped on, the parser generated for the bank returned a table
    and the comparison of that table with the reference passed,
    exactly or leniently. *)
Theorem success_means_a_passed_comparison (env : Z -> files) (fuel : nat)
  (st st' : AgentState) (started : list Z) :
  success st = false ->
  run fuel env st = Some (st', started) ->
  success st' = true ->
  In (attempt st') started
  /\ exists result_df expected_df v,
       generated_code st'
       = Some (if eqb_str (target_bank st) (lit "icici")
               then icici_template else generic_template)
       /\ parse (if eqb_str (target_bank st) (lit "icici")
                 then icici_template else generic_template)
                (env (attempt st')) = Ok result_df
       /\ reference (env (attempt st')) = Some (Ok expected_df)
       /\ compare result_df expected_df = Ok v
       /\ passed v = true.
Proof.
  intros Hs R T. unfold Agent.run in R.
  destruct (run_loop_success env fuel st st' [] started Hs R T)
    as (st0 & B & A & I & Y).
  split; [now rewrite <- A|].
  apply cycle_passed_comparison in Y. rewrite B, A in Y. exact Y.
Qed.

End Conversions.

Lemma retries_cannot_help_example :
  exists st',
    (run decimal_text day_month_year 3 always_mismatch fresh_agent
     = Some (st', [attempt fresh_agent]) /\ success st' = true)
    \/ (run decimal_text day_month_year 3 always_mismatch fresh_agent
        = Some (st', count_from (attempt fresh_agent)
                       (attempts_left fresh_agent))
        /\ success st' = false).
Proof.
  apply (retries_cannot_help decimal_text day_month_year
           (readable_pdf other_reference)).
  - reflexivity.
  - reflexivity.
  - vm_compute. lia.
Defined.

Lemma success_means_a_passed_comparison_example :
  In 3%Z [1; 2; 3]%Z
  /\ exists result_df expected_df v,
       Some icici_template = Some icici_template
       /\ parse decimal_text day_month_year icici_template
                (third_time_lucky 3) = Ok result_df
       /\ reference (third_time_lucky 3) = Some (Ok expected_df)
       /\ compare result_df expected_df = Ok v
       /\ passed v = true.
Proof.
  exact (success_means_a_passed_comparison decimal_text day_month_year
           third_time_lucky 3 fresh_agent
           {| target_bank := lit "icici"; attempt := 3; max_attempts := 3;
              success := true; error_log := [];
              generated_code := Some icici_template |}
           [1; 2; 3]%Z eq_refl ltac:(vm_compute; reflexivity) eq_refl).
Defined.

End DriverExtras.

(** ** The demonstration scripts *)

Module ScriptExtras.
Import PyStr Scripts.

(** X20.  test_generalization.py never exits with 0: its [main] ends
    without returning a value when every command succeeds and returns
    [False] otherwise, and both count as failure. *)
Theorem test_generalization_always_exits_1 (shell : str -> completed) :
  test_generalization_main shell <> Some true
  /\ exit_status (test_generalization_main shell) = 1%Z.
Proof.
  unfold test_generalization_main.
  repeat match goal with
    | |- context [if negb ?b then _ else _] => destruct b; cbn [negb]
    end; split; (discriminate || reflexivity).
Qed.

(** X21.  demo_pdf_parsing.py never exits with 0 either, for the same
    reason. *)
Theorem demo_pdf_parsing_always_exits_1 (sbi_dir_exists : bool)
  (shell : str -> completed) :
  demo_pdf_parsing_main sbi_dir_exists shell <> Some true
  /\ exit_status (demo_pdf_parsing_main sbi_dir_exists shell) = 1%Z.
Proof.
  unfold demo_pdf_parsing_main.
  repeat match goal with
    | |- context [if negb ?b then _ else _] => destruct b; cbn [negb]
    end; split; (discriminate || reflexivity).
Qed.

End ScriptExtras.
